(** * Terraform plan renderer ([terraform/tf_out_to_md.py]): shallow embedding

    The Python functions of the plan-to-Markdown converter are transcribed as
    Rocq functions over a model of the values [json.loads] produces.  Python
    exceptions are results of type [result]; the built-ins whose exact output
    is outside the repository ([repr] of floats and containers, [str.title],
    [json.loads], the iteration order of a [set]) are section variables.

    The placeholder substitution of the template processor
    ([python/process_fmtcf.py]) is transcribed as well; its lookups in AWS
    and in the environment are a record of functions. *)

From Stdlib Require Import ZArith QArith List Bool Lia Sorting.Sorted.
From Stdlib Require Import Strings.String Strings.Ascii Numbers.DecimalString.
Import ListNotations.

Open Scope bool_scope.
Open Scope list_scope.
Open Scope string_scope.
Open Scope Z_scope.

(** ** Exceptions *)

(** The exception classes the two programs raise or let through.
    [ValueError] is a [ValueError] that is no [JSONDecodeError] (its
    subclass, the only one [except json.JSONDecodeError] catches).
    [BotoCoreError] stands for what the AWS client library raises besides
    the errors the lookups translate. *)
Inductive exn : Type :=
| AttributeError
| TypeError
| JSONDecodeError
| ValueError
| RecursionError
| RuntimeError
| BotoCoreError.

Inductive result (A : Type) : Type :=
| Ok (a : A)
| Raise (e : exn).

Arguments Ok {A} a.
Arguments Raise {A} e.

Definition bind {A B : Type} (m : result A) (k : A -> result B) : result B :=
  match m with
  | Ok a => k a
  | Raise e => Raise e
  end.

Notation "x <- m ;; k" := (bind m (fun x => k))
  (at level 61, m at next level, right associativity).

(** Monadic left-to-right loop: [for x in l: acc = body(acc, x)]. *)
Fixpoint foldM {A S : Type} (body : S -> A -> result S) (l : list A) (acc : S)
  : result S :=
  match l with
  | [] => Ok acc
  | x :: l' => acc' <- body acc x ;; foldM body l' acc'
  end.

(** ** Values produced by [json.loads]

    A [str] is the [string] of the bytes of its UTF-8 encoding (the source's
    own arrows and emoji included); what Python does per character ([len],
    a slice, [strip], a loop over a [str]) is done per code point, see the
    string helpers.  A Python [int] is a [Z].  A Python [float] read from a
    JSON document is a signed zero, an infinity (overflowing literal) or the
    rational it denotes.  The literal [NaN], which is not JSON but which
    [json.loads] accepts, has no value here: the model covers the documents
    without it.  A [dict] is the list of its items in insertion order. *)

Inductive pyfloat : Type :=
| FInf (neg : bool)
| FNegZero
| FRat (q : Q).

#[warnings="-register-all"]
Inductive value : Type :=
| VNone
| VBool (b : bool)
| VInt (z : Z)
| VFloat (f : pyfloat)
| VStr (s : string)
| VList (l : list value)
| VDict (d : list (string * value)).

(** ** String helpers (methods of [str]) *)

Fixpoint str_join (sep : string) (l : list string) : string :=
  match l with
  | [] => ""
  | [s] => s
  | s :: l' => s ++ sep ++ str_join sep l'
  end.

(** [s * n]: empty for [n <= 0]. *)
Definition str_repeat (s : string) (n : Z) : string :=
  String.concat "" (List.repeat s (Z.to_nat n)).

(** A byte that continues a character: [10xxxxxx]. *)
Definition is_continuation (c : ascii) : bool :=
  let n := nat_of_ascii c in ((128 <=? n)%nat && (n <=? 191)%nat).

(** [len(s)]: the number of code points, one for each byte that does not
    continue a character. *)
Fixpoint str_len (s : string) : nat :=
  match s with
  | String c s' => if is_continuation c then str_len s' else S (str_len s')
  | EmptyString => O
  end.

(** [s[:n]]: the first [n] code points. *)
Fixpoint str_take (n : nat) (s : string) : string :=
  match s with
  | String c s' =>
      if is_continuation c then String c (str_take n s')
      else match n with
           | O => EmptyString
           | S n' => String c (str_take n' s')
           end
  | EmptyString => EmptyString
  end.

(** The characters of [s], each as a string of its own. *)
Definition starts_with_continuation (s : string) : bool :=
  match s with
  | String c _ => is_continuation c
  | EmptyString => false
  end.

Fixpoint str_chars (s : string) : list string :=
  match s with
  | String c s' =>
      match str_chars s' with
      | ch :: chs =>
          if starts_with_continuation s' then String c ch :: chs
          else String c EmptyString :: ch :: chs
      | [] => [String c EmptyString]
      end
  | EmptyString => []
  end.

(** The white space [str.strip] removes.  In ASCII: TAB, LF, VT, FF, CR, FS,
    GS, RS, US, SPACE. *)
Definition is_space (c : ascii) : bool :=
  let n := nat_of_ascii c in
  ((9 <=? n)%nat && (n <=? 13)%nat) || ((28 <=? n)%nat && (n <=? 32)%nat).

(** In two bytes: U+0085 and U+00A0. *)
Definition is_space2 (a b : ascii) : bool :=
  (nat_of_ascii a =? 194)%nat
  && ((nat_of_ascii b =? 133)%nat || (nat_of_ascii b =? 160)%nat).

(** In three bytes: U+1680, U+2000 to U+200A, U+2028, U+2029, U+202F, U+205F
    and U+3000. *)
Definition is_space3 (a b c : ascii) : bool :=
  let x := nat_of_ascii a in
  let y := nat_of_ascii b in
  let z := nat_of_ascii c in
  ((x =? 225)%nat && (y =? 154)%nat && (z =? 128)%nat)
  || ((x =? 226)%nat && (y =? 128)%nat
      && (((128 <=? z)%nat && (z <=? 138)%nat)
          || (z =? 168)%nat || (z =? 169)%nat || (z =? 175)%nat))
  || ((x =? 226)%nat && (y =? 129)%nat && (z =? 159)%nat)
  || ((x =? 227)%nat && (y =? 128)%nat && (z =? 128)%nat).

Fixpoint lstrip (s : string) : string :=
  match s with
  | String c s1 =>
      if is_space c then lstrip s1
      else
        match s1 with
        | String c2 s2 =>
            if is_space2 c c2 then lstrip s2
            else
              match s2 with
              | String c3 s3 => if is_space3 c c2 c3 then lstrip s3 else s
              | EmptyString => s
              end
        | EmptyString => s
        end
  | EmptyString => EmptyString
  end.

(** [s.isspace()] or [s] is empty. *)
Definition all_space (s : string) : bool := (lstrip s =? "")%string.

(** The text up to the white space that ends [s]. *)
Fixpoint rstrip (s : string) : string :=
  match s with
  | String c s' => if all_space s then EmptyString else String c (rstrip s')
  | EmptyString => EmptyString
  end.

Definition strip (s : string) : string := rstrip (lstrip s).

(** [s] starts with a white space character. *)
Definition head_space (s : string) : bool :=
  match s with
  | String c s1 =>
      is_space c
      || match s1 with
         | String c2 s2 =>
             is_space2 c c2
             || match s2 with
                | String c3 _ => is_space3 c c2 c3
                | EmptyString => false
                end
         | EmptyString => false
         end
  | EmptyString => false
  end.

(** An ASCII character that is not white space. *)
Definition is_visible_ascii (c : ascii) : bool :=
  negb (is_space c) && (nat_of_ascii c <? 128)%nat.

Definition lower_char (c : ascii) : ascii :=
  let n := nat_of_ascii c in
  if ((65 <=? n)%nat && (n <=? 90)%nat) then ascii_of_nat (n + 32) else c.

Fixpoint str_lower (s : string) : string :=
  match s with
  | String c s' => String (lower_char c) (str_lower s')
  | EmptyString => EmptyString
  end.

(** [needle in hay] for two strings. *)
Fixpoint str_contains (needle hay : string) : bool :=
  String.prefix needle hay ||
  match hay with
  | String _ hay' => str_contains needle hay'
  | EmptyString => false
  end.

Definition str_of_Z (z : Z) : string := NilEmpty.string_of_int (Z.to_int z).
Definition str_of_nat (n : nat) : string := str_of_Z (Z.of_nat n).

(** ** Python operations on values *)

(** [bool(v)]. *)
Definition truthy (v : value) : bool :=
  match v with
  | VNone => false
  | VBool b => b
  | VInt z => negb (z =? 0)
  | VFloat (FInf _) => true
  | VFloat FNegZero => false
  | VFloat (FRat q) => negb (Qeq_bool q 0)
  | VStr s => negb (s =? "")%string
  | VList l => match l with [] => false | _ => true end
  | VDict d => match d with [] => false | _ => true end
  end.

Definition Z_of_bool (b : bool) : Z := if b then 1 else 0.

(** Numeric comparison of a float with an [int] (exact, as in Python). *)
Definition float_eq_Z (f : pyfloat) (z : Z) : bool :=
  match f with
  | FInf _ => false
  | FNegZero => z =? 0
  | FRat q => Qeq_bool q (inject_Z z)
  end.

Definition float_eq (f g : pyfloat) : bool :=
  match f, g with
  | FInf a, FInf b => Bool.eqb a b
  | FInf _, _ | _, FInf _ => false
  | FNegZero, FNegZero => true
  | FNegZero, FRat q | FRat q, FNegZero => Qeq_bool q 0
  | FRat p, FRat q => Qeq_bool p q
  end.

Fixpoint lookup {A : Type} (k : string) (d : list (string * A)) : option A :=
  match d with
  | [] => None
  | (k', v) :: d' => if (k =? k')%string then Some v else lookup k d'
  end.

(** [a == b]. *)
Fixpoint py_eq (a b : value) : bool :=
  match a, b with
  | VNone, VNone => true
  | VBool x, VBool y => Bool.eqb x y
  | VBool x, VInt z => Z_of_bool x =? z
  | VInt z, VBool x => z =? Z_of_bool x
  | VBool x, VFloat f => float_eq_Z f (Z_of_bool x)
  | VFloat f, VBool x => float_eq_Z f (Z_of_bool x)
  | VInt x, VInt y => x =? y
  | VInt z, VFloat f => float_eq_Z f z
  | VFloat f, VInt z => float_eq_Z f z
  | VFloat f, VFloat g => float_eq f g
  | VStr s, VStr t => (s =? t)%string
  | VList xs, VList ys =>
      (fix all2 (xs ys : list value) {struct xs} : bool :=
         match xs, ys with
         | [], [] => true
         | x :: xs', y :: ys' => py_eq x y && all2 xs' ys'
         | _, _ => false
         end) xs ys
  | VDict d1, VDict d2 =>
      (Nat.eqb (List.length d1) (List.length d2)) &&
      (fix all_in (d : list (string * value)) : bool :=
         match d with
         | [] => true
         | (k, v) :: d' =>
             match lookup k d2 with
             | Some w => py_eq v w
             | None => false
             end && all_in d'
         end) d1
  | _, _ => false
  end.

Definition py_ne (a b : value) : bool := negb (py_eq a b).

Definition is_dict (v : value) : bool :=
  match v with VDict _ => true | _ => false end.

Definition is_str (v : value) : bool :=
  match v with VStr _ => true | _ => false end.

Definition is_none (v : value) : bool :=
  match v with VNone => true | _ => false end.

(** [isinstance(v, (list, dict)) and not v]. *)
Definition is_empty_container (v : value) : bool :=
  match v with
  | VList [] => true
  | VDict [] => true
  | _ => false
  end.

(** [d.get(k, default)]; only a [dict] has the method. *)
Definition py_get (d : value) (k : string) (default : value) : result value :=
  match d with
  | VDict items =>
      Ok (match lookup k items with Some v => v | None => default end)
  | _ => Raise AttributeError
  end.

(** [d.get(k)]. *)
Definition py_get1 (d : value) (k : string) : result value := py_get d k VNone.

(** [d.get(k)] for a [d] already known to be a [dict]. *)
Definition items_get (items : list (string * value)) (k : string) : value :=
  match lookup k items with Some v => v | None => VNone end.

(** [s in v] for a string literal [s]. *)
Definition py_in (s : string) (v : value) : result bool :=
  match v with
  | VList l => Ok (existsb (fun x => py_eq x (VStr s)) l)
  | VDict d => Ok (existsb (fun kv => (fst kv =? s)%string) d)
  | VStr t => Ok (str_contains s t)
  | _ => Raise TypeError
  end.

(** [for x in v]: the elements a loop over [v] visits. *)
Definition py_iter (v : value) : result (list value) :=
  match v with
  | VList l => Ok l
  | VDict d => Ok (map (fun kv => VStr (fst kv)) d)
  | VStr s => Ok (map VStr (str_chars s))
  | _ => Raise TypeError
  end.

(** [d[k] = v] on a dict: an existing key keeps its position. *)
Fixpoint items_set {A : Type} (items : list (string * A)) (k : string) (v : A)
  : list (string * A) :=
  match items with
  | [] => [(k, v)]
  | (k', v') :: items' =>
      if (k =? k')%string then (k', v) :: items'
      else (k', v') :: items_set items' k v
  end.

Definition py_setitem (d : value) (k : string) (v : value) : result value :=
  match d with
  | VDict items => Ok (VDict (items_set items k v))
  | _ => Raise TypeError
  end.

(** ** Stand-ins for the built-ins, used to run the model on sample inputs

    The samples below contain no float and no nested container, so the first
    two are never consulted on them; [sample_str_title] is [str.title] on
    ASCII text; [sample_set_order] visits each key once, in the order of the
    last occurrences. *)

Definition sample_float_repr (f : pyfloat) : string := "<float>".
Definition sample_container_repr (v : value) : string := "<container>".

Definition is_lower (c : ascii) : bool :=
  let n := nat_of_ascii c in ((97 <=? n)%nat && (n <=? 122)%nat).

Definition is_upper (c : ascii) : bool :=
  let n := nat_of_ascii c in ((65 <=? n)%nat && (n <=? 90)%nat).

Definition upper_char (c : ascii) : ascii :=
  if is_lower c then ascii_of_nat (nat_of_ascii c - 32) else c.

(** [s.title()] on ASCII text: a letter is upper-cased after a character
    that is not a letter (or at the start) and lower-cased after a letter. *)
Fixpoint title_from (previous_is_cased : bool) (s : string) : string :=
  match s with
  | EmptyString => EmptyString
  | String c s' =>
      if is_lower c
      then String (if previous_is_cased then c else upper_char c)
             (title_from true s')
      else if is_upper c
           then String (if previous_is_cased then lower_char c else c)
                  (title_from true s')
           else String c (title_from false s')
  end.

Definition sample_str_title (s : string) : string := title_from false s.

Fixpoint dedup (l : list string) : list string :=
  match l with
  | [] => []
  | k :: l' =>
      if existsb (String.eqb k) l' then dedup l' else k :: dedup l'
  end.

Definition sample_set_order (l : list string) : list string := dedup l.

(** JSON texts and the values [json.loads] returns for them; the stand-in
    parser knows these texts and rejects every other string, the empty string
    included. *)

Definition dq : string := String "034"%char EmptyString.

Definition quoted (s : string) : string := dq ++ s ++ dq.

(** [{"terraform_version": "1.5.0"}] *)
Definition text_show_document : string :=
  "{" ++ quoted "terraform_version" ++ ": " ++ quoted "1.5.0" ++ "}".

Definition value_show_document : value :=
  VDict [("terraform_version", VStr "1.5.0")].

(** [{"type": "planned_change", "change": {"resource": {"addr": "aws_s3_bucket.b"}, "action": ACTION}}] *)
Definition text_planned_change (action : string) : string :=
  "{" ++ quoted "type" ++ ": " ++ quoted "planned_change" ++ ", "
      ++ quoted "change" ++ ": {" ++ quoted "resource" ++ ": {"
      ++ quoted "addr" ++ ": " ++ quoted "aws_s3_bucket.b" ++ "}, "
      ++ quoted "action" ++ ": " ++ quoted action ++ "}}".

Definition value_planned_change (action : string) : value :=
  VDict [("type", VStr "planned_change");
         ("change", VDict [("resource",
                            VDict [("addr", VStr "aws_s3_bucket.b")]);
                           ("action", VStr action)])].

Definition sample_json_loads (s : string) : result value :=
  match lookup s [(text_show_document, value_show_document);
                  (text_planned_change "create",
                   value_planned_change "create");
                  (text_planned_change "update",
                   value_planned_change "update")] with
  | Some v => Ok v
  | None => Raise JSONDecodeError
  end.

(** Sample documents. *)

Definition nl : string := String "010"%char EmptyString.

(** A blank first line, then a full document on the second line. *)
Definition doc_blank_then_show : string := nl ++ text_show_document.

(** A no-break space (U+00A0, bytes C2 A0), which [str.strip] removes. *)
Definition nbsp : string := String "194"%char (String "160"%char EmptyString).

(** A full document on one line, between no-break spaces. *)
Definition doc_nbsp_show : string := nbsp ++ text_show_document ++ nbsp ++ nl.

(** A create and then an update of the same address. *)
Definition doc_create_then_update : string :=
  text_planned_change "create" ++ nl ++ text_planned_change "update" ++ nl.

(** An update together with a read, only the tags differ. *)
Definition rc_update_read_tags : value :=
  VDict [("address", VStr "aws_s3_bucket.b");
         ("change",
          VDict [("actions", VList [VStr "update"; VStr "read"]);
                 ("before", VDict [("tags", VDict [("Name", VStr "a")])]);
                 ("after", VDict [("tags", VDict [("Name", VStr "b")])])])].

(** A plain update, only the tags differ. *)
Definition rc_update_tags : value :=
  VDict [("address", VStr "aws_s3_bucket.b");
         ("change",
          VDict [("actions", VList [VStr "update"]);
                 ("before", VDict [("tags", VDict [("Name", VStr "a")])]);
                 ("after", VDict [("tags", VDict [("Name", VStr "b")])])]);
         ("tags_only", VBool true)].

(** A tags-only record that gains a tag: [tags] and [tags_all] were both
    empty and both receive the same key. *)
Definition rc_tag_added : value :=
  VDict [("address", VStr "aws_s3_bucket.b");
         ("change",
          VDict [("actions", VList [VStr "update"]);
                 ("before", VDict [("tags", VDict []);
                                   ("tags_all", VDict [])]);
                 ("after", VDict [("tags", VDict [("Owner", VStr "x")]);
                                  ("tags_all",
                                   VDict [("Owner", VStr "x")])])]);
         ("tags_only", VBool true)].

(** One unchanged output and one sensitive output. *)
Definition two_outputs : list (string * value) :=
  [("bucket_arn",
    VDict [("actions", VList [VStr "no-op"]);
           ("before", VStr "arn:x");
           ("after", VStr "arn:x");
           ("sensitive", VBool false)]);
   ("db_password",
    VDict [("actions", VList [VStr "update"]);
           ("before", VStr "old");
           ("after", VStr "new");
           ("sensitive", VBool true)])].

(** One created resource and the two outputs. *)
Definition plan_two_outputs : value :=
  VDict [("resource_changes",
          VList [VDict [("address", VStr "aws_s3_bucket.b");
                        ("type", VStr "aws_s3_bucket");
                        ("change",
                         VDict [("actions", VList [VStr "create"])])]]);
         ("output_changes", VDict two_outputs)].

Definition six_items : value :=
  VList [VInt 1; VInt 2; VInt 3; VInt 4; VInt 5; VInt 6].

(** ** More sample inputs *)

(** [{"type": "version", "terraform": "1.9.0"}] *)
Definition text_version_event : string :=
  "{" ++ quoted "type" ++ ": " ++ quoted "version" ++ ", "
      ++ quoted "terraform" ++ ": " ++ quoted "1.9.0" ++ "}".

Definition value_version_event : value :=
  VDict [("type", VStr "version"); ("terraform", VStr "1.9.0")].

(** [{"@level": "error", "type": "diagnostic", "diagnostic": {"summary": "Invalid reference"}}] *)
Definition text_error_event : string :=
  "{" ++ quoted "@level" ++ ": " ++ quoted "error" ++ ", "
      ++ quoted "type" ++ ": " ++ quoted "diagnostic" ++ ", "
      ++ quoted "diagnostic" ++ ": {" ++ quoted "summary" ++ ": "
      ++ quoted "Invalid reference" ++ "}}".

Definition value_error_event : value :=
  VDict [("@level", VStr "error");
         ("type", VStr "diagnostic");
         ("diagnostic", VDict [("summary", VStr "Invalid reference")])].

Fixpoint ones (n : nat) : string :=
  match n with
  | O => EmptyString
  | S n' => String "1" (ones n')
  end.

(** An integer literal of 4301 digits, one more than [int] converts from a
    string: [json.loads] raises [ValueError] on it. *)
Definition text_long_integer : string := ones 4301.

(** A stand-in parser for the lines of a stream: the texts above, one
    planned change and the number 5; [ValueError] on the long integer; every
    other string is rejected. *)
Definition stream_json_loads (s : string) : result value :=
  if (s =? text_long_integer)%string then Raise ValueError else
  match lookup s [(text_version_event, value_version_event);
                  (text_error_event, value_error_event);
                  (text_planned_change "create",
                   value_planned_change "create");
                  ("5", VInt 5)] with
  | Some v => Ok v
  | None => Raise JSONDecodeError
  end.

(** A version record, then the long integer on a line of its own. *)
Definition doc_long_integer : string :=
  text_version_event ++ nl ++ text_long_integer ++ nl
    ++ text_planned_change "create" ++ nl.

(** A version record, an error and a planned create. *)
Definition doc_stream : string :=
  text_version_event ++ nl ++ text_error_event ++ nl
    ++ text_planned_change "create" ++ nl.

(** A version record, then a line holding the number 5. *)
Definition doc_number_line : string :=
  text_version_event ++ nl ++ "5" ++ nl ++ text_planned_change "create" ++ nl.

(** A pretty-printed (empty) object: no line of it parses on its own. *)
Definition doc_pretty_printed : string := "{" ++ nl ++ "}" ++ nl.

(** The record the line-oriented parser builds for the planned create. *)
Definition rc_streamed_create : value :=
  VDict [("address", VStr "aws_s3_bucket.b");
         ("module", VStr "");
         ("type", VStr "");
         ("name", VStr "");
         ("change",
          VDict [("actions", VList [VStr "create"]);
                 ("before", VDict []);
                 ("after", VDict []);
                 ("after_unknown", VDict []);
                 ("before_sensitive", VDict []);
                 ("after_sensitive", VDict []);
                 ("action_reason", VNone)]);
         ("tags_only", VBool false)].

(** A resource whose actions hold "create" and "update". *)
Definition rc_create_update : value :=
  VDict [("address", VStr "aws_s3_bucket.b");
         ("change",
          VDict [("actions", VList [VStr "create"; VStr "update"])])].

(** A tags-only record that gains the tag "Env" with value "x". *)
Definition rc_env_added : value :=
  VDict [("address", VStr "aws_s3_bucket.a");
         ("change",
          VDict [("actions", VList [VStr "update"]);
                 ("before", VDict [("tags", VDict [("Team", VStr "a")])]);
                 ("after", VDict [("tags", VDict [("Team", VStr "a");
                                                  ("Env", VStr "x")])])]);
         ("tags_only", VBool true)].

(** A tags-only record that changes the tag "Env" from the text "None" to
    "x". *)
Definition rc_env_from_none_text : value :=
  VDict [("address", VStr "aws_s3_bucket.c");
         ("change",
          VDict [("actions", VList [VStr "update"]);
                 ("before", VDict [("tags", VDict [("Env", VStr "None")])]);
                 ("after", VDict [("tags", VDict [("Env", VStr "x")])])]);
         ("tags_only", VBool true)].

(** A plain update of the tags, as the plan file has it (not yet marked). *)
Definition rc_update_tags_unmarked : value :=
  VDict [("address", VStr "aws_s3_bucket.b");
         ("change",
          VDict [("actions", VList [VStr "update"]);
                 ("before", VDict [("tags", VDict [("Name", VStr "a")])]);
                 ("after", VDict [("tags", VDict [("Name", VStr "b")])])])].

(** A tags-only record that changes the tag "Name" from "a" to "c". *)
Definition rc_update_tags_other : value :=
  VDict [("address", VStr "aws_s3_bucket.c");
         ("change",
          VDict [("actions", VList [VStr "update"]);
                 ("before", VDict [("tags", VDict [("Name", VStr "a")])]);
                 ("after", VDict [("tags", VDict [("Name", VStr "c")])])]);
         ("tags_only", VBool true)].

(** A change of a database password, flagged sensitive after the change. *)
Definition change_password (before after : string) : value :=
  VDict [("before", VDict [("name", VStr "db"); ("password", VStr before)]);
         ("after", VDict [("name", VStr "db"); ("password", VStr after)]);
         ("before_sensitive", VDict []);
         ("after_sensitive", VDict [("password", VBool true)])].

(** A deletion with a reason; the password is flagged sensitive. *)
Definition change_delete_db : value :=
  VDict [("actions", VList [VStr "delete"]);
         ("before", VDict [("name", VStr "db"); ("password", VStr "hunter2")]);
         ("action_reason", VStr "delete_because_no_resource_config");
         ("before_sensitive", VDict [("password", VBool true)]);
         ("after_sensitive", VBool false)].

Definition rc_delete_db : value :=
  VDict [("address", VStr "aws_db_instance.db");
         ("type", VStr "aws_db_instance");
         ("change", change_delete_db)].

(** A replacement forced by two attributes, one of them named twice. *)
Definition change_replace_paths : value :=
  VDict [("actions", VList [VStr "delete"; VStr "create"]);
         ("replace_paths",
          VList [VList [VStr "name_prefix"];
                 VList [VStr "ami"];
                 VList [VStr "name_prefix"; VStr "x"];
                 VList []])].

(** A plan with one created resource. *)
Definition plan_one_create : value :=
  VDict [("resource_changes",
          VList [VDict [("address", VStr "aws_s3_bucket.b");
                        ("type", VStr "aws_s3_bucket");
                        ("change",
                         VDict [("actions", VList [VStr "create"])])]])].

(** * Template processor ([python/process_fmtcf.py])

    [get_aws_parameter] and [get_aws_secret] call boto3 and are taken as
    given; the environment is a partial map.  What the functions write to
    [stderr] is not modelled. *)

(** What a function of the processor does: it returns, or raises an
    exception with its message. *)
Inductive outcome (A : Type) : Type :=
| Returned (a : A)
| Raised (e : exn) (message : string).

Arguments Returned {A} a.
Arguments Raised {A} e message.

Definition and_next {A B : Type} (m : outcome A) (k : A -> outcome B)
  : outcome B :=
  match m with
  | Returned a => k a
  | Raised e message => Raised e message
  end.

(** The lookups outside the program: [get_aws_parameter(name, region)],
    [get_aws_secret(name, region)] and [os.environ.get(name)]. *)
Record services : Type := mk_services {
  get_aws_parameter : string -> option string -> outcome string;
  get_aws_secret : string -> option string -> outcome string;
  environ_get : string -> option string
}.

Definition get_env_var (sv : services) (name : string) : outcome string :=
  match environ_get sv name with
  | None =>
      Raised ValueError ("Environment variable '" ++ name ++ "' not found")
  | Some value => Returned value
  end.

(** [replace_placeholder(match)], with [match.group(1)], [match.group(2)]
    and [match.group(0)]. *)
Definition replace_placeholder (sv : services) (region : option string)
  (placeholder_type name group0 : string) : outcome string :=
  if (placeholder_type =? "AWS-PARAMETER")%string
  then get_aws_parameter sv name region
  else if (placeholder_type =? "AWS-SECRET")%string
       then get_aws_secret sv name region
       else if (placeholder_type =? "ENV")%string
            then get_env_var sv name
            else Returned group0.

(** The class [[a-zA-Z0-9_\-/]]. *)
Definition is_name_char (c : ascii) : bool :=
  let n := nat_of_ascii c in
  ((97 <=? n)%nat && (n <=? 122)%nat) || ((65 <=? n)%nat && (n <=? 90)%nat)
  || ((48 <=? n)%nat && (n <=? 57)%nat)
  || (n =? 95)%nat || (n =? 45)%nat || (n =? 47)%nat.

(** The longest prefix of [s] made of name characters: what the greedy
    [[...]+] takes. *)
Fixpoint name_prefix (s : string) : string :=
  match s with
  | String c s' => if is_name_char c then String c (name_prefix s') else ""
  | EmptyString => ""
  end.

(** [s] without its prefix [p], when it has that prefix. *)
Fixpoint after_prefix (p s : string) : option string :=
  match p with
  | EmptyString => Some s
  | String a p' =>
      match s with
      | String b s' => if Ascii.eqb a b then after_prefix p' s' else None
      | EmptyString => None
      end
  end.

(** One alternative of the pattern at the start of [s]: groups 1 and 2. *)
Definition match_alternative (placeholder_type s : string)
  : option (string * string) :=
  match after_prefix (placeholder_type ++ "::") s with
  | Some rest =>
      let name := name_prefix rest in
      if (name =? "")%string then None else Some (placeholder_type, name)
  | None => None
  end.

(** The pattern [(AWS-PARAMETER|AWS-SECRET|ENV)::([a-zA-Z0-9_\-/]+)] at the
    start of [s]; the alternatives are tried in order. *)
Definition match_here (s : string) : option (string * string) :=
  match match_alternative "AWS-PARAMETER" s with
  | Some m => Some m
  | None =>
      match match_alternative "AWS-SECRET" s with
      | Some m => Some m
      | None => match_alternative "ENV" s
      end
  end.

(** [re.sub(pattern, repl, content)]: the text is scanned from the left;
    where the pattern matches, the match is replaced by what [repl] returns
    and the scan goes on after the match ([skip] counts the characters of the
    match still to pass); elsewhere the character is copied. *)
Fixpoint re_sub (repl : string -> string -> string -> outcome string)
  (content : string) (skip : nat) : outcome string :=
  match content with
  | EmptyString => Returned ""
  | String c rest =>
      match skip with
      | S n => re_sub repl rest n
      | O =>
          match match_here content with
          | Some (placeholder_type, name) =>
              let group0 := placeholder_type ++ "::" ++ name in
              and_next (repl placeholder_type name group0) (fun value =>
              and_next (re_sub repl rest (String.length group0 - 1))
                (fun tail => Returned (value ++ tail)))
          | None =>
              and_next (re_sub repl rest 0)
                (fun tail => Returned (String c tail))
          end
      end
  end.

Definition process_placeholders (sv : services) (content : string)
  (region : option string) : outcome string :=
  re_sub (replace_placeholder sv region) content 0.

(** Sample services: one parameter, no secret, one environment variable. *)
Definition sample_services : services :=
  mk_services
    (fun name region =>
       if (name =? "/app/db/host")%string then Returned "db.internal"
       else Raised ValueError ("AWS Parameter '" ++ name ++ "' not found"))
    (fun name region =>
       Raised ValueError ("AWS Secret '" ++ name ++ "' not found"))
    (fun name => if (name =? "HOME")%string then Some "ENV::USER" else None).

Section Converter.

Set Default Proof Using "Type".

(** [repr] of a float, [repr] of a list or dict: Python built-ins. *)
Variable float_repr : pyfloat -> string.
Variable container_repr : value -> string.

(** [str.title], which knows the case of every letter of Unicode. *)
Variable str_title : string -> string.

(** [json.loads]: the value, [JSONDecodeError] for a text that is not JSON,
    or another exception ([ValueError] for an integer literal beyond the
    digit limit, [RecursionError] for too deep a nesting). *)
Variable json_loads : string -> result value.

(** The order in which a [set] holding the given keys is iterated. *)
Variable set_order : list string -> list string.
Hypothesis set_order_In : forall l k, In k (set_order l) <-> In k l.
Hypothesis set_order_NoDup : forall l, NoDup (set_order l).

(** [str(v)], also what an f-string substitutes for [{v}]. *)
Definition py_str (v : value) : string :=
  match v with
  | VNone => "None"
  | VBool true => "True"
  | VBool false => "False"
  | VInt z => str_of_Z z
  | VFloat f => float_repr f
  | VStr s => s
  | VList _ | VDict _ => container_repr v
  end.

(** ** [get_action_emoji] *)

Definition label_create : string := "➕ **CREATE**".
Definition label_delete : string := "🗑️ **DELETE**".
Definition label_update : string := "🔄 **UPDATE**".
Definition label_replace : string := "🔁 **REPLACE**".
Definition label_read : string := "📖 **READ**".
Definition label_noop : string := "⚪ **NO-OP**".

Definition get_action_emoji (actions : value) : result string :=
  c <- py_in "create" actions ;;
  if c then Ok label_create else
  d <- py_in "delete" actions ;;
  if d then Ok label_delete else
  u <- py_in "update" actions ;;
  if u then Ok label_update else
  r <- py_in "replace" actions ;;
  r' <- (if r then Ok true
         else d' <- py_in "delete" actions ;;
              if d' then py_in "create" actions else Ok false) ;;
  if r' then Ok label_replace else
  rd <- py_in "read" actions ;;
  if rd then Ok label_read else Ok label_noop.

(** ** [format_value]

    The final [else] of the source (a value that is none of the JSON types)
    is not reachable from [json.loads] output and has no counterpart. *)

Fixpoint format_value (v : value) (indent : Z) : string :=
  let prefix := str_repeat "  " indent in
  match v with
  | VNone => ""
  | VBool _ => prefix ++ "`" ++ str_lower (py_str v) ++ "`"
  | VInt _ | VFloat _ => prefix ++ "`" ++ py_str v ++ "`"
  | VStr s =>
      if (s =? "")%string then ""
      else if (100 <? str_len s)%nat
           then prefix ++ "`" ++ str_take 97 s ++ "...`"
           else prefix ++ "`" ++ s ++ "`"
  | VList l =>
      match l with
      | [] => ""
      | _ =>
          if (5 <? List.length l)%nat
          then prefix ++ "List with " ++ str_of_nat (List.length l) ++ " items"
          else prefix ++
               str_join ", " (map (fun x => strip (format_value x 0)) l)
      end
  | VDict d =>
      match d with
      | [] => ""
      | _ => prefix ++ "Object with " ++ str_of_nat (List.length d)
                   ++ " properties"
      end
  end.

(** ** [format_change] *)

(** [x is None or (isinstance(x, (list, dict)) and not x)]. *)
Definition none_or_empty (x : value) : bool :=
  is_none x || is_empty_container x.

Definition nonempty (s : string) : bool := negb (s =? "")%string.

Definition format_change (before after : value) (key : string) (indent : Z)
  : list string :=
  let prefix := str_repeat "  " indent in
  if none_or_empty before && none_or_empty after then []
  else if none_or_empty after then []
  else if none_or_empty before then
    let after_str := strip (format_value after 0) in
    if nonempty after_str
    then [prefix ++ "- **" ++ key ++ "**: " ++ after_str]
    else []
  else if py_ne before after then
    let before_str := strip (format_value before 0) in
    let after_str := strip (format_value after 0) in
    if nonempty before_str || nonempty after_str then
      if nonempty before_str && nonempty after_str
      then [prefix ++ "- **" ++ key ++ "**: ~~" ++ before_str ++ "~~ → "
                   ++ after_str]
      else if nonempty after_str
           then [prefix ++ "- **" ++ key ++ "**: " ++ after_str]
           else []
    else []
  else [].

(** ** [extract_all_tag_changes] *)

(** One entry of [tag_changes[tag_key]]:
    [{"before": ..., "after": ..., "count": ...}]. *)
Record tag_group : Type := mk_group {
  g_before : value;
  g_after : value;
  g_count : nat
}.

(** [tag_changes]: tag key -> change key -> group, both dicts in insertion
    order. *)
Definition tag_changes_t : Type := list (string * list (string * tag_group)).

(** An entry of the returned dict: either
    [{"before", "after", "count", "is_common"}] or
    [{"changes": [...], "is_common": False}]. *)
Inductive tag_summary : Type :=
| SingleChange (before after : value) (count : nat) (is_common : bool)
| MultipleChanges (changes : list tag_group).

Definition is_common (e : tag_summary) : bool :=
  match e with
  | SingleChange _ _ _ c => c
  | MultipleChanges _ => false
  end.

(** Body of [if before_val != after_val:] (source lines 164-177). *)
Definition record_change (tag_changes : tag_changes_t) (tag_key : string)
  (before_val after_val : value) : tag_changes_t :=
  let change_key := py_str before_val ++ "→" ++ py_str after_val in
  let tag_changes1 :=
    match lookup tag_key tag_changes with
    | Some _ => tag_changes
    | None => items_set tag_changes tag_key []
    end in
  let groups := match lookup tag_key tag_changes1 with
                | Some g => g
                | None => []
                end in
  let groups1 :=
    match lookup change_key groups with
    | Some _ => groups
    | None => items_set groups change_key (mk_group before_val after_val 0)
    end in
  let groups2 :=
    match lookup change_key groups1 with
    | Some g =>
        items_set groups1 change_key
          (mk_group (g_before g) (g_after g) (S (g_count g)))
    | None => groups1
    end in
  items_set tag_changes1 tag_key groups2.

(** Body of [for tag_key in all_tag_keys:]. *)
Definition scan_tag_key (before_tags after_tags : list (string * value))
  (tag_changes : tag_changes_t) (tag_key : string) : tag_changes_t :=
  let before_val := items_get before_tags tag_key in
  let after_val := items_get after_tags tag_key in
  if py_ne before_val after_val
  then record_change tag_changes tag_key before_val after_val
  else tag_changes.

(** [for tag_field in ["tags", "tags_all"]:] with its [break]. *)
Fixpoint scan_tag_fields (before after : value) (fields : list string)
  (tag_changes : tag_changes_t) : result tag_changes_t :=
  match fields with
  | [] => Ok tag_changes
  | tag_field :: rest =>
      before_tags <- py_get before tag_field (VDict []) ;;
      after_tags <- py_get after tag_field (VDict []) ;;
      match before_tags, after_tags with
      | VDict bt, VDict at_ =>
          let all_tag_keys := set_order (map fst bt ++ map fst at_) in
          let tag_changes' :=
            fold_left (scan_tag_key bt at_) all_tag_keys tag_changes in
          if (tag_field =? "tags")%string && truthy before_tags
          then Ok tag_changes'
          else scan_tag_fields before after rest tag_changes'
      | _, _ => scan_tag_fields before after rest tag_changes
      end
  end.

(** Body of [for rc in tags_only_resources:]. *)
Definition scan_resource (tag_changes : tag_changes_t) (rc : value)
  : result tag_changes_t :=
  change <- py_get rc "change" (VDict []) ;;
  before <- py_get change "before" (VDict []) ;;
  after <- py_get change "after" (VDict []) ;;
  scan_tag_fields before after ["tags"; "tags_all"] tag_changes.

Definition collect_tags_only (resource_changes : list value)
  : result (list value) :=
  foldM (fun acc rc =>
           t <- py_get rc "tags_only" (VBool false) ;;
           Ok (if truthy t then (acc ++ [rc])%list else acc))
        resource_changes [].

(** First loop of the function: the grouping [tag_changes]. *)
Definition collect_tag_changes (tags_only_resources : list value)
  : result tag_changes_t :=
  foldM scan_resource tags_only_resources [].

(** Body of [for tag_key, changes in tag_changes.items():]. *)
Definition flatten_changes (total_resources : nat)
  (changes : list (string * tag_group)) : tag_summary :=
  match changes with
  | [(_, change_info)] =>
      if Nat.eqb (g_count change_info) total_resources
      then SingleChange (g_before change_info) (g_after change_info)
             total_resources true
      else SingleChange (g_before change_info) (g_after change_info)
             (g_count change_info) false
  | _ => MultipleChanges (map snd changes)
  end.

Definition extract_all_tag_changes (resource_changes : list value)
  : result (list (string * tag_summary)) :=
  tags_only_resources <- collect_tags_only resource_changes ;;
  match tags_only_resources with
  | [] => Ok []
  | _ =>
      let total_resources := List.length tags_only_resources in
      tag_changes <- collect_tag_changes tags_only_resources ;;
      Ok (map (fun kc => (fst kc, flatten_changes total_resources (snd kc)))
              tag_changes)
  end.

(** ** [convert_plan_to_markdown]: counting changes by action
    (source lines 267-296) *)

(** The keys of the [action_counts] dict. *)
Inductive bucket : Type :=
| BCreate | BDelete | BUpdate | BUpdateTagsOnly | BReplace | BRead | BNoOp.

Record action_counts : Type := mk_counts {
  n_create : nat;
  n_delete : nat;
  n_update : nat;
  n_update_tags_only : nat;
  n_replace : nat;
  n_read : nat;
  n_noop : nat
}.

Definition zero_counts : action_counts := mk_counts 0 0 0 0 0 0 0.

Definition count_of (b : bucket) (c : action_counts) : nat :=
  match b with
  | BCreate => n_create c
  | BDelete => n_delete c
  | BUpdate => n_update c
  | BUpdateTagsOnly => n_update_tags_only c
  | BReplace => n_replace c
  | BRead => n_read c
  | BNoOp => n_noop c
  end.

(** [action_counts[b] += 1]. *)
Definition increment (b : bucket) (c : action_counts) : action_counts :=
  match b with
  | BCreate => mk_counts (S (n_create c)) (n_delete c) (n_update c)
                 (n_update_tags_only c) (n_replace c) (n_read c) (n_noop c)
  | BDelete => mk_counts (n_create c) (S (n_delete c)) (n_update c)
                 (n_update_tags_only c) (n_replace c) (n_read c) (n_noop c)
  | BUpdate => mk_counts (n_create c) (n_delete c) (S (n_update c))
                 (n_update_tags_only c) (n_replace c) (n_read c) (n_noop c)
  | BUpdateTagsOnly =>
      mk_counts (n_create c) (n_delete c) (n_update c)
        (S (n_update_tags_only c)) (n_replace c) (n_read c) (n_noop c)
  | BReplace => mk_counts (n_create c) (n_delete c) (n_update c)
                  (n_update_tags_only c) (S (n_replace c)) (n_read c)
                  (n_noop c)
  | BRead => mk_counts (n_create c) (n_delete c) (n_update c)
               (n_update_tags_only c) (n_replace c) (S (n_read c)) (n_noop c)
  | BNoOp => mk_counts (n_create c) (n_delete c) (n_update c)
               (n_update_tags_only c) (n_replace c) (n_read c) (S (n_noop c))
  end.

(** [a and b] on two membership tests: [b] is evaluated only if [a] holds. *)
Definition and_then (a : result bool) (b : result bool) : result bool :=
  x <- a ;; if x then b else Ok false.

Definition or_else (a : result bool) (b : result bool) : result bool :=
  x <- a ;; if x then Ok true else b.

(** [rc.get("change", {}).get("actions", [])]. *)
Definition rc_actions (rc : value) : result value :=
  change <- py_get rc "change" (VDict []) ;;
  py_get change "actions" (VList []).

Definition bucket_eqb (a b : bucket) : bool :=
  match a, b with
  | BCreate, BCreate | BDelete, BDelete | BUpdate, BUpdate
  | BUpdateTagsOnly, BUpdateTagsOnly | BReplace, BReplace
  | BRead, BRead | BNoOp, BNoOp => true
  | _, _ => false
  end.

(** Body of [for rc in resource_changes:] in the counting loop. *)
Definition count_resource (counts : action_counts) (rc : value)
  : result action_counts :=
  actions <- rc_actions rc ;;
  tags_only <- py_get rc "tags_only" (VBool false) ;;
  cd <- and_then (py_in "create" actions) (py_in "delete" actions) ;;
  if cd then Ok (increment BReplace counts) else
  c <- py_in "create" actions ;;
  if c then Ok (increment BCreate counts) else
  d <- py_in "delete" actions ;;
  if d then Ok (increment BDelete counts) else
  u <- py_in "update" actions ;;
  if u then
    if truthy tags_only
    then Ok (increment BUpdateTagsOnly counts)
    else Ok (increment BUpdate counts)
  else
  r <- py_in "read" actions ;;
  if r then Ok (increment BRead counts)
  else Ok (increment BNoOp counts).

Definition count_actions (resource_changes : list value)
  : result action_counts :=
  foldM count_resource resource_changes zero_counts.

(** ** [parse_terraform_show_json] *)

(** The loop building [changed_attrs]; the set is the list of its members. *)
Definition changed_attrs_of (before after : list (string * value))
  (after_unknown : value) : result (list string) :=
  foldM (fun changed_attrs key =>
           skip <- (if truthy after_unknown
                    then u <- py_get1 after_unknown key ;; Ok (truthy u)
                    else Ok false) ;;
           if skip then Ok changed_attrs
           else if py_ne (items_get before key) (items_get after key)
                then Ok (changed_attrs ++ [key])%list
                else Ok changed_attrs)
        (set_order (map fst before ++ map fst after)) [].

Definition is_tag_attr (key : string) : bool :=
  (key =? "tags")%string || (key =? "tags_all")%string.

(** The value the loop body stores in [rc["tags_only"]]. *)
Definition tags_only_flag (rc : value) : result bool :=
  change <- py_get rc "change" (VDict []) ;;
  actions <- py_get change "actions" (VList []) ;;
  is_update <-
    and_then (py_in "update" actions)
      (and_then (c <- py_in "create" actions ;; Ok (negb c))
                (d <- py_in "delete" actions ;; Ok (negb d))) ;;
  if is_update then
    before <- py_get change "before" (VDict []) ;;
    after <- py_get change "after" (VDict []) ;;
    after_unknown <- py_get change "after_unknown" (VDict []) ;;
    match before, after with
    | VDict b, VDict a =>
        changed_attrs <- changed_attrs_of b a after_unknown ;;
        Ok (match changed_attrs with [] => false | _ => true end
            && forallb is_tag_attr changed_attrs)
    | _, _ => Ok false
    end
  else Ok false.

Definition mark_tags_only (rc : value) : result value :=
  flag <- tags_only_flag rc ;;
  py_setitem rc "tags_only" (VBool flag).

Fixpoint mapM {A B : Type} (f : A -> result B) (l : list A)
  : result (list B) :=
  match l with
  | [] => Ok []
  | x :: l' => y <- f x ;; ys <- mapM f l' ;; Ok (y :: ys)
  end.

(** The function after [data = json.load(f)].  The records are updated in
    place, so the returned [data] holds the marked records. *)
Definition mark_document (data : value) : result value :=
  resource_changes <- py_get data "resource_changes" (VList []) ;;
  rcs <- py_iter resource_changes ;;
  rcs' <- mapM mark_tags_only rcs ;;
  match data with
  | VDict items =>
      match lookup "resource_changes" items with
      | Some (VList _) =>
          Ok (VDict (items_set items "resource_changes" (VList rcs')))
      | _ => Ok data
      end
  | _ => Ok data
  end.

Definition parse_terraform_show_json (content : string) : result value :=
  data <- json_loads content ;;
  mark_document data.

(** ** Reading a text file

    [content] is the text of the file as Python's text mode delivers it, line
    ends already translated to LF. *)

Definition newline : ascii := "010"%char.

(** [f.readline()] on a file holding [content]. *)
Fixpoint readline (content : string) : string :=
  match content with
  | EmptyString => EmptyString
  | String c rest =>
      if Ascii.eqb c newline then String c EmptyString
      else String c (readline rest)
  end.

(** [for line in f]: the lines, each with its terminator. *)
Fixpoint file_lines (content : string) : list string :=
  match content with
  | EmptyString => []
  | String c rest =>
      if Ascii.eqb c newline then String c EmptyString :: file_lines rest
      else match file_lines rest with
           | [] => [String c EmptyString]
           | l :: ls => String c l :: ls
           end
  end.

(** ** [detect_json_format] *)

Definition detect_json_format (content : string) : result string :=
  let first_line := strip (readline content) in
  match json_loads first_line with
  | Ok obj =>
      s <- or_else (py_in "@level" obj) (py_in "type" obj) ;;
      if s then Ok "streaming" else
      w <- or_else (py_in "terraform_version" obj)
                   (py_in "resource_changes" obj) ;;
      if w then Ok "show" else Ok "unknown"
  | Raise JSONDecodeError => Ok "unknown"
  | Raise e => Raise e
  end.

(** ** [parse_terraform_json_lines] *)

(** Values usable as dict keys. *)
Definition hashable (v : value) : bool :=
  match v with
  | VList _ | VDict _ => false
  | _ => true
  end.

(** A dict keyed by arbitrary hashable values ([planned_changes]): lookup and
    assignment compare keys with [==]. *)
Fixpoint kv_lookup (k : value) (d : list (value * value)) : option value :=
  match d with
  | [] => None
  | (k', v) :: d' => if py_eq k' k then Some v else kv_lookup k d'
  end.

Fixpoint kv_set (d : list (value * value)) (k v : value)
  : list (value * value) :=
  match d with
  | [] => [(k, v)]
  | (k', v') :: d' =>
      if py_eq k' k then (k', v) :: d' else (k', v') :: kv_set d' k v
  end.

Record parse_state : Type := mk_state {
  st_terraform_version : value;
  st_errors : list value;
  st_planned_changes : list (value * value);
  st_resource_changes_attrs : list (value * value)
}.

Definition initial_state : parse_state := mk_state VNone [] [] [].

(** The [resource_change] dict literal (source lines 638-653). *)
Definition build_resource_change (addr resource action reason : value)
  : result value :=
  module <- py_get resource "module" (VStr "") ;;
  resource_type <- py_get resource "resource_type" (VStr "") ;;
  resource_name <- py_get resource "resource_name" (VStr "") ;;
  Ok (VDict
        [("address", addr);
         ("module", module);
         ("type", resource_type);
         ("name", resource_name);
         ("change",
          VDict [("actions", if is_str action then VList [action] else action);
                 ("before", VDict []);
                 ("after", VDict []);
                 ("after_unknown", VDict []);
                 ("before_sensitive", VDict []);
                 ("after_sensitive", VDict []);
                 ("action_reason", reason)]);
         ("tags_only", VBool false)]).

(** What one parsed line does to the parser's state.  The [set()] stored
    in [resource_changes_attrs] is never read; an empty list stands for it. *)
Definition process_event (st : parse_state) (event : value)
  : result parse_state :=
  event_type <- py_get1 event "type" ;;
  level <- py_get1 event "@level" ;;
  let st :=
    if py_eq level (VStr "error") && py_eq event_type (VStr "diagnostic")
    then mk_state (st_terraform_version st) (st_errors st ++ [event])%list
           (st_planned_changes st) (st_resource_changes_attrs st)
    else st in
  if py_eq event_type (VStr "version") then
    terraform <- py_get1 event "terraform" ;;
    Ok (mk_state terraform (st_errors st) (st_planned_changes st)
          (st_resource_changes_attrs st))
  else if py_eq event_type (VStr "resource_drift") then
    change_data <- py_get event "change" (VDict []) ;;
    resource <- py_get change_data "resource" (VDict []) ;;
    addr <- py_get resource "addr" (VStr "") ;;
    if truthy addr then
      if hashable addr then
        match kv_lookup addr (st_resource_changes_attrs st) with
        | Some _ => Ok st
        | None =>
            Ok (mk_state (st_terraform_version st) (st_errors st)
                  (st_planned_changes st)
                  (kv_set (st_resource_changes_attrs st) addr (VList [])))
        end
      else Raise TypeError
    else Ok st
  else if py_eq event_type (VStr "planned_change") then
    change_data <- py_get event "change" (VDict []) ;;
    resource <- py_get change_data "resource" (VDict []) ;;
    action <- py_get1 change_data "action" ;;
    if py_eq action (VStr "read") then Ok st
    else
      addr <- py_get resource "addr" (VStr "") ;;
      reason <- py_get1 change_data "reason" ;;
      resource_change <- build_resource_change addr resource action reason ;;
      if hashable addr then
        Ok (mk_state (st_terraform_version st) (st_errors st)
              (kv_set (st_planned_changes st) addr resource_change)
              (st_resource_changes_attrs st))
      else Raise TypeError
  else Ok st.

(** Body of [for line in f:]. *)
Definition process_line (st : parse_state) (line : string)
  : result parse_state :=
  let line := strip line in
  if (line =? "")%string then Ok st
  else match json_loads line with
       | Ok event => process_event st event
       | Raise JSONDecodeError => Ok st
       | Raise e => Raise e
       end.

Definition plan_data_of (st : parse_state) : value :=
  VDict [("terraform_version", st_terraform_version st);
         ("resource_changes", VList (map snd (st_planned_changes st)));
         ("output_changes", VDict []);
         ("errors", VList (st_errors st))].

Definition parse_terraform_json_lines (content : string) : result value :=
  st <- foldM process_line (file_lines content) initial_state ;;
  Ok (plan_data_of st).

(** ** [main]: choice of the parser (source lines 794-803) *)

Definition load_plan (content : string) : result value :=
  json_format <- detect_json_format content ;;
  if (json_format =? "show")%string
  then parse_terraform_show_json content
  else parse_terraform_json_lines content.

(** ** [convert_plan_to_markdown]: output changes (source lines 530-555) *)

Definition output_heading (action_emoji output_name : string) : string :=
  "### " ++ action_emoji ++ " `" ++ output_name ++ "`".

(** Body of [for output_name, output_change in output_changes.items():]. *)
Definition render_output (md_lines : list string) (item : string * value)
  : result (list string) :=
  let output_name := fst item in
  let output_change := snd item in
  actions <- py_get output_change "actions" (VList []) ;;
  action_emoji <- get_action_emoji actions ;;
  let md_lines :=
    (md_lines ++ [output_heading action_emoji output_name; ""])%list in
  sensitive <- py_get1 output_change "sensitive" ;;
  md_lines <-
    (if truthy sensitive then Ok (md_lines ++ ["Value: `(sensitive)`"])%list
     else
       before <- py_get1 output_change "before" ;;
       after <- py_get1 output_change "after" ;;
       if is_none before && negb (is_none after) then
         Ok (md_lines ++ [("Value: " ++ strip (format_value after 0))%string])%list
       else if py_ne before after then
         Ok (md_lines ++
             [("Before: " ++ strip (format_value before 0))%string;
              ("After: " ++ strip (format_value after 0))%string])%list
       else Ok md_lines) ;;
  Ok (md_lines ++ [""])%list.

(** [output_changes.items()]. *)
Definition py_items (d : value) : result (list (string * value)) :=
  match d with
  | VDict items => Ok items
  | _ => Raise AttributeError
  end.

(** The lines the section appends to [md_lines]; it is reached only when
    [resource_changes] is not empty (early return at source line 265). *)
Definition output_changes_section (plan_data : value) (md_lines : list string)
  : result (list string) :=
  output_changes <- py_get plan_data "output_changes" (VDict []) ;;
  if truthy output_changes then
    items <- py_items output_changes ;;
    foldM render_output items (md_lines ++ ["## Output Changes"; ""])%list
  else Ok md_lines.

(** ** Notions used to state the properties *)



(** [d.get(k, default)] on the items of a dict. *)
Definition items_get_or (items : list (string * value)) (k : string)
  (default : value) : value :=
  match lookup k items with Some v => v | None => default end.

(** The key under which the first loop of [extract_all_tag_changes] files a
    (before, after) pair, and what that loop maintains for every tag key: at
    least one group, no two groups under the same change key, every group
    filed under the rendering of its own pair and counted at least once. *)
Definition change_key_of (before_val after_val : value) : string :=
  py_str before_val ++ "→" ++ py_str after_val.

Definition groups_ok (changes : list (string * tag_group)) : Prop :=
  NoDup (map fst changes) /\
  forall ck g, In (ck, g) changes ->
               ck = change_key_of (g_before g) (g_after g) /\
               (1 <= g_count g)%nat.

Definition tag_changes_ok (tag_changes : tag_changes_t) : Prop :=
  forall tag_key changes,
    In (tag_key, changes) tag_changes -> changes <> [] /\ groups_ok changes.

(** The groups of one tag key after one more (before, after) pair. *)
Definition add_pair (groups : list (string * tag_group))
  (before_val after_val : value) : list (string * tag_group) :=
  let change_key := change_key_of before_val after_val in
  match lookup change_key groups with
  | Some g =>
      items_set groups change_key
        (mk_group (g_before g) (g_after g) (S (g_count g)))
  | None => items_set groups change_key (mk_group before_val after_val 1)
  end.

(** The (before, after) pairs one record files under a tag key: one for each
    tag field that is scanned and in which the key's values differ. *)
Definition field_pairs (k : string) (bt at_ : list (string * value))
  : list (value * value) :=
  if py_ne (items_get bt k) (items_get at_ k)
  then [(items_get bt k, items_get at_ k)]
  else [].

Fixpoint key_pairs (k : string) (before after : value) (fields : list string)
  : list (value * value) :=
  match fields with
  | [] => []
  | tag_field :: rest =>
      match py_get before tag_field (VDict []),
            py_get after tag_field (VDict []) with
      | Ok (VDict bt), Ok (VDict at_) =>
          (field_pairs k bt at_ ++
           if (tag_field =? "tags")%string && truthy (VDict bt) then []
           else key_pairs k before after rest)%list
      | Ok _, Ok _ => key_pairs k before after rest
      | _, _ => []
      end
  end.

Definition rc_key_pairs (k : string) (rc : value) : list (value * value) :=
  match py_get rc "change" (VDict []) with
  | Ok change =>
      match py_get change "before" (VDict []),
            py_get change "after" (VDict []) with
      | Ok before, Ok after => key_pairs k before after ["tags"; "tags_all"]
      | _, _ => []
      end
  | Raise _ => []
  end.

(** The groups of a tag key after a list of pairs, in order. *)
Definition add_pairs (pairs : list (value * value))
  (groups : option (list (string * tag_group)))
  : option (list (string * tag_group)) :=
  fold_left (fun g p =>
               Some (add_pair (match g with Some x => x | None => [] end)
                       (fst p) (snd p)))
            pairs groups.

(** [output_change.get("actions", [])] for a dict with the given items. *)
Definition actions_of_items (oc : list (string * value)) : value :=
  match lookup "actions" oc with Some v => v | None => VList [] end.

(** The sum of the seven counters. *)
Definition total_count (c : action_counts) : nat :=
  (n_create c + n_delete c + n_update c + n_update_tags_only c
   + n_replace c + n_read c + n_noop c)%nat.

(** ** The specification's wording, where the code differs *)


(** As the specification words it: "reads the first non-blank line of the
    input". *)
Definition first_non_blank_line (content : string) : string :=
  match filter (fun l => nonempty (strip l)) (file_lines content) with
  | l :: _ => strip l
  | [] => ""
  end.

(** As the specification words it: the format detector, deciding on the
    first non-blank line. *)
Definition detect_on_first_non_blank_line (content : string) : result string :=
  match json_loads (first_non_blank_line content) with
  | Ok obj =>
      s <- or_else (py_in "@level" obj) (py_in "type" obj) ;;
      if s then Ok "streaming" else
      w <- or_else (py_in "terraform_version" obj)
                   (py_in "resource_changes" obj) ;;
      if w then Ok "show" else Ok "unknown"
  | Raise JSONDecodeError => Ok "unknown"
  | Raise e => Raise e
  end.

(** ** Reading the line-oriented parser's result *)

(** The events the loop of [parse_terraform_json_lines] processes: the
    non-blank lines that parse, up to the first line (if any) on which
    [json.loads] raises something else than [JSONDecodeError]. *)
Fixpoint events_of_lines (lines : list string) : list value :=
  match lines with
  | [] => []
  | line :: lines' =>
      if (strip line =? "")%string then events_of_lines lines'
      else match json_loads (strip line) with
           | Ok event => event :: events_of_lines lines'
           | Raise JSONDecodeError => events_of_lines lines'
           | Raise _ => []
           end
  end.

(** The exception of that first line: [json.loads] raises it and the loop
    does not catch it. *)
Fixpoint first_load_error (lines : list string) : option exn :=
  match lines with
  | [] => None
  | line :: lines' =>
      if (strip line =? "")%string then first_load_error lines'
      else match json_loads (strip line) with
           | Ok _ => first_load_error lines'
           | Raise JSONDecodeError => first_load_error lines'
           | Raise e => Some e
           end
  end.

(** [rc["address"]] of a record of the result. *)
Definition rc_address (rc : value) : value :=
  match rc with
  | VDict items => items_get items "address"
  | _ => VNone
  end.

(** The address and record an event files in [planned_changes]: none unless
    it is a "planned_change" whose action is not "read". *)
Definition effective_change (event : value) : option (value * value) :=
  match event with
  | VDict ev =>
      if py_eq (items_get ev "type") (VStr "planned_change") then
        match items_get_or ev "change" (VDict []) with
        | VDict cd =>
            let resource := items_get_or cd "resource" (VDict []) in
            let action := items_get cd "action" in
            if py_eq action (VStr "read") then None
            else
              match py_get resource "addr" (VStr "") with
              | Ok addr =>
                  match build_resource_change addr resource action
                          (items_get cd "reason") with
                  | Ok r => if hashable addr then Some (addr, r) else None
                  | Raise _ => None
                  end
              | Raise _ => None
              end
        | _ => None
        end
      else None
  | _ => None
  end.

(** The record of the last event of [events] filed under an address equal to
    [a]; [acc] when there is none. *)
Fixpoint last_effective (a : value) (events : list value) (acc : option value)
  : option value :=
  match events with
  | [] => acc
  | e :: events' =>
      last_effective a events'
        (match effective_change e with
         | Some (addr, r) => if py_eq addr a then Some r else acc
         | None => acc
         end)
  end.

(** A parsed line the parser accepts without raising: an object whose
    "change" (if any) is an object, whose "resource" in it (if any) is an
    object, and whose "addr" in that (if any) can be a dict key. *)
Definition well_formed_event (event : value) : Prop :=
  exists ev cd res,
    event = VDict ev /\
    items_get_or ev "change" (VDict []) = VDict cd /\
    items_get_or cd "resource" (VDict []) = VDict res /\
    hashable (items_get_or res "addr" (VStr "")) = true.

(** What the parser maintains on [planned_changes]: no two keys are equal,
    and every record carries an address equal to its key. *)
Definition entry_ok (kv : value * value) : Prop :=
  hashable (fst kv) = true /\
  hashable (rc_address (snd kv)) = true /\
  py_eq (fst kv) (rc_address (snd kv)) = true.

Fixpoint keys_distinct (keys : list value) : Prop :=
  match keys with
  | [] => True
  | k :: keys' =>
      (forall k', In k' keys' -> py_eq k k' = false) /\ keys_distinct keys'
  end.

Definition planned_ok (d : list (value * value)) : Prop :=
  keys_distinct (map fst d) /\ Forall entry_ok d.

(** What a dict key denotes: equal keys are keys with equal denotations. *)
Inductive key_den : Type :=
| KNone
| KStr (s : string)
| KInf (neg : bool)
| KNum (q : Q).

Definition den (v : value) : key_den :=
  match v with
  | VBool b => KNum (inject_Z (Z_of_bool b))
  | VInt z => KNum (inject_Z z)
  | VFloat (FInf s) => KInf s
  | VFloat FNegZero => KNum 0
  | VFloat (FRat q) => KNum q
  | VStr s => KStr s
  | _ => KNone
  end.

Definition den_eq (a b : key_den) : Prop :=
  match a, b with
  | KNone, KNone => True
  | KStr s, KStr t => s = t
  | KInf s, KInf t => s = t
  | KNum p, KNum q => p == q
  | _, _ => False
  end.

(** ** [sorted] on strings and on dict items

    Python orders [str] by code point; the order of the UTF-8 bytes is the
    same.  The lists sorted here hold distinct keys, so any stable sort gives
    the one sorted list. *)

Fixpoint insert_sorted (k : string) (l : list string) : list string :=
  match l with
  | [] => [k]
  | x :: l' => if String.leb k x then k :: l else x :: insert_sorted k l'
  end.

Definition sort_strings (l : list string) : list string :=
  fold_right insert_sorted [] l.

Fixpoint insert_item {A : Type} (kv : string * A) (l : list (string * A))
  : list (string * A) :=
  match l with
  | [] => [kv]
  | x :: l' =>
      if String.leb (fst kv) (fst x) then kv :: l else x :: insert_item kv l'
  end.

(** [sorted(d.items())] for a dict with string keys. *)
Definition sort_items {A : Type} (l : list (string * A)) : list (string * A) :=
  fold_right insert_item [] l.

(** ** [process_change] *)

(** [m.get(key) if isinstance(m, dict) else False]. *)
Definition sensitive_flag (m : value) (key : string) : value :=
  match m with
  | VDict items => items_get items key
  | _ => VBool false
  end.

(** [d.get(key) if isinstance(d, dict) else None]. *)
Definition get_if_dict (d : value) (key : string) : value :=
  match d with
  | VDict items => items_get items key
  | _ => VNone
  end.

(** [d.keys()] added to [all_keys] when [d] is a dict. *)
Definition keys_if_dict (d : value) : list string :=
  match d with
  | VDict items => map fst items
  | _ => []
  end.

(** Body of [for key in sorted(all_keys):]: the lines one key adds. *)
Definition change_lines (before after before_sensitive after_sensitive : value)
  (key : string) : list string :=
  let before_val := get_if_dict before key in
  let after_val := get_if_dict after key in
  if py_eq before_val after_val then []
  else if truthy (sensitive_flag before_sensitive key)
          || truthy (sensitive_flag after_sensitive key)
       then ["  - **" ++ key ++ "**: `(sensitive value)`"]
       else format_change before_val after_val key 1.

Definition process_change (change : value) : result (list string) :=
  before <- py_get change "before" (VDict []) ;;
  after <- py_get change "after" (VDict []) ;;
  before_sensitive <- py_get change "before_sensitive" (VDict []) ;;
  after_sensitive <- py_get change "after_sensitive" (VDict []) ;;
  let all_keys := set_order (keys_if_dict before ++ keys_if_dict after) in
  Ok (flat_map (change_lines before after before_sensitive after_sensitive)
        (sort_strings all_keys)).

(** ** More methods of [str] *)

(** [s.replace(old, new)] for one-character [old] and [new]. *)
Fixpoint str_replace_char (old new : ascii) (s : string) : string :=
  match s with
  | EmptyString => EmptyString
  | String c s' =>
      String (if Ascii.eqb c old then new else c) (str_replace_char old new s')
  end.

(** ** [sorted] on a set of hashable values

    Distinct values are ordered by [<]: strings among themselves, numbers
    (bool, int, float) among themselves; any other pair raises [TypeError].
    A set holds no two equal values, so the sorted list does not depend on
    the order in which the set is iterated. *)

Inductive extended : Type :=
| NegInf
| Finite (q : Q)
| PosInf.

Definition number_of (v : value) : option extended :=
  match v with
  | VBool b => Some (Finite (inject_Z (Z_of_bool b)))
  | VInt z => Some (Finite (inject_Z z))
  | VFloat (FInf true) => Some NegInf
  | VFloat (FInf false) => Some PosInf
  | VFloat FNegZero => Some (Finite 0)
  | VFloat (FRat q) => Some (Finite q)
  | _ => None
  end.

Definition extended_leb (a b : extended) : bool :=
  match a, b with
  | NegInf, _ => true
  | _, PosInf => true
  | Finite p, Finite q => Qle_bool p q
  | _, _ => false
  end.

(** [a <= b] where [sorted] can compare the two. *)
Definition py_leb (a b : value) : result bool :=
  match a, b with
  | VStr s, VStr t => Ok (String.leb s t)
  | _, _ =>
      match number_of a, number_of b with
      | Some x, Some y => Ok (extended_leb x y)
      | _, _ => Raise TypeError
      end
  end.

Fixpoint insert_value (x : value) (l : list value) : result (list value) :=
  match l with
  | [] => Ok [x]
  | y :: l' =>
      le <- py_leb x y ;;
      if le then Ok (x :: l)
      else r <- insert_value x l' ;; Ok (y :: r)
  end.

(** [sorted(s)] for a set [s] given as the list of its members; a set of one
    member is returned without any comparison. *)
Fixpoint py_sorted (l : list value) : result (list value) :=
  match l with
  | [] => Ok []
  | x :: l' => r <- py_sorted l' ;; insert_value x r
  end.

(** [s.add(x)] on a set given as the list of its members. *)
Definition set_add (s : list value) (x : value) : result (list value) :=
  if hashable x
  then Ok (if existsb (fun y => py_eq y x) s then s else (s ++ [x])%list)
  else Raise TypeError.

(** ** [convert_plan_to_markdown]

    [md_lines] is a list of strings.  The one line that need not be a string
    is [snippet["code"]] (source line 249); it makes the final
    ["\n".join(md_lines)] raise [TypeError], which the flag carried beside the
    lines records. *)

(** Body of [for error_event in errors:] (source lines 226-252). *)
Definition render_error (acc : list string * bool) (error_event : value)
  : result (list string * bool) :=
  let md_lines := fst acc in
  let not_str := snd acc in
  diagnostic <- py_get error_event "diagnostic" error_event ;;
  summary <- py_get diagnostic "summary" (VStr "No summary available.") ;;
  address <- py_get1 diagnostic "address" ;;
  snippet <- py_get diagnostic "snippet" (VDict []) ;;
  let md_lines :=
    (md_lines ++
     [if truthy address
      then ("### ❌ Error in `" ++ py_str address ++ "`")%string
      else "### ❌ General Error";
      "";
      ("**Summary**: " ++ py_str summary)%string;
      ""])%list in
  has_code <- (if truthy snippet then py_in "code" snippet else Ok false) ;;
  acc <-
    (if has_code then
       range_info <- py_get diagnostic "range" (VDict []) ;;
       filename <- py_get range_info "filename" (VStr "unknown") ;;
       start_line <- py_get snippet "start_line" (VStr "unknown") ;;
       code <- py_get1 snippet "code" ;;
       Ok ((md_lines ++
            ["```terraform";
             ("# File: " ++ py_str filename ++ ":" ++ py_str start_line)%string;
             match code with VStr s => s | _ => "" end;
             "```"])%list,
           not_str || negb (is_str code))
     else Ok (md_lines, not_str)) ;;
  Ok ((fst acc ++ ["---"])%list, snd acc).

(** Source lines 221-253. *)
Definition errors_section (plan_data : value) (md_lines : list string)
  : result (list string * bool) :=
  errors <- py_get plan_data "errors" (VList []) ;;
  if truthy errors then
    error_events <- py_iter errors ;;
    acc <- foldM render_error error_events
             ((md_lines ++ ["## 🚨 Terraform Errors"; ""])%list, false) ;;
    Ok ((fst acc ++ [""])%list, snd acc)
  else Ok (md_lines, false).

(** Source lines 255-258; [plan_data] is a dict here. *)
Definition version_section (plan_data : value) (md_lines : list string)
  : result (list string) :=
  has_version <- py_in "terraform_version" plan_data ;;
  if has_version then
    version <- py_get1 plan_data "terraform_version" ;;
    Ok (md_lines ++
        [("**Terraform Version**: `" ++ py_str version ++ "`")%string; ""])%list
  else Ok md_lines.

(** Source lines 298-309. *)
Definition summary_section (action_counts : action_counts)
  (md_lines : list string) : list string :=
  (md_lines ++
   ["## Summary"; "";
    ("- ➕ **Create**: " ++ str_of_nat (n_create action_counts)
       ++ " resource(s)")%string;
    ("- 🔄 **Update**: " ++ str_of_nat (n_update action_counts)
       ++ " resource(s)")%string] ++
   (if (0 <? n_update_tags_only action_counts)%nat
    then [("- 🏷️ **Update (tags only)**: "
             ++ str_of_nat (n_update_tags_only action_counts)
             ++ " resource(s)")%string]
    else []) ++
   [("- 🔁 **Replace**: " ++ str_of_nat (n_replace action_counts)
       ++ " resource(s)")%string;
    ("- 🗑️ **Delete**: " ++ str_of_nat (n_delete action_counts)
       ++ " resource(s)")%string] ++
   (if (0 <? n_read action_counts)%nat
    then [("- 📖 **Read**: " ++ str_of_nat (n_read action_counts)
             ++ " resource(s)")%string]
    else []) ++
   [""])%list.

(** The text of one tag change: "(new) → `a`", "`b` → (removed)" or
    "`b` → `a`". *)
Definition tag_change_text (before_val after_val : value) : string :=
  if is_none before_val && negb (is_none after_val)
  then "(new) → `" ++ py_str after_val ++ "`"
  else if negb (is_none before_val) && is_none after_val
       then "`" ++ py_str before_val ++ "` → (removed)"
       else "`" ++ py_str before_val ++ "` → `" ++ py_str after_val ++ "`".

(** Source lines 335-344: a line of "Common to all resources". *)
Definition common_tag_lines (item : string * tag_summary) : list string :=
  match snd item with
  | SingleChange before_val after_val _ _ =>
      ["- **" ++ fst item ++ "**: " ++ tag_change_text before_val after_val]
  | MultipleChanges _ =>
      ["- **" ++ fst item ++ "**: " ++ tag_change_text VNone VNone]
  end.

(** Source lines 352-377: the lines of "Varies by resource" for one key. *)
Definition varied_tag_lines (tags_only_count : nat)
  (item : string * tag_summary) : list string :=
  match snd item with
  | MultipleChanges changes =>
      ("- **" ++ fst item ++ "**: Multiple values")%string ::
      map (fun change =>
             ("  - " ++ tag_change_text (g_before change) (g_after change)
                ++ " (" ++ str_of_nat (g_count change) ++ " resource(s))")
             %string)
          changes
  | SingleChange before_val after_val count _ =>
      ["- **" ++ fst item ++ "**: " ++ tag_change_text before_val after_val
          ++ " (" ++ str_of_nat count ++ "/" ++ str_of_nat tags_only_count
          ++ " resource(s))"]
  end.

(** Source lines 311-379. *)
Definition tag_summary_section (action_counts : action_counts)
  (resource_changes : list value) (md_lines : list string)
  : result (list string) :=
  if (0 <? n_update_tags_only action_counts)%nat then
    all_tag_changes <- extract_all_tag_changes resource_changes ;;
    match all_tag_changes with
    | [] => Ok md_lines
    | _ =>
        let md_lines :=
          (md_lines ++
           ["### Tag Changes Summary"; "";
            ("Tags being updated across "
               ++ str_of_nat (n_update_tags_only action_counts)
               ++ " resource(s):")%string;
            ""])%list in
        let sorted_changes := sort_items all_tag_changes in
        let common_tags := filter (fun kv => is_common (snd kv))
                             sorted_changes in
        let varied_tags := filter (fun kv => negb (is_common (snd kv)))
                             sorted_changes in
        let md_lines :=
          match common_tags with
          | [] => md_lines
          | _ =>
              (md_lines ++ ["#### Common to all resources:"; ""] ++
               flat_map common_tag_lines (sort_items common_tags) ++ [""])%list
          end in
        let md_lines :=
          match varied_tags with
          | [] => md_lines
          | _ =>
              (md_lines ++ ["#### Varies by resource:"; ""] ++
               flat_map (varied_tag_lines (n_update_tags_only action_counts))
                 (sort_items varied_tags) ++ [""])%list
          end in
        Ok md_lines
    end
  else Ok md_lines.

(** [x not in v] for a string literal [x]. *)
Definition py_not_in (s : string) (v : value) : result bool :=
  b <- py_in s v ;; Ok (negb b).

(** The test that puts [rc] in [resources_for_action] (source lines
    390-400). *)
Definition in_action_group (action_type : string) (rc : value) : result bool :=
  actions <- rc_actions rc ;;
  tags_only <- py_get rc "tags_only" (VBool false) ;;
  is_replace <-
    (if (action_type =? "replace")%string
     then and_then (py_in "create" actions) (py_in "delete" actions)
     else Ok false) ;;
  if is_replace then Ok true else
  is_create <-
    (if (action_type =? "create")%string
     then and_then (py_in "create" actions) (py_not_in "delete" actions)
     else Ok false) ;;
  if is_create then Ok true else
  is_delete <-
    (if (action_type =? "delete")%string
     then and_then (py_in "delete" actions) (py_not_in "create" actions)
     else Ok false) ;;
  if is_delete then Ok true else
  if (action_type =? "update")%string
  then u <- py_in "update" actions ;; Ok (u && negb (truthy tags_only))
  else Ok false.

(** [resources_for_action] for one action type. *)
Definition resources_for (action_type : string) (resource_changes : list value)
  : result (list value) :=
  foldM (fun acc rc =>
           b <- in_action_group action_type rc ;;
           Ok (if b then (acc ++ [rc])%list else acc))
        resource_changes [].

(** [action_emoji.get(action_type, action_type.title())] (source lines
    403-410). *)
Definition group_heading (action_type : string) : string :=
  if (action_type =? "create")%string then "➕ Resources to Create"
  else if (action_type =? "update")%string then "🔄 Resources to Update"
  else if (action_type =? "replace")%string then "🔁 Resources to Replace"
  else if (action_type =? "delete")%string then "🗑️ Resources to Delete"
  else str_title action_type.

(** The attribute lines of "Configuration" (source lines 450-460 and
    469-479); [after_items] are the items of the dict [after]. *)
Definition config_line (change : value) (after_items : list (string * value))
  (config_lines : list string) (key : string) : result (list string) :=
  let value := items_get after_items key in
  after_sensitive <- py_get change "after_sensitive" (VDict []) ;;
  sensitive <- py_get1 after_sensitive key ;;
  if truthy sensitive
  then Ok (config_lines ++
           [("  - **" ++ key ++ "**: `(sensitive value)`")%string])%list
  else
    let formatted := strip (format_value value 0) in
    if nonempty formatted
    then Ok (config_lines ++
             [("  - **" ++ key ++ "**: " ++ formatted)%string])%list
    else Ok config_lines.

(** "Show the new configuration": what the create and replace branches add
    for [change.get("after", {})]. *)
Definition configuration_block (change : value) (md_lines : list string)
  : result (list string) :=
  after <- py_get change "after" (VDict []) ;;
  match after with
  | VDict (item :: items) =>
      config_lines <-
        foldM (config_line change (item :: items))
          (sort_strings (map fst (item :: items))) [] ;;
      match config_lines with
      | [] => Ok md_lines
      | _ => Ok (md_lines ++ ["**Configuration**:"; ""] ++ config_lines
                          ++ [""])%list
      end
  | _ => Ok md_lines
  end.

(** Source lines 432-447: the attributes forcing replacement. *)
Definition add_replace_path (force_replace_attrs : list value) (path : value)
  : result (list value) :=
  match path with
  | VList (attr :: _) => set_add force_replace_attrs attr
  | _ => Ok force_replace_attrs
  end.

Definition replacement_block (change : value) (md_lines : list string)
  : result (list string) :=
  replace_paths <- py_get change "replace_paths" (VList []) ;;
  paths <- py_iter replace_paths ;;
  force_replace_attrs <- foldM add_replace_path paths [] ;;
  match force_replace_attrs with
  | [] => Ok md_lines
  | _ =>
      attrs <- py_sorted force_replace_attrs ;;
      Ok (md_lines ++ ["**Attributes forcing replacement**:"; ""] ++
          map (fun attr => ("  - `" ++ py_str attr ++ "`")%string) attrs ++
          [""])%list
  end.

(** [rc.get("action_reason") or change.get("action_reason")]. *)
Definition action_reason_of (rc change : value) : result value :=
  r <- py_get1 rc "action_reason" ;;
  if truthy r then Ok r else py_get1 change "action_reason".

(** [action_reason.replace("_", " ").title()]. *)
Definition reason_text_of (action_reason : value) : result string :=
  match action_reason with
  | VStr s => Ok (str_title (str_replace_char "_" " " s))
  | _ => Raise AttributeError
  end.

(** Source lines 504-512: one attribute of the resource being deleted. *)
Definition delete_line (before_items : list (string * value))
  (delete_lines : list string) (key : string) : list string :=
  let formatted := strip (format_value (items_get before_items key) 0) in
  if nonempty formatted
  then (delete_lines ++ [("  - **" ++ key ++ "**: " ++ formatted)%string])%list
  else delete_lines.

Definition deletion_block (rc change : value) (md_lines : list string)
  : result (list string) :=
  action_reason <- action_reason_of rc change ;;
  md_lines <-
    (if truthy action_reason then
       reason_text <- reason_text_of action_reason ;;
       Ok (md_lines ++ [("**Reason**: " ++ reason_text)%string; ""])%list
     else Ok md_lines) ;;
  before <- py_get change "before" (VDict []) ;;
  match before with
  | VDict (item :: items) =>
      let delete_lines :=
        fold_left (delete_line (item :: items))
          (firstn 10 (sort_strings (map fst (item :: items)))) [] in
      match delete_lines with
      | [] => Ok md_lines
      | _ => Ok (md_lines ++ ["**Resource being deleted**:"; ""]
                          ++ delete_lines ++ [""])%list
      end
  | _ => Ok md_lines
  end.

(** Body of [for rc in resources_for_action:] (source lines 413-528). *)
Definition render_resource (action_type : string) (md_lines : list string)
  (rc : value) : result (list string) :=
  resource_type <- py_get rc "type" (VStr "unknown") ;;
  resource_name <- py_get rc "name" (VStr "unknown") ;;
  address <- py_get rc "address"
               (VStr (py_str resource_type ++ "." ++ py_str resource_name)) ;;
  let md_lines :=
    (md_lines ++
     [("#### `" ++ py_str address ++ "`")%string; "";
      ("**Type**: `" ++ py_str resource_type ++ "`")%string; ""])%list in
  change <- py_get rc "change" (VDict []) ;;
  actions <- py_get change "actions" (VList []) ;;
  md_lines <-
    (if (action_type =? "replace")%string then
       action_reason <- action_reason_of rc change ;;
       md_lines <- replacement_block change md_lines ;;
       configuration_block change md_lines
     else if (action_type =? "create")%string then
       configuration_block change md_lines
     else if (action_type =? "update")%string then
       change_lines <- process_change change ;;
       match change_lines with
       | [] => Ok md_lines
       | _ => Ok (md_lines ++ ["**Changes**:"; ""] ++ change_lines
                           ++ [""])%list
       end
     else if (action_type =? "delete")%string then
       deletion_block rc change md_lines
     else
       action_reason <- action_reason_of rc change ;;
       if truthy action_reason then
         reason_text <- reason_text_of action_reason ;;
         Ok (md_lines ++ [("**Reason**: " ++ reason_text)%string; ""])%list
       else Ok md_lines) ;;
  Ok (md_lines ++ ["---"; ""])%list.

(** Body of [for action_type in ["create", "update", "replace", "delete"]:]. *)
Definition render_group (resource_changes : list value)
  (md_lines : list string) (action_type : string) : result (list string) :=
  resources_for_action <- resources_for action_type resource_changes ;;
  match resources_for_action with
  | [] => Ok md_lines
  | _ =>
      foldM (render_resource action_type) resources_for_action
        (md_lines ++ [("### " ++ group_heading action_type)%string; ""])%list
  end.

(** Source lines 381-528. *)
Definition detailed_section (resource_changes : list value)
  (md_lines : list string) : result (list string) :=
  foldM (render_group resource_changes)
    ["create"; "update"; "replace"; "delete"]
    (md_lines ++ ["## Detailed Changes"; ""])%list.

Definition footer : string := "*Generated from Terraform plan JSON output*".

(** ["\n".join(md_lines)]. *)
Definition join_lines (md_lines : list string) (not_str : bool)
  : result string :=
  if not_str then Raise TypeError else Ok (str_join nl md_lines).

Definition convert_plan_to_markdown (plan_data : value) : result string :=
  let md_lines := ["# Terraform Summary"; ""] in
  with_errors <- errors_section plan_data md_lines ;;
  let not_str := snd with_errors in
  md_lines <- version_section plan_data (fst with_errors) ;;
  resource_changes <- py_get plan_data "resource_changes" (VList []) ;;
  if negb (truthy resource_changes) then
    join_lines (md_lines ++ ["No resource changes detected."])%list not_str
  else
    rcs <- py_iter resource_changes ;;
    action_counts <- count_actions rcs ;;
    let md_lines := summary_section action_counts md_lines in
    md_lines <- tag_summary_section action_counts rcs md_lines ;;
    md_lines <- detailed_section rcs md_lines ;;
    md_lines <- output_changes_section plan_data md_lines ;;
    join_lines (md_lines ++ [footer])%list not_str.

(** ** [main]: from the text of the input file to the text written
    (source lines 791-812) *)

Definition render_file (content : string) : result string :=
  plan_data <- load_plan content ;;
  convert_plan_to_markdown plan_data.


(** ** More notions used to state the properties *)

(** The lines of one entry of the output-changes section (source lines
    536-553): the heading, an empty line, the value lines, an empty line.  The
    value lines are the fixed marker for a sensitive output; otherwise the
    new value when there was none before, nothing when [before != after] is
    false, and the old and the new value in the remaining case. *)
Definition output_block (item : string * value) (block : list string) : Prop :=
  exists oc action_emoji value_lines,
    snd item = VDict oc /\
    get_action_emoji (actions_of_items oc) = Ok action_emoji /\
    block = ([output_heading action_emoji (fst item); ""] ++
             value_lines ++ [""])%list /\
    (truthy (items_get oc "sensitive") = true ->
     value_lines = ["Value: `(sensitive)`"]) /\
    (truthy (items_get oc "sensitive") = false ->
     (is_none (items_get oc "before") = true ->
      is_none (items_get oc "after") = false ->
      value_lines =
      [("Value: " ++ strip (format_value (items_get oc "after") 0))%string])
     /\
     (py_ne (items_get oc "before") (items_get oc "after") = false ->
      value_lines = []) /\
     (py_ne (items_get oc "before") (items_get oc "after") = true ->
      is_none (items_get oc "before") && negb (is_none (items_get oc "after"))
      = false ->
      value_lines =
      [("Before: " ++ strip (format_value (items_get oc "before") 0))%string;
       ("After: " ++ strip (format_value (items_get oc "after") 0))%string])).

(** A record as the line-oriented parser builds it (source lines 638-653). *)
Definition streamed_record (r : value) : Prop :=
  exists addr module type name actions reason,
    r = VDict
          [("address", addr);
           ("module", module);
           ("type", type);
           ("name", name);
           ("change",
            VDict [("actions", actions);
                   ("before", VDict []);
                   ("after", VDict []);
                   ("after_unknown", VDict []);
                   ("before_sensitive", VDict []);
                   ("after_sensitive", VDict []);
                   ("action_reason", reason)]);
           ("tags_only", VBool false)].

(** The events the line-oriented parser files under "errors". *)
Definition is_error_diagnostic (event : value) : bool :=
  match event with
  | VDict ev =>
      py_eq (items_get ev "@level") (VStr "error")
      && py_eq (items_get ev "type") (VStr "diagnostic")
  | _ => false
  end.

(** The "terraform" field of the last "version" event of [events]; [acc] when
    there is none. *)
Fixpoint last_version (events : list value) (acc : value) : value :=
  match events with
  | [] => acc
  | VDict ev :: events' =>
      last_version events'
        (if py_eq (items_get ev "type") (VStr "version")
         then items_get ev "terraform" else acc)
  | _ :: events' => last_version events' acc
  end.

(** The values [format_value] shows nothing for: [None], the empty string,
    list and dict, and a one-item list of such a value. *)
Fixpoint shows_nothing (v : value) : bool :=
  match v with
  | VNone => true
  | VStr s => (s =? "")%string
  | VList [] => true
  | VList [x] => shows_nothing x
  | VDict [] => true
  | _ => false
  end.

(** [rc.get("tags_only", False)] is truthy: the record is one of the T
    tags-only records (source lines 135-137). *)
Definition flagged (rc : value) : bool :=
  match py_get rc "tags_only" (VBool false) with
  | Ok t => truthy t
  | Raise _ => false
  end.

(** A tags-only record whose before "tags" is a non-empty dict (and whose
    after "tags" is a dict). *)
Definition tags_before_present (rc : value) : Prop :=
  exists ch bf af bt at_,
    py_get rc "change" (VDict []) = Ok (VDict ch) /\
    items_get_or ch "before" (VDict []) = VDict bf /\
    items_get_or ch "after" (VDict []) = VDict af /\
    items_get_or bf "tags" (VDict []) = VDict bt /\
    bt <> [] /\
    items_get_or af "tags" (VDict []) = VDict at_.

(** The sum of the counts of the groups of one tag key. *)
Definition group_total (changes : list (string * tag_group)) : nat :=
  list_sum (map (fun kg => g_count (snd kg)) changes).

(** The counts an entry of the summary reports, added up. *)
Definition summary_total (entry : tag_summary) : nat :=
  match entry with
  | SingleChange _ _ count _ => count
  | MultipleChanges changes => list_sum (map g_count changes)
  end.

(** The attribute a replace path contributes when its first element is a
    string: [path[0]] of a non-empty list. *)
Definition first_attr (path : value) : list string :=
  match path with
  | VList (VStr a :: _) => [a]
  | _ => []
  end.

(** A replace path that is skipped or starts with a string. *)
Definition string_path (path : value) : Prop :=
  match path with
  | VList (x :: _) => is_str x = true
  | _ => True
  end.
(** * Properties *)

(** Propositional reasoning that leaves the section's functions alone. *)
Ltac ptauto :=
  try clear json_loads; try clear container_repr; try clear float_repr;
  try clear str_title; tauto.

(** ** Membership tests *)

Lemma py_eq_str_iff (x : value) (s : string) :
  py_eq x (VStr s) = true <-> x = VStr s.
Proof.
  destruct x; simpl; split; intro H; try discriminate.
  - apply String.eqb_eq in H. now subst.
  - injection H as ->. apply String.eqb_refl.
Qed.

Lemma py_eq_str_l_iff (x : value) (s : string) :
  py_eq (VStr s) x = true <-> x = VStr s.
Proof.
  destruct x; simpl; split; intro H; try discriminate.
  - apply String.eqb_eq in H. now subst.
  - injection H as ->. apply String.eqb_refl.
Qed.

Lemma list_mem_iff (s : string) (l : list value) :
  existsb (fun x => py_eq x (VStr s)) l = true <-> In (VStr s) l.
Proof.
  rewrite existsb_exists. split.
  - intros [x [Hin Heq]]. apply py_eq_str_iff in Heq. now subst.
  - intro Hin. exists (VStr s). split; [assumption | now apply py_eq_str_iff].
Qed.

Lemma list_mem_false_iff (s : string) (l : list value) :
  existsb (fun x => py_eq x (VStr s)) l = false <-> ~ In (VStr s) l.
Proof.
  rewrite <- list_mem_iff. destruct (existsb _ l); split; intro H;
    try reflexivity; try discriminate; try (intro; discriminate).
  exfalso. now apply H.
Qed.

Lemma py_in_list (s : string) (l : list value) :
  py_in s (VList l) = Ok (existsb (fun x => py_eq x (VStr s)) l).
Proof. reflexivity. Qed.

(** ** [get_action_emoji] *)

Lemma labels_distinct :
  label_replace <> label_create /\ label_replace <> label_delete /\
  label_replace <> label_update /\ label_replace <> label_read /\
  label_replace <> label_noop.
Proof. repeat split; intro H; discriminate H. Qed.

(** C10 (as amended).  A list that contains "create" is labelled CREATE, also
    when "delete" is present, so the create-and-delete disjunct of the replace
    branch is never what selects REPLACE; the REPLACE label is returned
    exactly for the lists that contain the literal "replace" and none of
    "create", "delete" and "update". *)
Theorem get_action_emoji_create_shadows_replace (l : list value) :
  (In (VStr "create") l -> get_action_emoji (VList l) = Ok label_create) /\
  (In (VStr "create") l -> In (VStr "delete") l ->
   get_action_emoji (VList l) <> Ok label_replace) /\
  (get_action_emoji (VList l) = Ok label_replace <->
   In (VStr "replace") l /\ ~ In (VStr "create") l /\
   ~ In (VStr "delete") l /\ ~ In (VStr "update") l).
Proof.
  destruct labels_distinct as (Hc & Hd & Hu & Hr & Hn).
  unfold get_action_emoji. rewrite !py_in_list. simpl.
  destruct (existsb (fun x => py_eq x (VStr "create")) l) eqn:Ec;
  destruct (existsb (fun x => py_eq x (VStr "delete")) l) eqn:Ed;
  destruct (existsb (fun x => py_eq x (VStr "update")) l) eqn:Eu;
  destruct (existsb (fun x => py_eq x (VStr "replace")) l) eqn:Er;
  destruct (existsb (fun x => py_eq x (VStr "read")) l) eqn:Erd;
  simpl;
  rewrite ?list_mem_iff, ?list_mem_false_iff in *;
  (split; [| split]);
  try (intros; reflexivity);
  try (intros; intro Heq; injection Heq as Heq; congruence);
  try (intros; contradiction);
  try (split; [intro Heq; injection Heq as Heq; congruence
              | intros (? & ? & ? & ?); contradiction]);
  try (split; [intros _; ptauto | reflexivity]).
Qed.

(** ** [format_value] on lists *)

(** C8 (as amended).  For a list of more than 5 elements the formatter
    returns the indentation prefix followed by "List with N items", N the
    number of elements; for the empty list it returns the empty string;
    otherwise it returns the prefix followed by the elements, each formatted
    recursively with no indentation and stripped, joined with ", ". *)
Theorem format_value_list (l : list value) (indent : Z) :
  (l = [] -> format_value (VList l) indent = "") /\
  ((5 < List.length l)%nat ->
   format_value (VList l) indent =
   str_repeat "  " indent ++ "List with " ++ str_of_nat (List.length l)
     ++ " items") /\
  (l <> [] -> (List.length l <= 5)%nat ->
   format_value (VList l) indent =
   str_repeat "  " indent ++
   str_join ", " (map (fun x => strip (format_value x 0)) l)).
Proof.
  split; [| split].
  - intros ->. reflexivity.
  - intro Hlen. destruct l as [| x l']; [simpl in Hlen; lia |].
    cbn [format_value].
    apply Nat.ltb_lt in Hlen. now rewrite Hlen.
  - intros Hne Hlen. destruct l as [| x l']; [contradiction |].
    cbn [format_value].
    assert (Hf : (5 <? List.length (x :: l'))%nat = false)
      by (apply Nat.ltb_ge; exact Hlen).
    now rewrite Hf.
Qed.

(** ** [format_change] *)

Lemma nonempty_empty : nonempty "" = false.
Proof. reflexivity. Qed.

(** C5.  No line is produced when the after value is absent (None, an empty
    list or an empty dict), whatever the before value; and no line is
    produced when the after value formats to the empty string, in particular
    when before and after are both present and unequal (before "x", after
    ""). *)
Theorem format_change_silent_without_after
  (before after : value) (key : string) (indent : Z) :
  (after = VNone \/ after = VList [] \/ after = VDict [] ->
   format_change before after key indent = []) /\
  (strip (format_value after 0) = "" ->
   format_change before after key indent = []) /\
  format_change (VStr "x") (VStr "") key indent = [].
Proof.
  split; [| split].
  - intros [-> | [-> | ->]]; unfold format_change;
      destruct (none_or_empty before); reflexivity.
  - intro Hfmt. unfold format_change. rewrite Hfmt, nonempty_empty.
    rewrite andb_false_r, orb_false_r.
    destruct (none_or_empty before), (none_or_empty after); simpl;
      try reflexivity.
    destruct (py_ne before after); [| reflexivity].
    destruct (nonempty (strip (format_value before 0))); reflexivity.
  - reflexivity.
Qed.

(** ** Counting changes by action *)

Lemma increment_count_of (b b' : bucket) (c : action_counts) :
  count_of b' (increment b c) =
  (count_of b' c + if bucket_eqb b b' then 1 else 0)%nat.
Proof. destruct b, b'; simpl; lia. Qed.

(** C2.  The counting loop adds one to exactly one of the seven counters,
    chosen by first match: create and delete both present give replace;
    otherwise create gives create; otherwise delete gives delete; otherwise
    update gives update-tags-only when the tags-only flag is set and update
    when it is not; otherwise read gives read; otherwise no-op. *)
Theorem count_resource_precedence
  (counts : action_counts) (rc actions tags_only : value) (c d u r : bool) :
  rc_actions rc = Ok actions ->
  py_get rc "tags_only" (VBool false) = Ok tags_only ->
  py_in "create" actions = Ok c ->
  py_in "delete" actions = Ok d ->
  py_in "update" actions = Ok u ->
  py_in "read" actions = Ok r ->
  exists b : bucket,
    count_resource counts rc = Ok (increment b counts) /\
    (forall b', count_of b' (increment b counts) =
                (count_of b' counts + if bucket_eqb b b' then 1 else 0)%nat) /\
    (c = true -> d = true -> b = BReplace) /\
    (c = true -> d = false -> b = BCreate) /\
    (c = false -> d = true -> b = BDelete) /\
    (c = false -> d = false -> u = true -> truthy tags_only = true ->
     b = BUpdateTagsOnly) /\
    (c = false -> d = false -> u = true -> truthy tags_only = false ->
     b = BUpdate) /\
    (c = false -> d = false -> u = false -> r = true -> b = BRead) /\
    (c = false -> d = false -> u = false -> r = false -> b = BNoOp).
Proof.
  intros Ha Ht Hc Hd Hu Hr.
  unfold count_resource, and_then. rewrite Ha. cbn [bind]. rewrite Ht.
  cbn [bind]. rewrite Hc, Hd, Hu, Hr.
  destruct c, d, u, r, (truthy tags_only) eqn:Et; cbn [bind];
    eexists; (split; [reflexivity |]);
    (split; [intro b'; apply increment_count_of |]);
    repeat split; intros; congruence.
Qed.

Lemma increment_total (b : bucket) (c : action_counts) :
  total_count (increment b c) = S (total_count c).
Proof. destruct b; unfold total_count; simpl; lia. Qed.

Lemma count_resource_total (counts counts' : action_counts) (rc : value) :
  count_resource counts rc = Ok counts' ->
  total_count counts' = S (total_count counts).
Proof.
  unfold count_resource, and_then.
  destruct (rc_actions rc) as [actions |]; cbn [bind]; [| discriminate].
  destruct (py_get rc "tags_only" (VBool false)) as [t |]; cbn [bind];
    [| discriminate].
  destruct (py_in "create" actions) as [[|] |]; cbn [bind];
  destruct (py_in "delete" actions) as [[|] |]; cbn [bind];
  destruct (py_in "update" actions) as [[|] |]; cbn [bind];
  destruct (py_in "read" actions) as [[|] |]; cbn [bind];
  destruct (truthy t); try discriminate;
  intro H; injection H as <-; unfold total_count; simpl; lia.
Qed.

(** X1.  Over the whole loop the seven counters add up to the number of
    resources. *)
Lemma count_actions_total (resource_changes : list value)
  (counts : action_counts) :
  count_actions resource_changes = Ok counts ->
  total_count counts = List.length resource_changes.
Proof.
  unfold count_actions.
  assert (G : forall l c0 c1, foldM count_resource l c0 = Ok c1 ->
                total_count c1 = (total_count c0 + List.length l)%nat).
  { induction l as [| rc l IH]; intros c0 c1 H; simpl in H.
    - injection H as <-. simpl. lia.
    - destruct (count_resource c0 rc) as [c' |] eqn:E; cbn [bind] in H;
        [| discriminate].
      apply IH in H. apply count_resource_total in E. simpl. lia. }
  intro H. apply G in H. exact H.
Qed.

(** ** Format detection *)

Lemma has_key_iff (k : string) (obj : list (string * value)) :
  existsb (fun kv => (fst kv =? k)%string) obj = true <->
  In k (map fst obj).
Proof.
  rewrite existsb_exists, in_map_iff. split.
  - intros [kv [Hin Heq]]. apply String.eqb_eq in Heq. now exists kv.
  - intros [kv [Heq Hin]]. exists kv. split; [assumption |].
    now apply String.eqb_eq.
Qed.

Lemma has_key_false_iff (k : string) (obj : list (string * value)) :
  existsb (fun kv => (fst kv =? k)%string) obj = false <->
  ~ In k (map fst obj).
Proof.
  rewrite <- has_key_iff. destruct (existsb _ obj); split; intro H;
    try reflexivity; try discriminate; try (intro; discriminate).
  exfalso. now apply H.
Qed.

(** C6 (as amended).  The detector reads the first line of the input, blank
    or not, and strips it.  If parsing that line fails with a JSON decode
    error the answer is "unknown"; if it parses to an object the answer is
    "streaming" when the object has an "@level" or a "type" key, "show" when
    it has neither but has a "terraform_version" or a "resource_changes" key,
    and "unknown" otherwise.  The caller uses the line-oriented parser for
    every answer other than "show", "unknown" included.  Any other exception
    of the parse is not caught. *)
Theorem detect_json_format_first_line (content : string) :
  (json_loads (strip (readline content)) = Raise JSONDecodeError ->
   detect_json_format content = Ok "unknown") /\
  (forall obj : list (string * value),
     json_loads (strip (readline content)) = Ok (VDict obj) ->
     (In "@level" (map fst obj) \/ In "type" (map fst obj) ->
      detect_json_format content = Ok "streaming") /\
     (~ In "@level" (map fst obj) -> ~ In "type" (map fst obj) ->
      In "terraform_version" (map fst obj) \/
      In "resource_changes" (map fst obj) ->
      detect_json_format content = Ok "show") /\
     (~ In "@level" (map fst obj) -> ~ In "type" (map fst obj) ->
      ~ In "terraform_version" (map fst obj) ->
      ~ In "resource_changes" (map fst obj) ->
      detect_json_format content = Ok "unknown")) /\
  (detect_json_format content = Ok "unknown" \/
   detect_json_format content = Ok "streaming" ->
   load_plan content = parse_terraform_json_lines content) /\
  (forall e : exn,
     json_loads (strip (readline content)) = Raise e ->
     e <> JSONDecodeError ->
     detect_json_format content = Raise e /\ load_plan content = Raise e).
Proof.
  split; [| split; [| split]].
  4:{ intros e H Hne.
      assert (Hd : detect_json_format content = Raise e).
      { unfold detect_json_format. rewrite H.
        destruct e; try reflexivity. now elim Hne. }
      split; [exact Hd |]. unfold load_plan. now rewrite Hd. }
  - intro H. unfold detect_json_format. now rewrite H.
  - intros obj H. unfold detect_json_format, or_else. rewrite H.
    cbn [py_in bind].
    destruct (existsb (fun kv => (fst kv =? "@level")%string) obj) eqn:E1;
    destruct (existsb (fun kv => (fst kv =? "type")%string) obj) eqn:E2;
    destruct (existsb (fun kv => (fst kv =? "terraform_version")%string)
                obj) eqn:E3;
    destruct (existsb (fun kv => (fst kv =? "resource_changes")%string)
                obj) eqn:E4;
    rewrite ?has_key_iff, ?has_key_false_iff in *;
    cbn [bind]; repeat split; intros; try reflexivity; ptauto.
  - intros [H | H]; unfold load_plan; rewrite H; reflexivity.
Qed.

(** ** Tags-only detection in the full-document parser *)





(** ** Dicts as item lists *)

Lemma lookup_In {A : Type} (k : string) (l : list (string * A)) (v : A) :
  lookup k l = Some v -> In (k, v) l.
Proof.
  induction l as [| [k' v'] l IH]; simpl; [discriminate |].
  destruct (k =? k')%string eqn:E.
  - intro H. injection H as <-. apply String.eqb_eq in E. subst. now left.
  - intro H. right. now apply IH.
Qed.

Lemma lookup_None_not_In {A : Type} (k : string) (l : list (string * A)) :
  lookup k l = None <-> ~ In k (map fst l).
Proof.
  induction l as [| [k' v'] l IH]; simpl; [ptauto |].
  destruct (k =? k')%string eqn:E.
  - apply String.eqb_eq in E. subst. split; [discriminate | ptauto].
  - apply String.eqb_neq in E. rewrite IH. split.
    + intros H [H1 | H1]; [now apply E | now apply H].
    + ptauto.
Qed.

Lemma lookup_items_set_same {A : Type} (l : list (string * A)) (k : string)
  (v : A) :
  lookup k (items_set l k v) = Some v.
Proof.
  induction l as [| [k' v'] l IH]; simpl.
  - now rewrite String.eqb_refl.
  - destruct (k =? k')%string eqn:E; simpl; now rewrite E.
Qed.

Lemma lookup_items_set_other {A : Type} (l : list (string * A))
  (k k' : string) (v : A) :
  k <> k' -> lookup k' (items_set l k v) = lookup k' l.
Proof.
  intro Hne. induction l as [| [k0 v0] l IH]; simpl.
  - destruct (k' =? k)%string eqn:E; [| reflexivity].
    apply String.eqb_eq in E. congruence.
  - destruct (k =? k0)%string eqn:E; simpl.
    + apply String.eqb_eq in E. subst k0.
      destruct (k' =? k)%string eqn:E'; [| reflexivity].
      apply String.eqb_eq in E'. congruence.
    + now rewrite IH.
Qed.

Lemma items_set_twice {A : Type} (l : list (string * A)) (k : string)
  (v w : A) :
  items_set (items_set l k v) k w = items_set l k w.
Proof.
  induction l as [| [k' v'] l IH]; simpl.
  - now rewrite String.eqb_refl.
  - destruct (k =? k')%string eqn:E; simpl; rewrite E; [reflexivity |].
    now rewrite IH.
Qed.

Lemma In_items_set {A : Type} (l : list (string * A)) (k k' : string)
  (v v' : A) :
  In (k', v') (items_set l k v) -> (k' = k /\ v' = v) \/ In (k', v') l.
Proof.
  induction l as [| [k0 v0] l IH]; simpl.
  - intros [H | []]. injection H as <- <-. now left.
  - destruct (k =? k0)%string eqn:E; simpl.
    + apply String.eqb_eq in E. subst k0.
      intros [H | H]; [injection H as <- <-; now left | right; now right].
    + intros [H | H]; [right; now left |].
      destruct (IH H) as [? | ?]; [now left | right; now right].
Qed.

Lemma keys_items_set {A : Type} (l : list (string * A)) (k : string) (v : A) :
  map fst (items_set l k v) =
  match lookup k l with
  | Some _ => map fst l
  | None => (map fst l ++ [k])%list
  end.
Proof.
  induction l as [| [k' v'] l IH]; simpl; [reflexivity |].
  destruct (k =? k')%string eqn:E; simpl; [reflexivity |].
  rewrite IH. now destruct (lookup k l).
Qed.

Lemma NoDup_keys_items_set {A : Type} (l : list (string * A)) (k : string)
  (v : A) :
  NoDup (map fst l) -> NoDup (map fst (items_set l k v)).
Proof.
  intro H. rewrite keys_items_set. destruct (lookup k l) eqn:E; [exact H |].
  apply lookup_None_not_In in E.
  apply NoDup_app; [exact H | constructor; [intros [] | constructor] |].
  intros x Hx [<- | []]. now apply E.
Qed.

Lemma items_set_nonempty {A : Type} (l : list (string * A)) (k : string)
  (v : A) :
  items_set l k v <> [].
Proof.
  destruct l as [| [k' v'] l]; simpl; [discriminate |].
  destruct (k =? k')%string; discriminate.
Qed.

Lemma lookup_map_values {A B : Type} (f : A -> B) (k : string)
  (l : list (string * A)) :
  lookup k (map (fun kv => (fst kv, f (snd kv))) l) =
  option_map f (lookup k l).
Proof.
  induction l as [| [k' v'] l IH]; simpl; [reflexivity |].
  destruct (k =? k')%string; [reflexivity | exact IH].
Qed.

(** ** The tag aggregator: what the first loop maintains *)

Lemma record_change_add_pair (tag_changes : tag_changes_t) (tag_key : string)
  (before_val after_val : value) :
  record_change tag_changes tag_key before_val after_val =
  items_set tag_changes tag_key
    (add_pair (match lookup tag_key tag_changes with
               | Some g => g
               | None => []
               end) before_val after_val).
Proof.
  unfold record_change, add_pair.
  fold (change_key_of before_val after_val).
  set (ck := change_key_of before_val after_val).
  destruct (lookup tag_key tag_changes) as [groups |] eqn:Et.
  - rewrite Et. destruct (lookup ck groups) as [g |] eqn:Eg.
    + now rewrite Eg.
    + rewrite lookup_items_set_same. cbn [g_before g_after g_count].
      now rewrite items_set_twice.
  - rewrite lookup_items_set_same. cbn [lookup].
    rewrite items_set_twice. cbn [items_set lookup].
    rewrite !String.eqb_refl. cbn [items_set g_before g_after g_count].
    rewrite ?String.eqb_refl. reflexivity.
Qed.

Lemma add_pair_ok (groups : list (string * tag_group))
  (before_val after_val : value) :
  groups_ok groups ->
  add_pair groups before_val after_val <> [] /\
  groups_ok (add_pair groups before_val after_val).
Proof.
  intros [Hnd Hall]. unfold add_pair.
  set (ck := change_key_of before_val after_val).
  destruct (lookup ck groups) as [g |] eqn:Eg;
    (split; [apply items_set_nonempty |]);
    (split; [now apply NoDup_keys_items_set |]);
    intros ck' g' Hin; apply In_items_set in Hin;
    destruct Hin as [[-> ->] | Hin]; try (now apply Hall);
    cbn [g_before g_after g_count].
  - apply lookup_In in Eg. destruct (Hall _ _ Eg) as [Hk Hc].
    split; [exact Hk | lia].
  - split; [reflexivity | lia].
Qed.

Lemma groups_ok_nil : groups_ok [].
Proof. split; [constructor | intros ? ? []]. Qed.

Lemma record_change_ok (tag_changes : tag_changes_t) (tag_key : string)
  (before_val after_val : value) :
  tag_changes_ok tag_changes ->
  tag_changes_ok (record_change tag_changes tag_key before_val after_val).
Proof.
  intros Hok k changes Hin. rewrite record_change_add_pair in Hin.
  apply In_items_set in Hin. destruct Hin as [[-> ->] | Hin];
    [| now apply (Hok k changes)].
  apply add_pair_ok.
  destruct (lookup tag_key tag_changes) as [groups |] eqn:Et;
    [| apply groups_ok_nil].
  apply lookup_In in Et. now apply (Hok tag_key groups).
Qed.

Lemma scan_tag_keys_ok (bt at_ : list (string * value)) (keys : list string) :
  forall tag_changes,
    tag_changes_ok tag_changes ->
    tag_changes_ok (fold_left (scan_tag_key bt at_) keys tag_changes).
Proof.
  induction keys as [| k keys IH]; intros tc Hok; simpl; [exact Hok |].
  apply IH. unfold scan_tag_key.
  destruct (py_ne (items_get bt k) (items_get at_ k));
    [now apply record_change_ok | exact Hok].
Qed.

Lemma scan_tag_fields_ok (before after : value) (fields : list string) :
  forall tag_changes tag_changes',
    tag_changes_ok tag_changes ->
    scan_tag_fields before after fields tag_changes = Ok tag_changes' ->
    tag_changes_ok tag_changes'.
Proof.
  induction fields as [| f fields IH]; intros tc tc' Hok H; simpl in H.
  - now injection H as <-.
  - destruct (py_get before f (VDict [])) as [bt |]; cbn [bind] in H;
      [| discriminate].
    destruct (py_get after f (VDict [])) as [at_ |]; cbn [bind] in H;
      [| discriminate].
    destruct bt; try (now apply IH in H);
      destruct at_; try (now apply IH in H).
    destruct ((f =? "tags")%string && truthy (VDict d)).
    + injection H as <-. now apply scan_tag_keys_ok.
    + apply IH in H; [exact H | now apply scan_tag_keys_ok].
Qed.

Lemma scan_resource_ok (tag_changes tag_changes' : tag_changes_t)
  (rc : value) :
  tag_changes_ok tag_changes ->
  scan_resource tag_changes rc = Ok tag_changes' ->
  tag_changes_ok tag_changes'.
Proof.
  intros Hok H. unfold scan_resource in H.
  destruct (py_get rc "change" (VDict [])) as [change |]; cbn [bind] in H;
    [| discriminate].
  destruct (py_get change "before" (VDict [])) as [before |];
    cbn [bind] in H; [| discriminate].
  destruct (py_get change "after" (VDict [])) as [after |];
    cbn [bind] in H; [| discriminate].
  now apply scan_tag_fields_ok in H.
Qed.

Lemma collect_tag_changes_ok (tags_only_resources : list value)
  (tag_changes : tag_changes_t) :
  collect_tag_changes tags_only_resources = Ok tag_changes ->
  tag_changes_ok tag_changes.
Proof.
  unfold collect_tag_changes.
  assert (G : forall l tc tc', tag_changes_ok tc ->
                foldM scan_resource l tc = Ok tc' -> tag_changes_ok tc').
  { induction l as [| rc l IH]; intros tc tc' Hok H; simpl in H.
    - now injection H as <-.
    - destruct (scan_resource tc rc) as [tc1 |] eqn:E; cbn [bind] in H;
        [| discriminate].
      apply (IH tc1 tc'); [| exact H]. now apply scan_resource_ok in E. }
  apply G. intros ? ? [].
Qed.

(** ** The tag aggregator: the groups of a key count its pairs *)

Lemma record_change_lookup_same (tc : tag_changes_t) (k : string)
  (b a : value) :
  lookup k (record_change tc k b a) =
  Some (add_pair (match lookup k tc with Some g => g | None => [] end) b a).
Proof. rewrite record_change_add_pair. apply lookup_items_set_same. Qed.

Lemma record_change_lookup_other (tc : tag_changes_t) (k k' : string)
  (b a : value) :
  k' <> k -> lookup k (record_change tc k' b a) = lookup k tc.
Proof.
  intro H. rewrite record_change_add_pair. now apply lookup_items_set_other.
Qed.

Lemma scan_tag_keys_other (bt at_ : list (string * value)) (k : string)
  (keys : list string) :
  ~ In k keys ->
  forall tc, lookup k (fold_left (scan_tag_key bt at_) keys tc) = lookup k tc.
Proof.
  induction keys as [| x keys IH]; intros Hnin tc; [reflexivity |].
  cbn [fold_left]. rewrite IH by (intro; apply Hnin; now right).
  unfold scan_tag_key. destruct (py_ne _ _); [| reflexivity].
  apply record_change_lookup_other. intros ->. apply Hnin. now left.
Qed.

Lemma scan_tag_keys_lookup (bt at_ : list (string * value)) (k : string)
  (keys : list string) :
  NoDup keys ->
  (In k keys \/ py_ne (items_get bt k) (items_get at_ k) = false) ->
  forall tc,
    lookup k (fold_left (scan_tag_key bt at_) keys tc) =
    add_pairs (field_pairs k bt at_) (lookup k tc).
Proof.
  induction keys as [| x keys IH]; intros Hnd Hk tc.
  - destruct Hk as [[] | Hk]. unfold field_pairs. now rewrite Hk.
  - inversion Hnd as [| ? ? Hx Hnd']; subst. cbn [fold_left].
    destruct (String.eqb_spec x k) as [-> | Hne].
    + rewrite scan_tag_keys_other by exact Hx.
      unfold scan_tag_key, field_pairs.
      destruct (py_ne (items_get bt k) (items_get at_ k)); [| reflexivity].
      apply record_change_lookup_same.
    + rewrite IH; [| exact Hnd' | destruct Hk as [[? | ?] | ?]; auto;
                                   contradiction].
      f_equal. unfold scan_tag_key.
      destruct (py_ne (items_get bt x) (items_get at_ x)); [| reflexivity].
      now apply record_change_lookup_other.
Qed.

Lemma items_get_absent (d : list (string * value)) (k : string) :
  ~ In k (map fst d) -> items_get d k = VNone.
Proof.
  intro H. unfold items_get. apply lookup_None_not_In in H. now rewrite H.
Qed.

Lemma add_pairs_app (p q : list (value * value))
  (g : option (list (string * tag_group))) :
  add_pairs (p ++ q) g = add_pairs q (add_pairs p g).
Proof. apply fold_left_app. Qed.

Lemma scan_tag_fields_lookup (before after : value) (k : string)
  (fields : list string) :
  forall tc tc',
    scan_tag_fields before after fields tc = Ok tc' ->
    lookup k tc' = add_pairs (key_pairs k before after fields) (lookup k tc).
Proof using set_order_In set_order_NoDup.
  induction fields as [| f fields IH]; intros tc tc' H; simpl in H.
  - now injection H as <-.
  - cbn [key_pairs].
    destruct (py_get before f (VDict [])) as [bt |]; cbn [bind] in H;
      [| discriminate].
    destruct (py_get after f (VDict [])) as [at_ |]; cbn [bind] in H;
      [| discriminate].
    destruct bt; try (now apply IH in H);
      destruct at_; try (now apply IH in H).
    assert (Hscan : forall tc0,
              lookup k (fold_left (scan_tag_key d d0)
                          (set_order (map fst d ++ map fst d0)) tc0) =
              add_pairs (field_pairs k d d0) (lookup k tc0)).
    { intro tc0. apply scan_tag_keys_lookup; [apply set_order_NoDup |].
      destruct (in_dec string_dec k (map fst d ++ map fst d0)) as [Hin | Hn].
      - left. now apply set_order_In.
      - right. unfold py_ne.
        rewrite !items_get_absent by (intro; apply Hn, in_or_app; auto).
        reflexivity. }
    destruct ((f =? "tags")%string && truthy (VDict d)).
    + injection H as <-. rewrite app_nil_r. apply Hscan.
    + apply IH in H. rewrite H, Hscan. symmetry. apply add_pairs_app.
Qed.

Lemma scan_resource_lookup (tc tc' : tag_changes_t) (rc : value)
  (k : string) :
  scan_resource tc rc = Ok tc' ->
  lookup k tc' = add_pairs (rc_key_pairs k rc) (lookup k tc).
Proof using set_order_In set_order_NoDup.
  unfold scan_resource, rc_key_pairs. intro H.
  destruct (py_get rc "change" (VDict [])) as [change |]; cbn [bind] in H;
    [| discriminate].
  destruct (py_get change "before" (VDict [])) as [before |];
    cbn [bind] in H; [| discriminate].
  destruct (py_get change "after" (VDict [])) as [after |];
    cbn [bind] in H; [| discriminate].
  now apply scan_tag_fields_lookup.
Qed.

(** The groups filed under a tag key are those of the pairs the records
    contribute for it, taken in order. *)
Lemma collect_tag_changes_lookup (rcs : list value) (tc : tag_changes_t)
  (k : string) :
  collect_tag_changes rcs = Ok tc ->
  lookup k tc = add_pairs (flat_map (rc_key_pairs k) rcs) None.
Proof using set_order_In set_order_NoDup.
  unfold collect_tag_changes.
  assert (G : forall l tc0 tc1, foldM scan_resource l tc0 = Ok tc1 ->
                lookup k tc1 =
                add_pairs (flat_map (rc_key_pairs k) l) (lookup k tc0)).
  { induction l as [| rc l IH]; intros tc0 tc1 H; simpl in H.
    - now injection H as <-.
    - destruct (scan_resource tc0 rc) as [tc' |] eqn:E; cbn [bind] in H;
        [| discriminate].
      apply IH in H. rewrite H. cbn [flat_map]. rewrite add_pairs_app.
      f_equal. now apply scan_resource_lookup. }
  intro H. now apply G in H.
Qed.

(** The classification step on the groups as filed.  With T the number of
    tags-only records and [changes] the groups the
    first loop filed under a tag key (the groups of the pairs the records
    contribute for it; never empty, one group per distinct change key): a
    single group whose count equals T gives an entry with is_common true and
    count T; a single group with another count (so any count below T) gives
    an entry with is_common false, that pair and its count; more than one
    group gives an entry with is_common false that keeps every group with its
    count. *)
Theorem extract_all_tag_changes_classifies
  (resource_changes tags_only_resources : list value)
  (tag_changes : tag_changes_t) (tag_key : string)
  (changes : list (string * tag_group)) :
  collect_tags_only resource_changes = Ok tags_only_resources ->
  tags_only_resources <> [] ->
  collect_tag_changes tags_only_resources = Ok tag_changes ->
  lookup tag_key tag_changes = Some changes ->
  exists summary entry,
    extract_all_tag_changes resource_changes = Ok summary /\
    lookup tag_key summary = Some entry /\
    Some changes =
      add_pairs (flat_map (rc_key_pairs tag_key) tags_only_resources) None /\
    changes <> [] /\ groups_ok changes /\
    (forall ck g, changes = [(ck, g)] ->
       g_count g = List.length tags_only_resources ->
       entry = SingleChange (g_before g) (g_after g)
                 (List.length tags_only_resources) true) /\
    (forall ck g, changes = [(ck, g)] ->
       g_count g <> List.length tags_only_resources ->
       entry = SingleChange (g_before g) (g_after g) (g_count g) false) /\
    ((1 < List.length changes)%nat ->
       entry = MultipleChanges (map snd changes) /\ is_common entry = false).
Proof using set_order_In set_order_NoDup.
  intros Hcol Hne Htc Hlook.
  unfold extract_all_tag_changes. rewrite Hcol. cbn [bind].
  destruct tags_only_resources as [| r0 rs] eqn:Ers; [contradiction |].
  rewrite Htc. cbn [bind].
  eexists. exists (flatten_changes (List.length (r0 :: rs)) changes).
  split; [reflexivity |].
  split; [rewrite lookup_map_values, Hlook; reflexivity |].
  pose proof (collect_tag_changes_ok _ _ Htc) as Hok.
  destruct (Hok _ _ (lookup_In _ _ _ Hlook)) as [Hnonempty Hgroups].
  split; [rewrite <- Hlook; exact (collect_tag_changes_lookup _ _ _ Htc) |].
  split; [exact Hnonempty |]. split; [exact Hgroups |].
  split; [| split].
  - intros ck g -> Hc. unfold flatten_changes.
    apply Nat.eqb_eq in Hc. now rewrite Hc.
  - intros ck g -> Hc. unfold flatten_changes.
    apply Nat.eqb_neq in Hc. now rewrite Hc.
  - intro Hlen. destruct changes as [| [ck1 g1] [| [ck2 g2] rest]];
      simpl in Hlen; try lia. split; reflexivity.
Qed.

(** ** [==] on hashable values is an equivalence *)

Lemma inject_Z_eq (x y : Z) : inject_Z x == inject_Z y <-> x = y.
Proof. unfold Qeq, inject_Z. simpl. lia. Qed.

Lemma Z_of_bool_inj (x y : bool) : Z_of_bool x = Z_of_bool y <-> x = y.
Proof. destruct x, y; simpl; split; intro H; congruence. Qed.

Lemma Q_zero_inject (z : Z) : 0 == inject_Z z <-> z = 0%Z.
Proof. change 0%Q with (inject_Z 0). rewrite inject_Z_eq. split; congruence. Qed.

Lemma py_eq_den (a b : value) :
  hashable a = true -> hashable b = true ->
  (py_eq a b = true <-> den_eq (den a) (den b)).
Proof.
  destruct a as [| x | x | [x | | x] | x | |];
  destruct b as [| y | y | [y | | y] | y | |];
    cbn [py_eq float_eq float_eq_Z hashable den den_eq];
    intros Ha Hb; try discriminate;
    rewrite ?Qeq_bool_iff, ?Z.eqb_eq, ?String.eqb_eq, ?Bool.eqb_true_iff,
      ?inject_Z_eq, ?Z_of_bool_inj, ?Q_zero_inject;
    try ptauto; try (split; intro H; congruence);
    try (split; intro H; symmetry; exact H);
    try (split; [discriminate | contradiction]);
    try (change 0%Q with (inject_Z 0); rewrite inject_Z_eq; ptauto).
Qed.

Lemma den_eq_refl (x : key_den) : den_eq x x.
Proof. destruct x; simpl; reflexivity || exact I. Qed.

Lemma den_eq_sym (x y : key_den) : den_eq x y -> den_eq y x.
Proof. destruct x, y; simpl; intro H; try contradiction; try exact I; now symmetry. Qed.

Lemma den_eq_trans (x y z : key_den) :
  den_eq x y -> den_eq y z -> den_eq x z.
Proof.
  destruct x, y, z; simpl; intros H1 H2; try contradiction;
    try exact I; first [congruence | etransitivity; eassumption].
Qed.

Lemma py_eq_refl (a : value) : hashable a = true -> py_eq a a = true.
Proof. intro H. apply py_eq_den; [assumption .. |]. apply den_eq_refl. Qed.

Lemma py_eq_sym (a b : value) :
  hashable a = true -> hashable b = true ->
  py_eq a b = true -> py_eq b a = true.
Proof.
  intros Ha Hb H. apply py_eq_den; [assumption .. |].
  apply den_eq_sym. now apply py_eq_den.
Qed.

Lemma py_eq_trans (a b c : value) :
  hashable a = true -> hashable b = true -> hashable c = true ->
  py_eq a b = true -> py_eq b c = true -> py_eq a c = true.
Proof.
  intros Ha Hb Hc H1 H2. apply py_eq_den; [assumption .. |].
  apply den_eq_trans with (den b); now apply py_eq_den.
Qed.

(** Equal keys compare alike with any third key. *)
Lemma py_eq_congr (a b c : value) :
  hashable a = true -> hashable b = true -> hashable c = true ->
  py_eq a b = true -> py_eq a c = py_eq b c.
Proof.
  intros Ha Hb Hc H.
  destruct (py_eq a c) eqn:E1, (py_eq b c) eqn:E2; try reflexivity.
  - rewrite <- E2. symmetry.
    apply py_eq_trans with a; auto using py_eq_sym.
  - rewrite <- E1. apply py_eq_trans with b; auto.
Qed.

(** ** The line-oriented parser *)

Lemma process_lines_events (lines : list string) :
  forall st, foldM process_line lines st =
             (st' <- foldM process_event (events_of_lines lines) st ;;
              match first_load_error lines with
              | Some e => Raise e
              | None => Ok st'
              end).
Proof.
  induction lines as [| line lines IH]; intro st; [reflexivity |].
  cbn [foldM events_of_lines first_load_error]. unfold process_line at 1.
  destruct (strip line =? "")%string; cbn [bind]; [apply IH |].
  destruct (json_loads (strip line)) as [event | e]; cbn [bind foldM].
  - destruct (process_event st event); cbn [bind]; [apply IH | reflexivity].
  - destruct e; cbn [bind foldM]; try reflexivity. apply IH.
Qed.

(** When the loop completes, no line raised and the events were processed. *)
Lemma process_lines_ok (lines : list string) (st st' : parse_state) :
  foldM process_line lines st = Ok st' ->
  foldM process_event (events_of_lines lines) st = Ok st' /\
  first_load_error lines = None.
Proof.
  rewrite process_lines_events.
  destruct (foldM process_event (events_of_lines lines) st) as [st1 |];
    cbn [bind]; [| discriminate].
  destruct (first_load_error lines); [discriminate |].
  intro H. now split.
Qed.

Lemma py_eq_str_neq (s t : string) :
  s <> t -> py_eq (VStr s) (VStr t) = false.
Proof. intro H. simpl. now apply String.eqb_neq. Qed.

(** What one event does to [planned_changes]. *)
Lemma process_event_planned (st st' : parse_state) (event : value) :
  process_event st event = Ok st' ->
  st_planned_changes st' =
  match effective_change event with
  | Some (addr, r) => kv_set (st_planned_changes st) addr r
  | None => st_planned_changes st
  end.
Proof.
  destruct event as [| | | | | | ev]; try discriminate.
  unfold process_event, effective_change, py_get1. cbn [py_get bind].
  fold (items_get ev "type") (items_get ev "@level")
       (items_get_or ev "change" (VDict [])).
  set (st1 := if py_eq (items_get ev "@level") (VStr "error") &&
                 py_eq (items_get ev "type") (VStr "diagnostic")
              then _ else st).
  assert (Hst1 : st_planned_changes st1 = st_planned_changes st).
  { subst st1. destruct (_ && _); reflexivity. }
  destruct (py_eq (items_get ev "type") (VStr "version")) eqn:Ev.
  { apply py_eq_str_iff in Ev. rewrite Ev. cbn [py_eq String.eqb].
    intro H. injection H as <-. exact Hst1. }
  destruct (py_eq (items_get ev "type") (VStr "resource_drift")) eqn:Ed.
  { apply py_eq_str_iff in Ed. rewrite Ed.
    replace (py_eq (VStr "resource_drift") (VStr "planned_change"))
      with false by reflexivity.
    destruct (items_get_or ev "change" (VDict [])) as [| | | | | | cd];
      try discriminate.
    cbn [py_get bind].
    destruct (match lookup "resource" cd with
              | Some v => v
              | None => VDict []
              end) as [| | | | | | res]; try discriminate.
    cbn [py_get bind].
    destruct (truthy _); [| intro H; injection H as <-; exact Hst1].
    destruct (hashable _); [| discriminate].
    destruct (kv_lookup _ _); intro H; injection H as <-; exact Hst1. }
  destruct (py_eq (items_get ev "type") (VStr "planned_change")) eqn:Ep;
    [| intro H; injection H as <-; exact Hst1].
  destruct (items_get_or ev "change" (VDict [])) as [| | | | | | cd];
    try discriminate.
  cbn [py_get bind].
  fold (items_get_or cd "resource" (VDict [])) (items_get cd "action")
       (items_get cd "reason").
  destruct (py_eq (items_get cd "action") (VStr "read"));
    [intro H; injection H as <-; exact Hst1 |].
  destruct (py_get (items_get_or cd "resource" (VDict [])) "addr" (VStr ""))
    as [addr |]; cbn [bind]; [| discriminate].
  destruct (build_resource_change addr (items_get_or cd "resource" (VDict []))
              (items_get cd "action") (items_get cd "reason")) as [r |];
    cbn [bind]; [| discriminate].
  destruct (hashable addr); [| discriminate].
  intro H. injection H as <-. cbn [st_planned_changes]. now rewrite Hst1.
Qed.

Lemma effective_change_entry (event addr r : value) :
  effective_change event = Some (addr, r) ->
  hashable addr = true /\ rc_address r = addr.
Proof.
  destruct event as [| | | | | | ev]; try discriminate.
  unfold effective_change.
  destruct (py_eq (items_get ev "type") (VStr "planned_change"));
    [| discriminate].
  destruct (items_get_or ev "change" (VDict [])) as [| | | | | | cd];
    try discriminate.
  destruct (py_eq (items_get cd "action") (VStr "read")); [discriminate |].
  destruct (py_get (items_get_or cd "resource" (VDict [])) "addr" (VStr ""))
    as [a |]; [| discriminate].
  unfold build_resource_change.
  destruct (py_get _ "module" _); cbn [bind]; [| discriminate].
  destruct (py_get _ "resource_type" _); cbn [bind]; [| discriminate].
  destruct (py_get _ "resource_name" _); cbn [bind]; [| discriminate].
  destruct (hashable a) eqn:Eh; [| discriminate].
  intro H. injection H as <- <-. split; [exact Eh | reflexivity].
Qed.

Lemma Forall_entry_hashable (d : list (value * value)) (k v : value) :
  Forall entry_ok d -> In (k, v) d -> hashable k = true.
Proof.
  intros H Hin. rewrite Forall_forall in H. now destruct (H _ Hin).
Qed.

Lemma kv_lookup_kv_set (d : list (value * value)) (k v a : value) :
  Forall entry_ok d -> hashable k = true -> hashable a = true ->
  kv_lookup a (kv_set d k v) =
  if py_eq k a then Some v else kv_lookup a d.
Proof.
  intros Hd Hk Ha. induction d as [| [k' v'] d IH]; [reflexivity |].
  assert (Hk' : hashable k' = true)
    by (apply (Forall_entry_hashable _ k' v' Hd); now left).
  inversion Hd as [| ? ? _ Hd']; subst. specialize (IH Hd').
  cbn [kv_set kv_lookup]. destruct (py_eq k' k) eqn:E.
  - cbn [kv_lookup]. rewrite (py_eq_congr k' k a) by assumption.
    now destruct (py_eq k a).
  - cbn [kv_lookup]. rewrite IH.
    destruct (py_eq k' a) eqn:E1; [| reflexivity].
    destruct (py_eq k a) eqn:E2; [| reflexivity].
    exfalso. assert (py_eq k' k = true); [| congruence].
    apply py_eq_trans with a; auto using py_eq_sym.
Qed.

Lemma keys_kv_set (d : list (value * value)) (k v : value) :
  map fst (kv_set d k v) =
  if existsb (fun kv => py_eq (fst kv) k) d then map fst d
  else (map fst d ++ [k])%list.
Proof.
  induction d as [| [k' v'] d IH]; [reflexivity |].
  cbn [kv_set existsb fst]. destruct (py_eq k' k); [reflexivity |].
  cbn [map fst orb]. rewrite IH. now destruct (existsb _ d).
Qed.

Lemma keys_distinct_snoc (keys : list value) (k : value) :
  keys_distinct keys ->
  (forall k', In k' keys -> py_eq k' k = false) ->
  keys_distinct (keys ++ [k]).
Proof.
  induction keys as [| k0 keys IH]; intros Hd Hk; simpl.
  - split; [intros ? [] | exact I].
  - destruct Hd as [H0 Hd]. split.
    + intros k' Hin. apply in_app_or in Hin. destruct Hin as [Hin | [<- | []]].
      * now apply H0.
      * apply Hk. now left.
    + apply IH; [exact Hd |]. intros k' Hin. apply Hk. now right.
Qed.

Lemma In_kv_set (d : list (value * value)) (k v k' v' : value) :
  In (k', v') (kv_set d k v) ->
  In (k', v') d \/ (v' = v /\ (k' = k \/ (py_eq k' k = true /\
                                          In k' (map fst d)))).
Proof.
  induction d as [| [k0 v0] d IH]; cbn [kv_set].
  - intros [H | []]. injection H as <- <-. right. auto.
  - destruct (py_eq k0 k) eqn:E.
    + intros [H | H].
      * injection H as <- <-. right. split; [reflexivity |]. right.
        split; [exact E | now left].
      * left. now right.
    + intros [H | H]; [left; now left |].
      destruct (IH H) as [? | (? & [? | (? & ?)])].
      * left. now right.
      * right. auto.
      * right. split; [assumption |]. right. split; [assumption | now right].
Qed.

Lemma kv_set_ok (d : list (value * value)) (k v : value) :
  planned_ok d -> hashable k = true -> rc_address v = k ->
  planned_ok (kv_set d k v).
Proof.
  intros [Hdist Hall] Hk Hv. split.
  - rewrite keys_kv_set.
    destruct (existsb (fun kv => py_eq (fst kv) k) d) eqn:E; [exact Hdist |].
    apply keys_distinct_snoc; [exact Hdist |].
    intros k' Hin. apply in_map_iff in Hin. destruct Hin as [[k0 v0] [<- Hin]].
    destruct (py_eq (fst (k0, v0)) k) eqn:E'; [| reflexivity].
    assert (existsb (fun kv => py_eq (fst kv) k) d = true); [| congruence].
    apply existsb_exists. now exists (k0, v0).
  - apply Forall_forall. intros [k' v'] Hin. apply In_kv_set in Hin.
    rewrite Forall_forall in Hall.
    destruct Hin as [Hin | [-> [-> | [Heq Hin]]]].
    + now apply Hall.
    + unfold entry_ok. cbn [fst snd]. rewrite Hv.
      auto using py_eq_refl.
    + unfold entry_ok. cbn [fst snd]. rewrite Hv.
      apply in_map_iff in Hin. destruct Hin as [[k0 v0] [Hk0 Hin]].
      cbn [fst] in Hk0. subst k0.
      destruct (Hall _ Hin) as (Hh & _ & _). cbn [fst] in Hh. auto.
Qed.

Lemma kv_lookup_absent (d : list (value * value)) (a : value) :
  (forall k v, In (k, v) d -> py_eq k a = false) -> kv_lookup a d = None.
Proof.
  induction d as [| [k v] d IH]; intro H; [reflexivity |].
  cbn [kv_lookup]. rewrite (H k v) by now left.
  apply IH. intros k' v' Hin. apply (H k' v'). now right.
Qed.

Lemma filter_address_absent (d : list (value * value)) (a : value) :
  Forall entry_ok d -> hashable a = true ->
  (forall k v, In (k, v) d -> py_eq k a = false) ->
  filter (fun rc => py_eq (rc_address rc) a) (map snd d) = [].
Proof.
  intros Hall Ha. induction d as [| [k v] d IH]; intro H; [reflexivity |].
  inversion Hall as [| ? ? (Hk & Hav & Heq) Hd']; subst.
  cbn [fst snd] in *. cbn [map snd filter].
  rewrite <- (py_eq_congr k (rc_address v) a) by assumption.
  rewrite (H k v) by now left.
  apply IH; [exact Hd' |]. intros k' v' Hin. apply (H k' v'). now right.
Qed.

(** The records of the result whose address equals [a]: the one filed under
    [a], if any. *)
Lemma filter_address_lookup (d : list (value * value)) (a : value) :
  planned_ok d -> hashable a = true ->
  filter (fun rc => py_eq (rc_address rc) a) (map snd d) =
  match kv_lookup a d with
  | Some r => [r]
  | None => []
  end.
Proof.
  intros [Hdist Hall] Ha. induction d as [| [k v] d IH]; [reflexivity |].
  inversion Hall as [| ? ? (Hk & Hav & Heq) Hd']; subst.
  cbn [fst snd] in *. cbn [map fst keys_distinct] in Hdist.
  destruct Hdist as [Hfirst Hdist].
  cbn [map snd filter kv_lookup].
  rewrite <- (py_eq_congr k (rc_address v) a) by assumption.
  destruct (py_eq k a) eqn:E.
  - f_equal. apply filter_address_absent; [assumption .. |].
    intros k' v' Hin.
    assert (Hk' : hashable k' = true)
      by exact (Forall_entry_hashable _ _ _ Hd' Hin).
    destruct (py_eq k' a) eqn:E'; [| reflexivity].
    assert (py_eq k k' = true).
    { apply py_eq_trans with a; auto using py_eq_sym. }
    rewrite (Hfirst k') in H; [discriminate |].
    apply in_map_iff. now exists (k', v').
  - now apply IH.
Qed.

Lemma planned_ok_nil : planned_ok [].
Proof. split; [exact I | constructor]. Qed.

Lemma process_events_planned (events : list value) :
  forall st st',
    planned_ok (st_planned_changes st) ->
    foldM process_event events st = Ok st' ->
    planned_ok (st_planned_changes st') /\
    forall a, hashable a = true ->
      kv_lookup a (st_planned_changes st') =
      last_effective a events (kv_lookup a (st_planned_changes st)).
Proof.
  induction events as [| e events IH]; intros st st' Hok H.
  - simpl in H. injection H as <-. split; [exact Hok | reflexivity].
  - cbn [foldM] in H.
    destruct (process_event st e) as [st1 |] eqn:E; cbn [bind] in H;
      [| discriminate].
    pose proof (process_event_planned _ _ _ E) as Hp.
    assert (Hok1 : planned_ok (st_planned_changes st1)).
    { rewrite Hp. destruct (effective_change e) as [[addr r] |] eqn:Ee;
        [| exact Hok].
      destruct (effective_change_entry _ _ _ Ee). now apply kv_set_ok. }
    destruct (IH st1 st' Hok1 H) as [Hok' Hlook]. split; [exact Hok' |].
    intros a Ha. rewrite (Hlook a Ha). cbn [last_effective]. f_equal.
    rewrite Hp. destruct (effective_change e) as [[addr r] |] eqn:Ee;
      [| reflexivity].
    destruct (effective_change_entry _ _ _ Ee) as [Hh _].
    destruct Hok as [_ Hall]. now apply kv_lookup_kv_set.
Qed.

Lemma last_effective_app (a : value) (l1 l2 : list value) :
  forall acc,
    last_effective a (l1 ++ l2) acc =
    last_effective a l2 (last_effective a l1 acc).
Proof.
  induction l1 as [| e l1 IH]; intro acc; [reflexivity |].
  cbn [app last_effective]. apply IH.
Qed.

Lemma last_effective_untouched (a : value) (post : list value) :
  (forall e a' r', In e post -> effective_change e = Some (a', r') ->
                   py_eq a' a = false) ->
  forall acc, last_effective a post acc = acc.
Proof.
  induction post as [| e post IH]; intros H acc; [reflexivity |].
  cbn [last_effective]. rewrite IH.
  - destruct (effective_change e) as [[a' r'] |] eqn:E; [| reflexivity].
    now rewrite (H e a' r' (or_introl eq_refl) E).
  - intros e' a' r' Hin. apply (H e' a' r'). now right.
Qed.

Lemma planned_change_read_ignored (st : parse_state)
  (ev cd : list (string * value)) :
  items_get ev "type" = VStr "planned_change" ->
  items_get_or ev "change" (VDict []) = VDict cd ->
  items_get cd "action" = VStr "read" ->
  process_event st (VDict ev) = Ok st /\ effective_change (VDict ev) = None.
Proof.
  intros Ht Hc Ha. split.
  - unfold process_event, py_get1. cbn [py_get bind].
    fold (items_get ev "type") (items_get ev "@level")
         (items_get_or ev "change" (VDict [])).
    rewrite Ht, Hc.
    replace (py_eq (VStr "planned_change") (VStr "diagnostic"))
      with false by reflexivity.
    rewrite andb_false_r.
    replace (py_eq (VStr "planned_change") (VStr "version"))
      with false by reflexivity.
    replace (py_eq (VStr "planned_change") (VStr "resource_drift"))
      with false by reflexivity.
    replace (py_eq (VStr "planned_change") (VStr "planned_change"))
      with true by reflexivity.
    cbn [py_get bind]. fold (items_get cd "action"). rewrite Ha.
    reflexivity.
  - unfold effective_change. rewrite Ht, Hc, Ha. reflexivity.
Qed.

Lemma effective_change_actions (ev cd : list (string * value))
  (a r : value) :
  items_get_or ev "change" (VDict []) = VDict cd ->
  effective_change (VDict ev) = Some (a, r) ->
  rc_actions r =
  Ok (if is_str (items_get cd "action")
      then VList [items_get cd "action"]
      else items_get cd "action").
Proof.
  intros Hc. unfold effective_change. rewrite Hc.
  destruct (py_eq (items_get ev "type") (VStr "planned_change"));
    [| discriminate].
  destruct (py_eq (items_get cd "action") (VStr "read")); [discriminate |].
  destruct (py_get (items_get_or cd "resource" (VDict [])) "addr" (VStr ""))
    as [addr |]; [| discriminate].
  unfold build_resource_change.
  destruct (py_get _ "module" _); cbn [bind]; [| discriminate].
  destruct (py_get _ "resource_type" _); cbn [bind]; [| discriminate].
  destruct (py_get _ "resource_name" _); cbn [bind]; [| discriminate].
  destruct (hashable addr); [| discriminate].
  intro H. injection H as <- <-. reflexivity.
Qed.

(** C7.  A "planned_change" record whose action is "read" leaves the parser's
    state untouched.  In the result, the records whose address equals a given
    address are exactly: the record built from the last "planned_change"
    record (action other than "read") for that address, or none; so no two
    records share an address, and when such a record for an address is
    followed by no other for the same address, the result holds exactly that
    one record for it, whatever came before (last write wins).  The record of
    an event with a string action s carries actions [s]. *)
Theorem parse_json_lines_last_write_wins
  (content : string) (plan_data : value) :
  parse_terraform_json_lines content = Ok plan_data ->
  (forall st ev cd,
     items_get ev "type" = VStr "planned_change" ->
     items_get_or ev "change" (VDict []) = VDict cd ->
     items_get cd "action" = VStr "read" ->
     process_event st (VDict ev) = Ok st) /\
  exists rcs,
    py_get plan_data "resource_changes" (VList []) = Ok (VList rcs) /\
    Forall (fun rc => hashable (rc_address rc) = true) rcs /\
    (forall a, hashable a = true ->
       filter (fun rc => py_eq (rc_address rc) a) rcs =
       match last_effective a (events_of_lines (file_lines content)) None with
       | Some r => [r]
       | None => []
       end) /\
    (forall a, hashable a = true ->
       (List.length (filter (fun rc => py_eq (rc_address rc) a) rcs) <= 1)%nat)
    /\
    (forall pre ev cd post a r,
       events_of_lines (file_lines content) = (pre ++ VDict ev :: post)%list ->
       items_get_or ev "change" (VDict []) = VDict cd ->
       effective_change (VDict ev) = Some (a, r) ->
       (forall e' a' r', In e' post -> effective_change e' = Some (a', r') ->
                         py_eq a' a = false) ->
       filter (fun rc => py_eq (rc_address rc) a) rcs = [r] /\
       rc_actions r = Ok (if is_str (items_get cd "action")
                          then VList [items_get cd "action"]
                          else items_get cd "action")).
Proof.
  intro H. split.
  { intros st ev cd Ht Hc Ha.
    now destruct (planned_change_read_ignored st ev cd Ht Hc Ha). }
  unfold parse_terraform_json_lines in H.
  destruct (foldM process_line (file_lines content) initial_state)
    as [st |] eqn:Eline; cbn [bind] in H; [| discriminate].
  injection H as <-.
  destruct (process_lines_ok _ _ _ Eline) as [E _].
  destruct (process_events_planned _ initial_state st planned_ok_nil E)
    as [Hok Hlook].
  cbn [initial_state st_planned_changes kv_lookup] in Hlook.
  exists (map snd (st_planned_changes st)).
  assert (Hfilter : forall a, hashable a = true ->
            filter (fun rc => py_eq (rc_address rc) a)
              (map snd (st_planned_changes st)) =
            match last_effective a (events_of_lines (file_lines content))
                    None with
            | Some r => [r]
            | None => []
            end).
  { intros a Ha. rewrite (filter_address_lookup _ _ Hok Ha).
    now rewrite (Hlook a Ha). }
  split; [reflexivity |]. split; [| split; [exact Hfilter | split]].
  - destruct Hok as [_ Hall]. apply Forall_forall. intros rc Hin.
    apply in_map_iff in Hin. destruct Hin as [[k v] [<- Hin]].
    rewrite Forall_forall in Hall. now destruct (Hall _ Hin) as (_ & ? & _).
  - intros a Ha. rewrite (Hfilter a Ha).
    destruct (last_effective _ _ _); simpl; lia.
  - intros pre ev cd post a r Hev Hc Hr Hpost.
    destruct (effective_change_entry _ _ _ Hr) as [Ha _].
    split; [| exact (effective_change_actions _ _ _ _ Hc Hr)].
    rewrite (Hfilter a Ha), Hev, last_effective_app.
    cbn [last_effective]. rewrite Hr, (py_eq_refl a Ha).
    now rewrite (last_effective_untouched a post Hpost).
Qed.

(** ** The tag aggregator: which tag field is counted *)

(** When the before value of [tags] is a non-empty dict (and the after value
    a dict), only [tags] is scanned. *)
Lemma scan_tag_fields_prefers_tags (before after : value)
  (bt at_ : list (string * value)) (tag_changes : tag_changes_t) :
  py_get before "tags" (VDict []) = Ok (VDict bt) ->
  py_get after "tags" (VDict []) = Ok (VDict at_) ->
  bt <> [] ->
  scan_tag_fields before after ["tags"; "tags_all"] tag_changes =
  Ok (fold_left (scan_tag_key bt at_)
        (set_order (map fst bt ++ map fst at_)) tag_changes).
Proof.
  intros Hb Ha Hne. cbn [scan_tag_fields]. rewrite Hb, Ha. cbn [bind].
  destruct bt; [contradiction | reflexivity].
Qed.

(** When the before value of [tags] is an empty dict, [tags] and then
    [tags_all] are both scanned into the same counts. *)
Lemma scan_tag_fields_empty_before_scans_both (before after : value)
  (at_ bta ata : list (string * value)) (tag_changes : tag_changes_t) :
  py_get before "tags" (VDict []) = Ok (VDict []) ->
  py_get after "tags" (VDict []) = Ok (VDict at_) ->
  py_get before "tags_all" (VDict []) = Ok (VDict bta) ->
  py_get after "tags_all" (VDict []) = Ok (VDict ata) ->
  scan_tag_fields before after ["tags"; "tags_all"] tag_changes =
  Ok (fold_left (scan_tag_key bta ata)
        (set_order (map fst bta ++ map fst ata))
        (fold_left (scan_tag_key [] at_)
           (set_order (map fst (@nil (string * value)) ++ map fst at_))
           tag_changes)).
Proof.
  intros Hb Ha Hba Haa. cbn [scan_tag_fields]. rewrite Hb, Ha. cbn [bind].
  cbn [truthy andb]. rewrite andb_false_r. rewrite Hba, Haa. cbn [bind].
  replace ("tags_all" =? "tags")%string with false by reflexivity.
  reflexivity.
Qed.

(** ** The full-document parser stores the flag in every record *)

Lemma mapM_Forall2 {A B : Type} (f : A -> result B) (l : list A)
  (l' : list B) :
  mapM f l = Ok l' -> Forall2 (fun x y => f x = Ok y) l l'.
Proof.
  revert l'. induction l as [| x l IH]; intros l' H; simpl in H.
  - injection H as <-. constructor.
  - destruct (f x) as [y |] eqn:E; cbn [bind] in H; [| discriminate].
    destruct (mapM f l) as [ys |]; cbn [bind] in H; [| discriminate].
    injection H as <-. constructor; [exact E | now apply IH].
Qed.

(** X19.  When "resource_changes" is a list, the full-document parser returns
    the document it read with that list replaced by the marked records, in
    order; a marked record is the record with "tags_only" set to its flag and
    every other key as it was. *)
Lemma mark_document_marks (items : list (string * value))
  (rcs : list value) (data' : value) :
  lookup "resource_changes" items = Some (VList rcs) ->
  mark_document (VDict items) = Ok data' ->
  exists rcs',
    data' = VDict (items_set items "resource_changes" (VList rcs')) /\
    Forall2 (fun rc rc' =>
               exists flag, tags_only_flag rc = Ok flag /\
                            py_setitem rc "tags_only" (VBool flag) = Ok rc')
            rcs rcs'.
Proof.
  intros Hl H. unfold mark_document in H. cbn [py_get bind] in H.
  rewrite Hl in H. cbn [py_iter bind] in H.
  destruct (mapM mark_tags_only rcs) as [rcs' |] eqn:E; cbn [bind] in H;
    [| discriminate].
  injection H as <-. exists rcs'. split; [reflexivity |].
  apply mapM_Forall2 in E.
  eapply Forall2_impl; [| exact E]. intros rc rc' Hm. cbv beta in Hm.
  unfold mark_tags_only in Hm.
  destruct (tags_only_flag rc) as [flag |]; cbn [bind] in Hm;
    [| discriminate].
  now exists flag.
Qed.

(** ** The parsers return on well-formed input *)

Lemma process_event_total (st : parse_state) (event : value) :
  well_formed_event event -> exists st', process_event st event = Ok st'.
Proof.
  intros (ev & cd & res & -> & Hc & Hr & Hh).
  unfold process_event, py_get1. cbn [py_get bind].
  fold (items_get_or ev "change" (VDict [])). rewrite Hc. cbn [py_get bind].
  fold (items_get_or cd "resource" (VDict [])). rewrite Hr.
  cbn [py_get bind build_resource_change].
  fold (items_get_or res "addr" (VStr "")). rewrite Hh.
  destruct (py_eq _ (VStr "version")); [eexists; reflexivity |].
  destruct (py_eq _ (VStr "resource_drift")).
  { destruct (truthy _); [| eexists; reflexivity].
    destruct (kv_lookup _ _); eexists; reflexivity. }
  destruct (py_eq _ (VStr "planned_change")); [| eexists; reflexivity].
  destruct (py_eq _ (VStr "read")); eexists; reflexivity.
Qed.

(** X16.  When every line that parses is a well-formed record, the
    line-oriented parser returns a result if [json.loads] raises nothing but
    [JSONDecodeError] on the lines, and otherwise raises the first other
    exception of [json.loads], which it does not catch. *)
Lemma parse_terraform_json_lines_total (content : string) :
  Forall well_formed_event (events_of_lines (file_lines content)) ->
  (first_load_error (file_lines content) = None ->
   exists plan_data, parse_terraform_json_lines content = Ok plan_data) /\
  (forall e, first_load_error (file_lines content) = Some e ->
             parse_terraform_json_lines content = Raise e).
Proof.
  intro Hwf. unfold parse_terraform_json_lines.
  rewrite process_lines_events.
  assert (G : forall events st, Forall well_formed_event events ->
                exists st', foldM process_event events st = Ok st').
  { induction events as [| e events IH]; intros st H.
    - eexists. reflexivity.
    - inversion H as [| ? ? He Hes]; subst. cbn [foldM].
      destruct (process_event_total st e He) as [st1 ->]. cbn [bind].
      now apply IH. }
  destruct (G _ initial_state Hwf) as [st ->]. cbn [bind].
  split.
  - intros ->. eexists. reflexivity.
  - intros e ->. reflexivity.
Qed.

Lemma changed_attrs_of_total (b a au : list (string * value)) :
  exists l, changed_attrs_of b a (VDict au) = Ok l.
Proof.
  unfold changed_attrs_of.
  generalize (set_order (map fst b ++ map fst a)) as keys.
  intro keys. set (acc := @nil string) at 2. clearbody acc. revert acc.
  induction keys as [| k keys IH]; intro acc; cbn [foldM].
  - eexists. reflexivity.
  - destruct (truthy (VDict au)); cbn [py_get1 py_get bind].
    + destruct (truthy _); cbn [bind]; [apply IH |].
      destruct (py_ne _ _); cbn [bind]; apply IH.
    + destruct (py_ne _ _); cbn [bind]; apply IH.
Qed.

(** A record whose "change" is an object with a list of actions and an object
    (or no) "after_unknown" gets a flag. *)
Lemma tags_only_flag_total (rc : value) (ch au : list (string * value))
  (actions : list value) :
  py_get rc "change" (VDict []) = Ok (VDict ch) ->
  items_get_or ch "actions" (VList []) = VList actions ->
  items_get_or ch "after_unknown" (VDict []) = VDict au ->
  exists flag, tags_only_flag rc = Ok flag.
Proof.
  intros Hch Ha Hau. unfold tags_only_flag, and_then. rewrite Hch.
  cbn [py_get bind]. fold (items_get_or ch "actions" (VList [])).
  rewrite Ha. cbn [py_in bind].
  destruct (existsb _ actions); cbn [bind]; [| eexists; reflexivity].
  destruct (existsb _ actions); cbn [bind negb]; [eexists; reflexivity |].
  destruct (existsb _ actions); cbn [bind negb]; [eexists; reflexivity |].
  fold (items_get_or ch "before" (VDict []))
       (items_get_or ch "after" (VDict []))
       (items_get_or ch "after_unknown" (VDict [])).
  rewrite Hau.
  destruct (items_get_or ch "before" (VDict [])) as [| | | | | | b];
    try (eexists; reflexivity).
  destruct (items_get_or ch "after" (VDict [])) as [| | | | | | a];
    try (eexists; reflexivity).
  destruct (changed_attrs_of_total b a au) as [l ->]. cbn [bind].
  eexists. reflexivity.
Qed.

(** ** The tag aggregator on the two sample populations of the
    specification *)

Lemma collect_tags_only_all (rcs : list value) :
  Forall (fun rc => exists t, py_get rc "tags_only" (VBool false) = Ok t /\
                              truthy t = true) rcs ->
  collect_tags_only rcs = Ok rcs.
Proof.
  unfold collect_tags_only. intro H.
  assert (G : forall acc,
            foldM (fun acc rc =>
                     t <- py_get rc "tags_only" (VBool false) ;;
                     Ok (if truthy t then (acc ++ [rc])%list else acc))
                  rcs acc = Ok (acc ++ rcs)%list).
  { induction H as [| rc l (t & Ht & Htr) _ IH]; intro acc; cbn [foldM].
    - now rewrite app_nil_r.
    - rewrite Ht. cbn [bind]. rewrite Htr, IH, <- app_assoc. reflexivity. }
  apply (G []).
Qed.

Lemma flat_map_same {A B : Type} (f : A -> list B) (l : list A) (p : B) :
  Forall (fun x => f x = [p]) l -> flat_map f l = repeat p (List.length l).
Proof.
  induction 1 as [| x l Hx _ IH]; [reflexivity |].
  cbn [flat_map List.length repeat]. now rewrite Hx, IH.
Qed.

Lemma add_pair_bump (groups : list (string * tag_group)) (b a : value)
  (g : tag_group) :
  lookup (change_key_of b a) groups = Some g ->
  add_pair groups b a =
  items_set groups (change_key_of b a)
    (mk_group (g_before g) (g_after g) (S (g_count g))).
Proof. intro H. unfold add_pair. now rewrite H. Qed.

Lemma add_pair_new (groups : list (string * tag_group)) (b a : value) :
  lookup (change_key_of b a) groups = None ->
  add_pair groups b a =
  items_set groups (change_key_of b a) (mk_group b a 1).
Proof. intro H. unfold add_pair. now rewrite H. Qed.

(** A pair whose rendering is already filed joins that group, which keeps
    the values of its first pair. *)
Lemma add_pair_same_rendering (b a b' a' : value) :
  change_key_of b' a' = change_key_of b a ->
  add_pair (add_pair [] b a) b' a' =
  [(change_key_of b a, mk_group b a 2)].
Proof.
  intro H. rewrite (add_pair_new [] b a) by reflexivity. cbn [items_set].
  rewrite (add_pair_bump _ b' a' (mk_group b a 1))
    by (rewrite H; cbn [lookup]; now rewrite String.eqb_refl).
  rewrite H. cbn [items_set g_before g_after g_count].
  now rewrite String.eqb_refl.
Qed.

(** More of a pair already filed first: its count grows, the rest stays. *)
Lemma add_pairs_repeat_head (b a : value) (n m : nat)
  (rest : list (string * tag_group)) :
  add_pairs (repeat (b, a) n)
    (Some ((change_key_of b a, mk_group b a m) :: rest)) =
  Some ((change_key_of b a, mk_group b a (m + n)) :: rest).
Proof.
  revert m. induction n as [| n IH]; intro m.
  - now rewrite Nat.add_0_r.
  - cbn [repeat add_pairs fold_left fst snd].
    rewrite (add_pair_bump _ b a (mk_group b a m))
      by (cbn [lookup]; now rewrite String.eqb_refl).
    cbn [items_set g_before g_after g_count]. rewrite String.eqb_refl.
    fold (add_pairs (repeat (b, a) n)
            (Some ((change_key_of b a, mk_group b a (S m)) :: rest))).
    rewrite IH, Nat.add_succ_comm. reflexivity.
Qed.

(** More of a pair filed second, after one other group. *)
Lemma add_pairs_repeat_second (b a : value) (n m : nat) (ck : string)
  (g : tag_group) :
  ck <> change_key_of b a ->
  add_pairs (repeat (b, a) n)
    (Some [(ck, g); (change_key_of b a, mk_group b a m)]) =
  Some [(ck, g); (change_key_of b a, mk_group b a (m + n))].
Proof.
  intro Hne. apply String.eqb_neq in Hne. rewrite String.eqb_sym in Hne.
  revert m. induction n as [| n IH]; intro m.
  - now rewrite Nat.add_0_r.
  - cbn [repeat add_pairs fold_left fst snd].
    rewrite (add_pair_bump _ b a (mk_group b a m))
      by (cbn [lookup]; now rewrite Hne, String.eqb_refl).
    cbn [items_set g_before g_after g_count].
    rewrite Hne, String.eqb_refl.
    fold (add_pairs (repeat (b, a) n)
            (Some [(ck, g); (change_key_of b a, mk_group b a (S m))])).
    rewrite IH, Nat.add_succ_comm. reflexivity.
Qed.

Lemma change_key_of_str (a b : string) :
  change_key_of (VStr a) (VStr b) = a ++ "→" ++ b.
Proof. reflexivity. Qed.

Lemma append_inj_r (s x y : string) : s ++ x = s ++ y -> x = y.
Proof.
  induction s as [| c s IH]; simpl; intro H; [exact H |].
  injection H as H. now apply IH.
Qed.

Lemma change_key_of_str_neq (a b c : string) :
  b <> c -> change_key_of (VStr a) (VStr c) <> change_key_of (VStr a) (VStr b).
Proof.
  intros Hne H. rewrite !change_key_of_str in H.
  apply append_inj_r, append_inj_r in H. congruence.
Qed.

(** X23.  When each of T tags-only records changes the tag key from "a" to
    "b", the key is common with count T. *)
Lemma common_tag_change (resource_changes : list value) (k a b : string)
  (summary : list (string * tag_summary)) :
  resource_changes <> [] ->
  Forall (fun rc => exists t, py_get rc "tags_only" (VBool false) = Ok t /\
                              truthy t = true) resource_changes ->
  Forall (fun rc => rc_key_pairs k rc = [(VStr a, VStr b)])
    resource_changes ->
  extract_all_tag_changes resource_changes = Ok summary ->
  lookup k summary =
  Some (SingleChange (VStr a) (VStr b) (List.length resource_changes) true).
Proof using set_order_In set_order_NoDup.
  intros Hne Hflag Hpairs H. unfold extract_all_tag_changes in H.
  rewrite (collect_tags_only_all _ Hflag) in H. cbn [bind] in H.
  destruct resource_changes as [| r0 rs] eqn:Ers; [contradiction |].
  rewrite <- Ers in *.
  destruct (collect_tag_changes resource_changes) as [tc |] eqn:Etc;
    cbn [bind] in H; [| discriminate].
  injection H as <-. rewrite lookup_map_values.
  rewrite (collect_tag_changes_lookup _ _ k Etc).
  rewrite (flat_map_same _ _ _ Hpairs). rewrite Ers.
  cbn [List.length repeat add_pairs fold_left fst snd].
  rewrite add_pair_new by reflexivity. cbn [items_set].
  fold (add_pairs (repeat (VStr a, VStr b) (List.length rs))
          (Some [(change_key_of (VStr a) (VStr b),
                  mk_group (VStr a) (VStr b) 1)])).
  rewrite add_pairs_repeat_head. cbn [option_map flatten_changes g_count].
  rewrite Nat.eqb_refl. reflexivity.
Qed.

(** X24.  When one of the T records changes the key from "a" to "c" instead,
    the key keeps two groups, with counts T - 1 and 1, in the order in which
    the two changes were first met: the group of the odd record comes first
    exactly when the odd record is the first record. *)
Lemma varied_tag_change (before_rcs after_rcs : list value) (odd : value)
  (k a b c : string) (summary : list (string * tag_summary)) :
  b <> c ->
  (before_rcs ++ after_rcs)%list <> [] ->
  Forall (fun rc => exists t, py_get rc "tags_only" (VBool false) = Ok t /\
                              truthy t = true)
    (before_rcs ++ odd :: after_rcs) ->
  Forall (fun rc => rc_key_pairs k rc = [(VStr a, VStr b)])
    (before_rcs ++ after_rcs) ->
  rc_key_pairs k odd = [(VStr a, VStr c)] ->
  extract_all_tag_changes (before_rcs ++ odd :: after_rcs) = Ok summary ->
  lookup k summary =
  Some (MultipleChanges
          (match before_rcs with
           | [] => [mk_group (VStr a) (VStr c) 1;
                    mk_group (VStr a) (VStr b) (List.length after_rcs)]
           | _ :: _ => [mk_group (VStr a) (VStr b)
                          (List.length (before_rcs ++ after_rcs));
                        mk_group (VStr a) (VStr c) 1]
           end)).
Proof using set_order_In set_order_NoDup.
  intros Hbc Hne Hflag Hpairs Hodd H. unfold extract_all_tag_changes in H.
  rewrite (collect_tags_only_all _ Hflag) in H. cbn [bind] in H.
  destruct (before_rcs ++ odd :: after_rcs)%list as [| r0 rs] eqn:Ers;
    [now destruct before_rcs |].
  rewrite <- Ers in *.
  destruct (collect_tag_changes (before_rcs ++ odd :: after_rcs))
    as [tc |] eqn:Etc; cbn [bind] in H; [| discriminate].
  injection H as <-. rewrite lookup_map_values.
  rewrite (collect_tag_changes_lookup _ _ k Etc).
  apply Forall_app in Hpairs. destruct Hpairs as [Hp1 Hp2].
  rewrite flat_map_app. cbn [flat_map].
  rewrite (flat_map_same _ _ _ Hp1), (flat_map_same _ _ _ Hp2), Hodd.
  rewrite add_pairs_app. cbn [app]. rewrite length_app.
  pose proof (change_key_of_str_neq a b c Hbc) as Hck.
  assert (Hckb : (change_key_of (VStr a) (VStr c)
                  =? change_key_of (VStr a) (VStr b))%string = false)
    by now apply String.eqb_neq.
  assert (Hckc : (change_key_of (VStr a) (VStr b)
                  =? change_key_of (VStr a) (VStr c))%string = false)
    by (rewrite String.eqb_sym; exact Hckb).
  destruct before_rcs as [| r1 l1].
  - (* the odd record comes first *)
    destruct after_rcs as [| r2 l2]; [contradiction |].
    cbn [List.length repeat add_pairs fold_left fst snd plus].
    rewrite (add_pair_new [] (VStr a) (VStr c)) by reflexivity.
    cbn [items_set].
    rewrite (add_pair_new _ (VStr a) (VStr b))
      by (cbn [lookup]; now rewrite Hckc).
    cbn [items_set]. rewrite Hckc.
    fold (add_pairs (repeat (VStr a, VStr b) (List.length l2))
            (Some [(change_key_of (VStr a) (VStr c),
                    mk_group (VStr a) (VStr c) 1);
                   (change_key_of (VStr a) (VStr b),
                    mk_group (VStr a) (VStr b) 1)])).
    rewrite add_pairs_repeat_second by exact Hck.
    reflexivity.
  - cbn [List.length repeat add_pairs fold_left fst snd].
    rewrite (add_pair_new [] (VStr a) (VStr b)) by reflexivity.
    cbn [items_set].
    fold (add_pairs (repeat (VStr a, VStr b) (List.length l1))
            (Some [(change_key_of (VStr a) (VStr b),
                    mk_group (VStr a) (VStr b) 1)])).
    rewrite add_pairs_repeat_head.
    cbn [add_pairs fold_left fst snd].
    rewrite (add_pair_new _ (VStr a) (VStr c))
      by (cbn [lookup]; now rewrite Hckb).
    cbn [items_set]. rewrite Hckb.
    fold (add_pairs (repeat (VStr a, VStr b) (List.length after_rcs))
            (Some [(change_key_of (VStr a) (VStr b),
                    mk_group (VStr a) (VStr b) (1 + List.length l1));
                   (change_key_of (VStr a) (VStr c),
                    mk_group (VStr a) (VStr c) 1)])).
    rewrite add_pairs_repeat_head.
    cbn [app List.length]. rewrite length_app. reflexivity.
Qed.

(** The tags-only records are the flagged ones, in order. *)
Lemma collect_tags_only_filter (rcs : list value) :
  Forall (fun rc => exists t, py_get rc "tags_only" (VBool false) = Ok t)
    rcs ->
  collect_tags_only rcs = Ok (filter flagged rcs).
Proof.
  unfold collect_tags_only. intro H.
  assert (G : forall acc,
            foldM (fun acc rc =>
                     t <- py_get rc "tags_only" (VBool false) ;;
                     Ok (if truthy t then (acc ++ [rc])%list else acc))
                  rcs acc = Ok (acc ++ filter flagged rcs)%list).
  { induction H as [| rc l [t Ht] _ IH]; intro acc; cbn [foldM filter].
    - now rewrite app_nil_r.
    - unfold flagged at 1. rewrite Ht. cbn [bind]. rewrite IH.
      destruct (truthy t); [now rewrite <- app_assoc | reflexivity]. }
  apply (G []).
Qed.

(** C4.  The change key of source line 165 is the text "before→after", which
    two different pairs can share (a missing value and the text "None" both
    give "None").  When the two tags-only records of a plan contribute, for a
    tag key, two different pairs with the same text, the second pair is
    filed in the group of the first: the key is reported with the first pair
    only, count 2 and is_common true, where two pairs with count 1 each and
    is_common false are due. *)
Theorem same_text_pairs_reported_common (resource_changes : list value)
  (r1 r2 : value) (k : string) (b1 a1 b2 a2 : value)
  (summary : list (string * tag_summary)) :
  Forall (fun rc => exists t, py_get rc "tags_only" (VBool false) = Ok t)
    resource_changes ->
  filter flagged resource_changes = [r1; r2] ->
  rc_key_pairs k r1 = [(b1, a1)] ->
  rc_key_pairs k r2 = [(b2, a2)] ->
  (b1, a1) <> (b2, a2) ->
  change_key_of b2 a2 = change_key_of b1 a1 ->
  extract_all_tag_changes resource_changes = Ok summary ->
  lookup k summary = Some (SingleChange b1 a1 2 true).
Proof using set_order_In set_order_NoDup.
  intros Hdict Hflagged Hp1 Hp2 _ Hck H. unfold extract_all_tag_changes in H.
  rewrite (collect_tags_only_filter _ Hdict), Hflagged in H.
  cbn [bind] in H.
  destruct (collect_tag_changes [r1; r2]) as [tc |] eqn:Etc;
    cbn [bind] in H; [| discriminate].
  injection H as <-. rewrite lookup_map_values.
  rewrite (collect_tag_changes_lookup _ _ k Etc).
  cbn [flat_map]. rewrite Hp1, Hp2. cbn [app add_pairs fold_left fst snd].
  rewrite (add_pair_same_rendering b1 a1 b2 a2 Hck).
  reflexivity.
Qed.

(** A record whose [tags] change the key from "a" to "b" contributes exactly
    that pair. *)
Lemma rc_key_pairs_tags (rc : value) (ch bf af bt at_ : list (string * value))
  (k a b : string) :
  py_get rc "change" (VDict []) = Ok (VDict ch) ->
  items_get_or ch "before" (VDict []) = VDict bf ->
  items_get_or ch "after" (VDict []) = VDict af ->
  items_get_or bf "tags" (VDict []) = VDict bt ->
  items_get_or af "tags" (VDict []) = VDict at_ ->
  items_get bt k = VStr a ->
  items_get at_ k = VStr b ->
  a <> b ->
  rc_key_pairs k rc = [(VStr a, VStr b)].
Proof.
  intros Hch Hbf Haf Hbt Hat Ha Hb Hne. unfold rc_key_pairs.
  rewrite Hch. cbn [py_get].
  fold (items_get_or ch "before" (VDict []))
       (items_get_or ch "after" (VDict [])).
  rewrite Hbf, Haf. cbn [key_pairs py_get].
  fold (items_get_or bf "tags" (VDict []))
       (items_get_or af "tags" (VDict [])).
  rewrite Hbt, Hat. unfold field_pairs, py_ne. rewrite Ha, Hb.
  cbn [py_eq]. apply String.eqb_neq in Hne. rewrite Hne. cbn [negb app].
  destruct bt as [| kv bt']; [discriminate Ha | reflexivity].
Qed.

(** C3.  The code departs from the claim here: for a tags-only record whose
    [tags] and [tags_all] were both empty and both receive the same value for
    a key, the key is filed once for [tags] and once more for [tags_all]; a
    single such record gets count 2, so the key is not reported as common to
    the one record there is. *)
Theorem mirrored_added_tag_counted_twice
  (rc : value) (ch bf af at_ ata : list (string * value)) (k : string)
  (x : value) (summary : list (string * tag_summary)) :
  py_get rc "tags_only" (VBool false) = Ok (VBool true) ->
  py_get rc "change" (VDict []) = Ok (VDict ch) ->
  items_get_or ch "before" (VDict []) = VDict bf ->
  items_get_or ch "after" (VDict []) = VDict af ->
  items_get_or bf "tags" (VDict []) = VDict [] ->
  items_get_or bf "tags_all" (VDict []) = VDict [] ->
  items_get_or af "tags" (VDict []) = VDict at_ ->
  items_get_or af "tags_all" (VDict []) = VDict ata ->
  items_get at_ k = x ->
  items_get ata k = x ->
  py_ne VNone x = true ->
  extract_all_tag_changes [rc] = Ok summary ->
  rc_key_pairs k rc = [(VNone, x); (VNone, x)] /\
  lookup k summary = Some (SingleChange VNone x 2 false).
Proof using set_order_In set_order_NoDup.
  intros Hflag Hch Hbf Haf Hbt Hbta Hat Hata Hx Hxa Hne Hrun.
  assert (Hpairs : rc_key_pairs k rc = [(VNone, x); (VNone, x)]).
  { unfold rc_key_pairs. rewrite Hch. cbn [py_get].
    fold (items_get_or ch "before" (VDict []))
         (items_get_or ch "after" (VDict [])).
    rewrite Hbf, Haf. cbn [key_pairs py_get].
    fold (items_get_or bf "tags" (VDict []))
         (items_get_or af "tags" (VDict []))
         (items_get_or bf "tags_all" (VDict []))
         (items_get_or af "tags_all" (VDict [])).
    rewrite Hbt, Hat, Hbta, Hata. unfold field_pairs.
    replace (items_get [] k) with VNone by reflexivity.
    rewrite Hx, Hxa, Hne. cbn [truthy andb].
    rewrite andb_false_r, app_nil_r. reflexivity. }
  split; [exact Hpairs |].
  unfold extract_all_tag_changes in Hrun.
  rewrite (collect_tags_only_all [rc]) in Hrun
    by (constructor; [exists (VBool true); auto | constructor]).
  cbn [bind] in Hrun.
  destruct (collect_tag_changes [rc]) as [tc |] eqn:Etc; cbn [bind] in Hrun;
    [| discriminate].
  injection Hrun as <-. rewrite lookup_map_values.
  rewrite (collect_tag_changes_lookup _ _ k Etc).
  cbn [flat_map]. rewrite app_nil_r, Hpairs.
  cbn [add_pairs fold_left fst snd].
  rewrite (add_pair_new [] VNone x) by reflexivity. cbn [items_set].
  rewrite (add_pair_bump _ VNone x (mk_group VNone x 1))
    by (cbn [lookup]; now rewrite String.eqb_refl).
  cbn [items_set g_before g_after g_count]. rewrite String.eqb_refl.
  reflexivity.
Qed.

(** * Further properties of the converter *)

(** ** Detailed groups and summary buckets *)

Lemma increment_inj (b b' : bucket) (c : action_counts) :
  increment b c = increment b' c -> b = b'.
Proof.
  intro H. pose proof (increment_count_of b b c) as H1.
  rewrite H, increment_count_of in H1.
  destruct b, b'; simpl in H1; try reflexivity; lia.
Qed.

Lemma ok_inj {A : Type} (x y : A) : Ok x = Ok y -> x = y.
Proof. intro H. now injection H. Qed.

Lemma py_in_total (s s' : string) (v : value) (x : bool) :
  py_in s v = Ok x -> exists y, py_in s' v = Ok y.
Proof.
  destruct v; cbn [py_in]; try discriminate; intros _; eexists; reflexivity.
Qed.

(** X2.  A resource is listed under "Resources to Create", "to Replace" or "to
    Delete" exactly when the summary counted it as create, replace or delete.
    Under "Resources to Update" are listed the resources counted as update,
    none of those counted as tags-only update, read or no-op, and, of those
    counted as create, replace or delete, the ones whose actions contain
    "update" and that are not flagged tags-only: such a resource is listed
    under two groups, and the Update group then holds more resources than the
    Update counter shows. *)
Theorem detail_group_agrees_with_bucket
  (counts : action_counts) (rc : value) (b : bucket) :
  count_resource counts rc = Ok (increment b counts) ->
  exists actions tags_only u,
    rc_actions rc = Ok actions /\
    py_get rc "tags_only" (VBool false) = Ok tags_only /\
    py_in "update" actions = Ok u /\
    in_action_group "create" rc = Ok (bucket_eqb b BCreate) /\
    in_action_group "replace" rc = Ok (bucket_eqb b BReplace) /\
    in_action_group "delete" rc = Ok (bucket_eqb b BDelete) /\
    in_action_group "update" rc =
    Ok (match b with
        | BUpdate => true
        | BUpdateTagsOnly | BRead | BNoOp => false
        | BCreate | BReplace | BDelete => u && negb (truthy tags_only)
        end).
Proof.
  unfold count_resource, in_action_group, and_then, py_not_in.
  destruct (rc_actions rc) as [actions |]; cbn [bind]; [| discriminate].
  destruct (py_get rc "tags_only" (VBool false)) as [t |]; cbn [bind];
    [| discriminate].
  replace ("create" =? "replace")%string with false by reflexivity.
  replace ("create" =? "create")%string with true by reflexivity.
  replace ("replace" =? "replace")%string with true by reflexivity.
  replace ("delete" =? "replace")%string with false by reflexivity.
  replace ("delete" =? "create")%string with false by reflexivity.
  replace ("delete" =? "delete")%string with true by reflexivity.
  replace ("update" =? "replace")%string with false by reflexivity.
  replace ("update" =? "create")%string with false by reflexivity.
  replace ("update" =? "delete")%string with false by reflexivity.
  replace ("update" =? "update")%string with true by reflexivity.
  replace ("replace" =? "create")%string with false by reflexivity.
  replace ("replace" =? "delete")%string with false by reflexivity.
  replace ("replace" =? "update")%string with false by reflexivity.
  replace ("create" =? "delete")%string with false by reflexivity.
  replace ("create" =? "update")%string with false by reflexivity.
  replace ("delete" =? "update")%string with false by reflexivity.
  destruct (py_in "create" actions) as [c |] eqn:Ec; cbn [bind];
    [| discriminate].
  destruct (py_in_total _ "delete" _ _ Ec) as [d Ed].
  destruct (py_in_total _ "update" _ _ Ec) as [u Eu].
  destruct (py_in_total _ "read" _ _ Ec) as [r Er].
  rewrite Ed, Eu, Er.
  intro H. exists actions, t, u.
  split; [reflexivity |]. split; [reflexivity |]. split; [exact Eu |].
  revert H.
  destruct c, d, u, (truthy t), r; cbn [bind negb andb];
    intro H; apply ok_inj, increment_inj in H; subst b;
    cbn [bucket_eqb]; repeat split.
Qed.

(** ** The deletion detail is bounded *)

Lemma delete_lines_length (items : list (string * value)) (keys : list string) :
  forall acc,
    (List.length (fold_left (delete_line items) keys acc)
     <= List.length acc + List.length keys)%nat.
Proof.
  induction keys as [| k keys IH]; intro acc; cbn [fold_left List.length].
  - lia.
  - specialize (IH (delete_line items acc k)).
    assert (H : (List.length (delete_line items acc k)
                 <= S (List.length acc))%nat).
    { unfold delete_line. destruct (nonempty _);
        [rewrite length_app; simpl |]; lia. }
    lia.
Qed.

(** X7.  The detail of a deleted resource is an optional reason (two lines)
    and, when some attribute is shown, a heading, at most 10 attribute lines
    and a blank line. *)
Theorem deletion_block_bounded (rc change : value)
  (md_lines md_lines' : list string) :
  deletion_block rc change md_lines = Ok md_lines' ->
  exists reason_lines attr_lines,
    md_lines' =
    (md_lines ++ reason_lines ++
     match attr_lines with
     | [] => []
     | _ => ["**Resource being deleted**:"; ""] ++ attr_lines ++ [""]
     end)%list /\
    (reason_lines = [] \/
     exists text, reason_lines = [("**Reason**: " ++ text)%string; ""]) /\
    (List.length attr_lines <= 10)%nat.
Proof.
  unfold deletion_block.
  destruct (action_reason_of rc change) as [reason |]; cbn [bind];
    [| discriminate].
  assert (Hreason : forall md1,
            (if truthy reason
             then reason_text <- reason_text_of reason ;;
                  Ok (md_lines ++ [("**Reason**: " ++ reason_text)%string; ""])
                  %list
             else Ok md_lines) = Ok md1 ->
            exists reason_lines,
              md1 = (md_lines ++ reason_lines)%list /\
              (reason_lines = [] \/
               exists text,
                 reason_lines = [("**Reason**: " ++ text)%string; ""])).
  { intros md1 H. destruct (truthy reason).
    - destruct (reason_text_of reason) as [text |]; cbn [bind] in H;
        [| discriminate].
      injection H as <-. eexists. split; [reflexivity |]. right. now exists text.
    - injection H as <-. exists []. split; [now rewrite app_nil_r | now left]. }
  destruct (if truthy reason then _ else _) as [md1 |] eqn:E; cbn [bind];
    [| discriminate].
  destruct (Hreason md1 eq_refl) as (reason_lines & -> & Hshape).
  destruct (py_get change "before" (VDict [])) as [before |]; cbn [bind];
    [| discriminate].
  assert (Hnone : (md_lines ++ reason_lines)%list =
                  (md_lines ++ reason_lines ++ [])%list)
    by now rewrite app_nil_r.
  destruct before as [| | | | | | [| item items]];
    try (intro H; injection H as <-; exists reason_lines, [];
         repeat split; [exact Hnone | exact Hshape | simpl; lia]).
  set (dl := fold_left (delete_line (item :: items))
               (firstn 10 (sort_strings (map fst (item :: items)))) []).
  assert (Hlen : (List.length dl <= 10)%nat).
  { subst dl. etransitivity; [apply delete_lines_length |].
    cbn [List.length]. rewrite Nat.add_0_l. apply firstn_le_length. }
  intro H. exists reason_lines, dl. split; [| split; assumption].
  destruct dl; injection H as <-; [exact Hnone |].
  now rewrite <- app_assoc.
Qed.

(** ** Sorting strings *)

Lemma In_insert_sorted (k : string) (l : list string) (x : string) :
  In x (insert_sorted k l) <-> k = x \/ In x l.
Proof.
  induction l as [| y l IH]; simpl; [ptauto |].
  destruct (String.leb k y); simpl; [ptauto |]. rewrite IH. ptauto.
Qed.

Lemma In_sort_strings (l : list string) (x : string) :
  In x (sort_strings l) <-> In x l.
Proof.
  induction l as [| y l IH]; simpl; [ptauto |].
  rewrite In_insert_sorted, IH. ptauto.
Qed.

Lemma NoDup_insert_sorted (k : string) (l : list string) :
  NoDup l -> ~ In k l -> NoDup (insert_sorted k l).
Proof.
  induction l as [| y l IH]; intros Hl Hk; simpl.
  - constructor; [exact Hk | constructor].
  - destruct (String.leb k y); [now constructor |].
    inversion Hl as [| ? ? Hy Hl']; subst. constructor.
    + rewrite In_insert_sorted. intros [-> | H]; [| contradiction].
      apply Hk. now left.
    + apply IH; [exact Hl' |]. intro H. apply Hk. now right.
Qed.

Lemma NoDup_sort_strings (l : list string) :
  NoDup l -> NoDup (sort_strings l).
Proof.
  induction 1 as [| x l Hx _ IH]; simpl; [constructor |].
  apply NoDup_insert_sorted; [exact IH |]. now rewrite In_sort_strings.
Qed.

Lemma Sorted_insert_sorted (k : string) (l : list string) :
  Sorted (fun a b => String.leb a b = true) l ->
  Sorted (fun a b => String.leb a b = true) (insert_sorted k l).
Proof.
  induction l as [| y l IH]; intro Hl; simpl.
  - repeat constructor.
  - destruct (String.leb k y) eqn:E.
    + constructor; [exact Hl | now constructor].
    + inversion Hl as [| ? ? Hl' Hhd]; subst. constructor; [now apply IH |].
      destruct l as [| z l]; simpl.
      * constructor. destruct (String.leb_total y k) as [H | H];
          [exact H | rewrite H in E; discriminate].
      * destruct (String.leb k z); constructor.
        -- destruct (String.leb_total y k) as [H | H];
             [exact H | rewrite H in E; discriminate].
        -- now inversion Hhd.
Qed.

Lemma Sorted_sort_strings (l : list string) :
  Sorted (fun a b => String.leb a b = true) (sort_strings l).
Proof.
  induction l as [| x l IH]; simpl; [constructor |].
  now apply Sorted_insert_sorted.
Qed.

(** ** [process_change] does not show sensitive values *)

Lemma keys_items_set_same_key {A : Type} (l : list (string * A)) (k : string)
  (v w : A) :
  map fst (items_set l k v) = map fst (items_set l k w).
Proof. now rewrite !keys_items_set. Qed.

Lemma items_get_set_same (l : list (string * value)) (k : string) (v : value) :
  items_get (items_set l k v) k = v.
Proof. unfold items_get. now rewrite lookup_items_set_same. Qed.

Lemma items_get_set_other (l : list (string * value)) (k k' : string)
  (v : value) :
  k <> k' -> items_get (items_set l k v) k' = items_get l k'.
Proof. intro H. unfold items_get. now rewrite lookup_items_set_other. Qed.

(** X5.  The lines for a change do not depend on the before and after values
    of an attribute flagged sensitive, as long as the two differ: the values
    of a sensitive attribute never reach the report. *)
Theorem process_change_hides_sensitive
  (change change' : value) (b a : list (string * value))
  (before_sensitive after_sensitive : value) (k : string)
  (v1 v2 v1' v2' : value) :
  py_get change "before" (VDict []) = Ok (VDict (items_set b k v1)) ->
  py_get change "after" (VDict []) = Ok (VDict (items_set a k v2)) ->
  py_get change' "before" (VDict []) = Ok (VDict (items_set b k v1')) ->
  py_get change' "after" (VDict []) = Ok (VDict (items_set a k v2')) ->
  py_get change "before_sensitive" (VDict []) = Ok before_sensitive ->
  py_get change "after_sensitive" (VDict []) = Ok after_sensitive ->
  py_get change' "before_sensitive" (VDict []) = Ok before_sensitive ->
  py_get change' "after_sensitive" (VDict []) = Ok after_sensitive ->
  truthy (sensitive_flag before_sensitive k)
  || truthy (sensitive_flag after_sensitive k) = true ->
  py_eq v1 v2 = false ->
  py_eq v1' v2' = false ->
  process_change change = process_change change' /\
  exists lines, process_change change = Ok lines /\
                In ("  - **" ++ k ++ "**: `(sensitive value)`")%string lines.
Proof using set_order_In.
  intros Hb Ha Hb' Ha' Hbs Has Hbs' Has' Hsens Hne Hne'.
  unfold process_change.
  rewrite Hb, Ha, Hb', Ha', Hbs, Has, Hbs', Has'. cbn [bind keys_if_dict].
  rewrite (keys_items_set_same_key b k v1' v1),
          (keys_items_set_same_key a k v2' v2).
  set (keys := sort_strings _).
  assert (Hline : forall x,
            change_lines (VDict (items_set b k v1)) (VDict (items_set a k v2))
              before_sensitive after_sensitive x =
            change_lines (VDict (items_set b k v1'))
              (VDict (items_set a k v2')) before_sensitive after_sensitive x).
  { intro x. unfold change_lines. cbn [get_if_dict].
    destruct (String.eqb_spec k x) as [<- | Hx].
    - rewrite !items_get_set_same, Hne, Hne', Hsens. reflexivity.
    - now rewrite !items_get_set_other by exact Hx. }
  split.
  - f_equal. apply flat_map_ext. intro x. apply Hline.
  - eexists. split; [reflexivity |]. apply in_flat_map. exists k. split.
    + subst keys. apply In_sort_strings, set_order_In, in_or_app. left.
      rewrite keys_items_set. destruct (lookup k b) eqn:E.
      * apply lookup_In in E. apply in_map_iff. now exists (k, v).
      * apply in_or_app. right. now left.
    + unfold change_lines. cbn [get_if_dict].
      rewrite !items_get_set_same, Hne, Hsens. now left.
Qed.

(** ** The line-oriented parser: what the result holds *)

Lemma process_event_errors_version (st st' : parse_state) (event : value) :
  process_event st event = Ok st' ->
  st_errors st' =
  (st_errors st ++ if is_error_diagnostic event then [event] else [])%list /\
  st_terraform_version st' = last_version [event] (st_terraform_version st).
Proof.
  destruct event as [| | | | | | ev]; try discriminate.
  unfold process_event, py_get1. cbn [py_get bind is_error_diagnostic
                                      last_version].
  fold (items_get ev "type") (items_get ev "@level")
       (items_get ev "terraform").
  set (st1 := if py_eq (items_get ev "@level") (VStr "error") &&
                 py_eq (items_get ev "type") (VStr "diagnostic")
              then _ else st).
  assert (Hst1 : st_errors st1 =
                 (st_errors st ++
                  if py_eq (items_get ev "@level") (VStr "error") &&
                     py_eq (items_get ev "type") (VStr "diagnostic")
                  then [VDict ev] else [])%list /\
                 st_terraform_version st1 = st_terraform_version st).
  { subst st1. destruct (_ && _); cbn [st_errors st_terraform_version];
      [| rewrite app_nil_r]; split; reflexivity. }
  destruct Hst1 as [He Hv]. clearbody st1.
  destruct (py_eq (items_get ev "type") (VStr "version")).
  { intro H. injection H as <-. cbn [st_errors st_terraform_version].
    split; [exact He | reflexivity]. }
  destruct (py_eq (items_get ev "type") (VStr "resource_drift")).
  { destruct (py_get _ "resource" (VDict [])) as [res |]; cbn [bind];
      [| discriminate].
    destruct (py_get res "addr" (VStr "")) as [addr |]; cbn [bind];
      [| discriminate].
    destruct (truthy addr); [| intro H; injection H as <-; now split].
    destruct (hashable addr); [| discriminate].
    destruct (kv_lookup _ _); intro H; injection H as <-; now split. }
  destruct (py_eq (items_get ev "type") (VStr "planned_change"));
    [| intro H; injection H as <-; now split].
  destruct (py_get _ "resource" (VDict [])) as [res |]; cbn [bind];
    [| discriminate].
  destruct (py_get _ "action" VNone) as [action |]; cbn [bind];
    [| discriminate].
  destruct (py_eq action (VStr "read"));
    [intro H; injection H as <-; now split |].
  destruct (py_get res "addr" (VStr "")) as [addr |]; cbn [bind];
    [| discriminate].
  destruct (py_get _ "reason" VNone) as [reason |]; cbn [bind];
    [| discriminate].
  destruct (build_resource_change addr res action reason) as [r |];
    cbn [bind]; [| discriminate].
  destruct (hashable addr); [| discriminate].
  intro H. injection H as <-. now split.
Qed.

Lemma last_version_app (l1 l2 : list value) :
  forall acc,
    last_version (l1 ++ l2) acc = last_version l2 (last_version l1 acc).
Proof.
  induction l1 as [| e l1 IH]; intro acc; [reflexivity |].
  destruct e; cbn [last_version app]; apply IH.
Qed.

Lemma process_events_errors_version (events : list value) :
  forall st st',
    foldM process_event events st = Ok st' ->
    st_errors st' = (st_errors st ++ filter is_error_diagnostic events)%list /\
    st_terraform_version st' = last_version events (st_terraform_version st).
Proof.
  induction events as [| e events IH]; intros st st' H.
  - simpl in H. injection H as <-. simpl. now rewrite app_nil_r.
  - cbn [foldM] in H.
    destruct (process_event st e) as [st1 |] eqn:E; cbn [bind] in H;
      [| discriminate].
    destruct (process_event_errors_version _ _ _ E) as [He Hv].
    destruct (IH _ _ H) as [He' Hv']. split.
    + rewrite He', He, <- app_assoc. f_equal. cbn [filter].
      now destruct (is_error_diagnostic e).
    + rewrite Hv', Hv. symmetry. apply (last_version_app [e] events).
Qed.

(** X12.  The "errors" of the line-oriented parser's result are the
    error-level diagnostic records of the input, all of them, in input order. *)
Theorem parse_json_lines_errors (content : string) (plan_data : value) :
  parse_terraform_json_lines content = Ok plan_data ->
  py_get plan_data "errors" (VList []) =
  Ok (VList (filter is_error_diagnostic
               (events_of_lines (file_lines content)))).
Proof.
  unfold parse_terraform_json_lines.
  destruct (foldM process_line (file_lines content) initial_state)
    as [st |] eqn:Eline; cbn [bind]; [| discriminate].
  intro H. injection H as <-.
  destruct (process_lines_ok _ _ _ Eline) as [E _].
  destruct (process_events_errors_version _ _ _ E) as [He _].
  unfold plan_data_of. cbn [py_get lookup String.eqb Ascii.eqb Bool.eqb].
  now rewrite He.
Qed.

(** X13.  The line-oriented parser's result always carries a
    "terraform_version": the "terraform" field of the last version record,
    [None] when there is no version record; so the report of such a result
    always has a "Terraform Version" line. *)
Theorem parse_json_lines_version (content : string) (plan_data : value)
  (md_lines : list string) :
  parse_terraform_json_lines content = Ok plan_data ->
  py_get1 plan_data "terraform_version" =
  Ok (last_version (events_of_lines (file_lines content)) VNone) /\
  version_section plan_data md_lines =
  Ok (md_lines ++
      [("**Terraform Version**: `"
          ++ py_str (last_version (events_of_lines (file_lines content))
                       VNone)
          ++ "`")%string; ""])%list.
Proof.
  unfold parse_terraform_json_lines.
  destruct (foldM process_line (file_lines content) initial_state)
    as [st |] eqn:Eline; cbn [bind]; [| discriminate].
  intro H. injection H as <-.
  destruct (process_lines_ok _ _ _ Eline) as [E _].
  destruct (process_events_errors_version _ _ _ E) as [_ Hv].
  cbn [initial_state st_terraform_version] in Hv. rewrite <- Hv.
  split; reflexivity.
Qed.

Lemma effective_change_streamed (event addr r : value) :
  effective_change event = Some (addr, r) -> streamed_record r.
Proof.
  destruct event as [| | | | | | ev]; try discriminate.
  unfold effective_change.
  destruct (py_eq (items_get ev "type") (VStr "planned_change"));
    [| discriminate].
  destruct (items_get_or ev "change" (VDict [])) as [| | | | | | cd];
    try discriminate.
  destruct (py_eq (items_get cd "action") (VStr "read")); [discriminate |].
  destruct (py_get (items_get_or cd "resource" (VDict [])) "addr" (VStr ""))
    as [a |]; [| discriminate].
  unfold build_resource_change.
  destruct (py_get _ "module" _) as [module |]; cbn [bind]; [| discriminate].
  destruct (py_get _ "resource_type" _) as [type |]; cbn [bind];
    [| discriminate].
  destruct (py_get _ "resource_name" _) as [name |]; cbn [bind];
    [| discriminate].
  destruct (hashable a); [| discriminate].
  intro H. injection H as <- <-.
  now exists a, module, type, name,
    (if is_str (items_get cd "action") then VList [items_get cd "action"]
     else items_get cd "action"), (items_get cd "reason").
Qed.

Lemma process_events_streamed (events : list value) :
  forall st st',
    Forall streamed_record (map snd (st_planned_changes st)) ->
    foldM process_event events st = Ok st' ->
    Forall streamed_record (map snd (st_planned_changes st')).
Proof.
  induction events as [| e events IH]; intros st st' Hall H.
  - simpl in H. now injection H as <-.
  - cbn [foldM] in H.
    destruct (process_event st e) as [st1 |] eqn:E; cbn [bind] in H;
      [| discriminate].
    apply (IH st1 st'); [| exact H].
    rewrite (process_event_planned _ _ _ E).
    destruct (effective_change e) as [[addr r] |] eqn:Ee; [| exact Hall].
    apply effective_change_streamed in Ee.
    rewrite Forall_forall in *. intros x Hx.
    apply in_map_iff in Hx. destruct Hx as ([k v] & <- & Hin).
    apply In_kv_set in Hin. destruct Hin as [Hin | [-> _]]; [| exact Ee].
    apply Hall, in_map_iff. now exists (k, v).
Qed.

Lemma count_resource_streamed (counts counts' : action_counts) (rc : value) :
  streamed_record rc ->
  count_resource counts rc = Ok counts' ->
  n_update_tags_only counts' = n_update_tags_only counts.
Proof.
  intros (addr & module & type & name & actions & reason & ->).
  unfold count_resource, rc_actions, and_then.
  cbn [py_get lookup String.eqb Ascii.eqb Bool.eqb bind truthy].
  destruct (py_in "create" actions) as [[|] |]; cbn [bind];
    try discriminate;
  destruct (py_in "delete" actions) as [[|] |]; cbn [bind];
    try discriminate;
  try (intro H; injection H as <-; reflexivity);
  destruct (py_in "update" actions) as [[|] |]; cbn [bind];
    try discriminate;
  try (intro H; injection H as <-; reflexivity);
  destruct (py_in "read" actions) as [[|] |]; cbn [bind];
    try discriminate;
  intro H; injection H as <-; reflexivity.
Qed.

(** X14.  Every record of the line-oriented parser's result has an empty
    before and after and the tags-only flag unset; so the summary of such a
    result counts no tags-only update and the report has no "Tag Changes
    Summary". *)
Theorem parse_json_lines_never_tags_only (content : string)
  (plan_data : value) :
  parse_terraform_json_lines content = Ok plan_data ->
  exists rcs,
    py_get plan_data "resource_changes" (VList []) = Ok (VList rcs) /\
    Forall streamed_record rcs /\
    forall counts md_lines,
      count_actions rcs = Ok counts ->
      n_update_tags_only counts = 0%nat /\
      tag_summary_section counts rcs md_lines = Ok md_lines.
Proof.
  unfold parse_terraform_json_lines.
  destruct (foldM process_line (file_lines content) initial_state)
    as [st |] eqn:Eline; cbn [bind]; [| discriminate].
  intro H. injection H as <-.
  destruct (process_lines_ok _ _ _ Eline) as [E _].
  exists (map snd (st_planned_changes st)).
  assert (Hall : Forall streamed_record (map snd (st_planned_changes st))).
  { apply (process_events_streamed (events_of_lines (file_lines content))
             initial_state st); [constructor | exact E]. }
  split; [reflexivity |]. split; [exact Hall |].
  intros counts md_lines Hc.
  assert (Hz : n_update_tags_only counts = 0%nat).
  { revert Hc. unfold count_actions.
    change 0%nat with (n_update_tags_only zero_counts).
    generalize zero_counts as c0. revert Hall.
    generalize (map snd (st_planned_changes st)) as rcs.
    induction rcs as [| rc rcs IH]; intros Hall c0 Hc.
    - simpl in Hc. now injection Hc as <-.
    - inversion Hall as [| ? ? Hrc Hrest]; subst. cbn [foldM] in Hc.
      destruct (count_resource c0 rc) as [c1 |] eqn:E1; cbn [bind] in Hc;
        [| discriminate].
      rewrite (IH Hrest c1 Hc). now apply (count_resource_streamed c0 c1 rc). }
  split; [exact Hz |]. unfold tag_summary_section. now rewrite Hz.
Qed.

(** ** The line-oriented parser: lines that are not objects *)

Lemma foldM_app {A S : Type} (body : S -> A -> result S) (l1 l2 : list A) :
  forall acc,
    foldM body (l1 ++ l2) acc =
    (st <- foldM body l1 acc ;; foldM body l2 st).
Proof.
  induction l1 as [| x l1 IH]; intro acc; [reflexivity |].
  cbn [app foldM]. destruct (body acc x); cbn [bind]; [apply IH | reflexivity].
Qed.

(** X15.  Only a line that fails to parse is skipped. A line that parses to
    something other than an object (a number, a string, a list, [null]) after
    well-formed records makes the parser raise [AttributeError]. *)
Theorem parse_json_lines_non_object_line (content : string)
  (before_events after_events : list value) (event : value) :
  events_of_lines (file_lines content) =
  (before_events ++ event :: after_events)%list ->
  Forall well_formed_event before_events ->
  is_dict event = false ->
  parse_terraform_json_lines content = Raise AttributeError.
Proof.
  intros Hev Hwf Hnd. unfold parse_terraform_json_lines.
  rewrite process_lines_events, Hev, foldM_app.
  assert (G : forall events st, Forall well_formed_event events ->
                exists st', foldM process_event events st = Ok st').
  { induction events as [| e events IH]; intros st H.
    - eexists. reflexivity.
    - inversion H as [| ? ? He Hes]; subst. cbn [foldM].
      destruct (process_event_total st e He) as [st1 ->]. cbn [bind].
      now apply IH. }
  destruct (G _ initial_state Hwf) as [st ->]. cbn [bind foldM].
  destruct event; try discriminate Hnd; reflexivity.
Qed.

(** ** Input of which no line parses *)

(** X18.  When the first line does not parse and no later line does either (a
    pretty-printed document, for one), [json.loads] raising nothing but
    [JSONDecodeError], the input is read as line-oriented and the report is
    the title, a version line showing [None] and "No resource changes
    detected.". *)
Theorem render_file_nothing_parsed (content : string) :
  json_loads (strip (readline content)) = Raise JSONDecodeError ->
  events_of_lines (file_lines content) = [] ->
  first_load_error (file_lines content) = None ->
  render_file content =
  Ok (str_join nl ["# Terraform Summary"; "";
                   "**Terraform Version**: `None`"; "";
                   "No resource changes detected."]).
Proof.
  intros Hfirst Hnone Hraise.
  unfold render_file, load_plan, detect_json_format. rewrite Hfirst.
  cbn [bind String.eqb Ascii.eqb Bool.eqb].
  unfold parse_terraform_json_lines.
  rewrite process_lines_events, Hnone, Hraise. reflexivity.
Qed.

(** ** The report without resource changes *)

Lemma has_key_items_set_other (items : list (string * value)) (k k' : string)
  (v : value) :
  k <> k' ->
  existsb (fun kv => (fst kv =? k')%string) (items_set items k v) =
  existsb (fun kv => (fst kv =? k')%string) items.
Proof.
  intro Hne. induction items as [| [k0 v0] items IH]; simpl.
  - rewrite orb_false_r. now apply String.eqb_neq.
  - destruct (k =? k0)%string; simpl; [reflexivity | now rewrite IH].
Qed.

Lemma py_get_items_set_other (items : list (string * value)) (k k' : string)
  (v default : value) :
  k <> k' ->
  py_get (VDict (items_set items k v)) k' default =
  py_get (VDict items) k' default.
Proof. intro H. cbn [py_get]. now rewrite lookup_items_set_other. Qed.

(** X4.  Without resource changes ("resource_changes" missing, empty or
    otherwise falsy) the report does not depend on "output_changes": output
    changes are then left out of the report. *)
Theorem no_resource_changes_hides_outputs (items : list (string * value))
  (output_changes : value) :
  truthy (items_get_or items "resource_changes" (VList [])) = false ->
  convert_plan_to_markdown
    (VDict (items_set items "output_changes" output_changes)) =
  convert_plan_to_markdown (VDict items).
Proof.
  intro Hrc. unfold convert_plan_to_markdown, errors_section, version_section.
  rewrite !py_get_items_set_other by discriminate.
  unfold py_get1. rewrite !py_get_items_set_other by discriminate.
  cbn [py_in]. rewrite has_key_items_set_other by discriminate.
  destruct (py_get (VDict items) "errors" (VList [])) as [errors |];
    cbn [bind]; [| reflexivity].
  destruct (if truthy errors then _ else _) as [with_errors |]; cbn [bind];
    [| reflexivity].
  destruct (existsb _ items); cbn [bind py_get];
    fold (items_get_or items "resource_changes" (VList []));
    now rewrite Hrc.
Qed.

(** ** The frame of the report *)

Lemma appends_refl (md_lines : list string) :
  exists added, md_lines = (md_lines ++ added)%list.
Proof. exists []. now rewrite app_nil_r. Qed.

Lemma appends_trans (m0 m1 m2 : list string) :
  (exists a, m1 = (m0 ++ a)%list) -> (exists b, m2 = (m1 ++ b)%list) ->
  exists c, m2 = (m0 ++ c)%list.
Proof.
  intros [a ->] [b ->]. exists (a ++ b)%list. now rewrite app_assoc.
Qed.

Lemma appends_app (m0 added : list string) :
  exists c, (m0 ++ added)%list = (m0 ++ c)%list.
Proof. now exists added. Qed.

Lemma foldM_appends {A : Type} (body : list string -> A -> result (list string))
  (l : list A) :
  (forall acc x acc', body acc x = Ok acc' ->
                      exists added, acc' = (acc ++ added)%list) ->
  forall acc acc', foldM body l acc = Ok acc' ->
                   exists added, acc' = (acc ++ added)%list.
Proof.
  intro Hbody. induction l as [| x l IH]; intros acc acc' H.
  - simpl in H. injection H as <-. apply appends_refl.
  - cbn [foldM] in H. destruct (body acc x) as [acc1 |] eqn:E;
      cbn [bind] in H; [| discriminate].
    eapply appends_trans; [exact (Hbody _ _ _ E) | exact (IH _ _ H)].
Qed.

(** Closes a goal [Ok (md ++ ...) = Ok md' -> exists added, md' = md ++ added]. *)
Ltac appends :=
  let H := fresh in
  intro H; apply ok_inj in H; subst;
  first [ apply appends_refl
        | rewrite <- ?app_assoc; apply appends_app ].

Lemma render_error_appends (acc acc' : list string * bool) (e : value) :
  render_error acc e = Ok acc' ->
  exists added, fst acc' = (fst acc ++ added)%list.
Proof.
  unfold render_error.
  destruct (py_get e "diagnostic" e) as [diagnostic |]; cbn [bind];
    [| discriminate].
  destruct (py_get diagnostic "summary" _) as [summary |]; cbn [bind];
    [| discriminate].
  destruct (py_get1 diagnostic "address") as [address |]; cbn [bind];
    [| discriminate].
  destruct (py_get diagnostic "snippet" _) as [snippet |]; cbn [bind];
    [| discriminate].
  destruct (if truthy snippet then _ else _) as [[|] |]; cbn [bind];
    try discriminate.
  - destruct (py_get diagnostic "range" _) as [range_info |]; cbn [bind];
      [| discriminate].
    destruct (py_get range_info "filename" _) as [filename |]; cbn [bind];
      [| discriminate].
    destruct (py_get snippet "start_line" _) as [start_line |]; cbn [bind];
      [| discriminate].
    destruct (py_get1 snippet "code") as [code |]; cbn [bind fst snd];
      [| discriminate].
    intro H. apply ok_inj in H. subst acc'. cbn [fst].
    rewrite <- !app_assoc. apply appends_app.
  - cbn [fst snd]. intro H. apply ok_inj in H. subst acc'. cbn [fst].
    rewrite <- !app_assoc. apply appends_app.
Qed.

Lemma errors_section_appends (plan_data : value) (md_lines : list string)
  (r : list string * bool) :
  errors_section plan_data md_lines = Ok r ->
  exists added, fst r = (md_lines ++ added)%list.
Proof.
  unfold errors_section.
  destruct (py_get plan_data "errors" _) as [errors |]; cbn [bind];
    [| discriminate].
  destruct (truthy errors);
    [| intro H; apply ok_inj in H; subst r; apply appends_refl].
  destruct (py_iter errors) as [events |]; cbn [bind]; [| discriminate].
  destruct (foldM render_error events _) as [acc |] eqn:E; cbn [bind];
    [| discriminate].
  intro H. apply ok_inj in H. subst r. cbn [fst].
  assert (G : forall l a a', foldM render_error l a = Ok a' ->
                exists added, fst a' = (fst a ++ added)%list).
  { induction l as [| x l IH]; intros a a' H.
    - simpl in H. injection H as <-. apply appends_refl.
    - cbn [foldM] in H. destruct (render_error a x) as [a1 |] eqn:E1;
        cbn [bind] in H; [| discriminate].
      eapply appends_trans;
        [exact (render_error_appends _ _ _ E1) | exact (IH _ _ H)]. }
  destruct (G _ _ _ E) as [added Hacc]. cbn [fst] in Hacc. rewrite Hacc.
  rewrite <- !app_assoc. apply appends_app.
Qed.

Lemma version_section_appends (plan_data : value)
  (md_lines md_lines' : list string) :
  version_section plan_data md_lines = Ok md_lines' ->
  exists added, md_lines' = (md_lines ++ added)%list.
Proof.
  unfold version_section.
  destruct (py_in _ plan_data) as [[|] |]; cbn [bind]; try discriminate;
    [| appends].
  destruct (py_get1 _ _); cbn [bind]; [appends | discriminate].
Qed.

Lemma tag_summary_section_appends (counts : action_counts)
  (rcs : list value) (md_lines md_lines' : list string) :
  tag_summary_section counts rcs md_lines = Ok md_lines' ->
  exists added, md_lines' = (md_lines ++ added)%list.
Proof.
  unfold tag_summary_section.
  destruct (0 <? _)%nat; [| appends].
  destruct (extract_all_tag_changes rcs) as [[| c cs] |]; cbn [bind];
    [appends | | discriminate].
  cbv zeta.
  destruct (filter (fun kv => is_common (snd kv)) _);
    destruct (filter (fun kv => negb (is_common (snd kv))) _); appends.
Qed.

Lemma configuration_block_appends (change : value)
  (md_lines md_lines' : list string) :
  configuration_block change md_lines = Ok md_lines' ->
  exists added, md_lines' = (md_lines ++ added)%list.
Proof.
  unfold configuration_block.
  destruct (py_get change "after" _) as [after |]; cbn [bind];
    [| discriminate].
  destruct after as [| | | | | | [| item items]]; try appends.
  destruct (foldM _ _ _) as [[| l ls] |]; cbn [bind];
    [appends | appends | discriminate].
Qed.

Lemma replacement_block_appends (change : value)
  (md_lines md_lines' : list string) :
  replacement_block change md_lines = Ok md_lines' ->
  exists added, md_lines' = (md_lines ++ added)%list.
Proof.
  unfold replacement_block.
  destruct (py_get change "replace_paths" _) as [paths |]; cbn [bind];
    [| discriminate].
  destruct (py_iter paths) as [ps |]; cbn [bind]; [| discriminate].
  destruct (foldM add_replace_path ps []) as [[| a attrs] |]; cbn [bind];
    [appends | | discriminate].
  destruct (py_sorted _); cbn [bind]; [appends | discriminate].
Qed.

Lemma reason_appends (reason : value) (md_lines md_lines' : list string) :
  (if truthy reason
   then reason_text <- reason_text_of reason ;;
        Ok (md_lines ++ [("**Reason**: " ++ reason_text)%string; ""])%list
   else Ok md_lines) = Ok md_lines' ->
  exists added, md_lines' = (md_lines ++ added)%list.
Proof.
  destruct (truthy reason); [| appends].
  destruct (reason_text_of reason); cbn [bind]; [appends | discriminate].
Qed.

Lemma deletion_block_appends (rc change : value)
  (md_lines md_lines' : list string) :
  deletion_block rc change md_lines = Ok md_lines' ->
  exists added, md_lines' = (md_lines ++ added)%list.
Proof.
  unfold deletion_block.
  destruct (action_reason_of rc change) as [reason |]; cbn [bind];
    [| discriminate].
  destruct (if truthy reason then _ else _) as [md1 |] eqn:E; cbn [bind];
    [| discriminate].
  apply reason_appends in E. intro H. eapply appends_trans; [exact E |].
  revert H.
  destruct (py_get change "before" _) as [before |]; cbn [bind];
    [| discriminate].
  destruct before as [| | | | | | [| item items]]; try appends.
  destruct (fold_left _ _ _); appends.
Qed.

Lemma render_resource_appends (action_type : string)
  (md_lines md_lines' : list string) (rc : value) :
  render_resource action_type md_lines rc = Ok md_lines' ->
  exists added, md_lines' = (md_lines ++ added)%list.
Proof.
  unfold render_resource.
  destruct (py_get rc "type" _) as [resource_type |]; cbn [bind];
    [| discriminate].
  destruct (py_get rc "name" _) as [resource_name |]; cbn [bind];
    [| discriminate].
  destruct (py_get rc "address" _) as [address |]; cbn [bind];
    [| discriminate].
  destruct (py_get rc "change" _) as [change |]; cbn [bind];
    [| discriminate].
  destruct (py_get change "actions" _) as [actions |]; cbn [bind];
    [| discriminate].
  set (md0 := (md_lines ++ _)%list).
  assert (H0 : exists a, md0 = (md_lines ++ a)%list) by apply appends_app.
  clearbody md0.
  destruct (if (action_type =? "replace")%string then _ else _)
    as [md1 |] eqn:E; cbn [bind]; [| discriminate].
  intro H. apply ok_inj in H. subst md_lines'.
  eapply appends_trans; [exact H0 |].
  eapply appends_trans; [| apply appends_app].
  revert E.
  destruct (action_type =? "replace")%string.
  { destruct (action_reason_of rc change); cbn [bind]; [| discriminate].
    destruct (replacement_block change md0) as [md2 |] eqn:E2; cbn [bind];
      [| discriminate].
    intro E. eapply appends_trans;
      [exact (replacement_block_appends _ _ _ E2)
      | exact (configuration_block_appends _ _ _ E)]. }
  destruct (action_type =? "create")%string;
    [apply configuration_block_appends |].
  destruct (action_type =? "update")%string.
  { destruct (process_change change) as [[| l ls] |]; cbn [bind];
      [appends | appends | discriminate]. }
  destruct (action_type =? "delete")%string;
    [apply deletion_block_appends |].
  destruct (action_reason_of rc change) as [reason |]; cbn [bind];
    [| discriminate].
  apply reason_appends.
Qed.

Lemma detailed_section_appends (rcs : list value)
  (md_lines md_lines' : list string) :
  detailed_section rcs md_lines = Ok md_lines' ->
  exists added, md_lines' = (md_lines ++ added)%list.
Proof.
  unfold detailed_section. intro H.
  eapply appends_trans; [apply appends_app |].
  eapply foldM_appends; [| exact H].
  intros acc action_type acc'. unfold render_group.
  destruct (resources_for action_type rcs) as [[| r rs] |]; cbn [bind];
    [appends | | discriminate].
  intro H1. eapply appends_trans; [apply appends_app |].
  eapply foldM_appends; [| exact H1].
  intros a x a'. apply render_resource_appends.
Qed.

Lemma render_output_appends (md_lines md_lines' : list string)
  (item : string * value) :
  render_output md_lines item = Ok md_lines' ->
  exists added, md_lines' = (md_lines ++ added)%list.
Proof.
  unfold render_output.
  destruct (py_get (snd item) "actions" _) as [actions |]; cbn [bind];
    [| discriminate].
  destruct (get_action_emoji actions) as [emoji |]; cbn [bind];
    [| discriminate].
  destruct (py_get1 (snd item) "sensitive") as [sensitive |]; cbn [bind];
    [| discriminate].
  destruct (truthy sensitive); cbn [bind]; [appends |].
  destruct (py_get1 (snd item) "before") as [before |]; cbn [bind];
    [| discriminate].
  destruct (py_get1 (snd item) "after") as [after |]; cbn [bind];
    [| discriminate].
  destruct (is_none before && negb (is_none after)); cbn [bind]; [appends |].
  destruct (py_ne before after); cbn [bind]; appends.
Qed.

Lemma output_changes_section_appends (plan_data : value)
  (md_lines md_lines' : list string) :
  output_changes_section plan_data md_lines = Ok md_lines' ->
  exists added, md_lines' = (md_lines ++ added)%list.
Proof.
  unfold output_changes_section.
  destruct (py_get plan_data "output_changes" _) as [oc |]; cbn [bind];
    [| discriminate].
  destruct (truthy oc); [| appends].
  destruct (py_items oc) as [items |]; cbn [bind]; [| discriminate].
  intro H. eapply appends_trans; [apply appends_app |].
  eapply foldM_appends; [| exact H].
  intros a x a'. apply render_output_appends.
Qed.

(** X3.  Every report starts with the title line and an empty line, and ends
    with the footer, or with "No resource changes detected." when there are no
    resource changes; the sections only add lines in between. *)
Theorem report_frame (plan_data : value) (report : string) :
  convert_plan_to_markdown plan_data = Ok report ->
  exists resource_changes body,
    py_get plan_data "resource_changes" (VList []) = Ok resource_changes /\
    report =
    str_join nl
      (["# Terraform Summary"; ""] ++ body ++
       [if truthy resource_changes then footer
        else "No resource changes detected."])%list.
Proof.
  unfold convert_plan_to_markdown.
  destruct (errors_section plan_data _) as [with_errors |] eqn:Ee;
    cbn [bind]; [| discriminate].
  apply errors_section_appends in Ee.
  destruct (version_section plan_data _) as [md1 |] eqn:Ev; cbn [bind];
    [| discriminate].
  apply version_section_appends in Ev.
  pose proof (appends_trans _ _ _ Ee Ev) as H1.
  destruct (py_get plan_data "resource_changes" _) as [resource_changes |];
    cbn [bind]; [| discriminate].
  unfold join_lines.
  destruct (truthy resource_changes) eqn:Etruthy; cbn [negb].
  - destruct (py_iter resource_changes) as [rcs |]; cbn [bind];
      [| discriminate].
    destruct (count_actions rcs) as [counts |]; cbn [bind]; [| discriminate].
    destruct (tag_summary_section counts rcs _) as [md2 |] eqn:Et;
      cbn [bind]; [| discriminate].
    apply tag_summary_section_appends in Et.
    destruct (detailed_section rcs md2) as [md3 |] eqn:Ed; cbn [bind];
      [| discriminate].
    apply detailed_section_appends in Ed.
    destruct (output_changes_section plan_data md3) as [md4 |] eqn:Eo;
      cbn [bind]; [| discriminate].
    apply output_changes_section_appends in Eo.
    destruct (snd with_errors); [discriminate |].
    intro H. apply ok_inj in H. subst report.
    assert (H2 : exists c, md4 = (["# Terraform Summary"; ""] ++ c)%list).
    { eapply appends_trans; [| exact Eo].
      eapply appends_trans; [| exact Ed].
      eapply appends_trans; [| exact Et].
      eapply appends_trans; [exact H1 |].
      unfold summary_section. apply appends_app. }
    destruct H2 as [c ->]. exists resource_changes, c.
    rewrite Etruthy. split; reflexivity.
  - destruct (snd with_errors); [discriminate |].
    intro H. apply ok_inj in H. subst report.
    destruct H1 as [c ->]. exists resource_changes, c.
    rewrite Etruthy. split; reflexivity.
Qed.

(** ** The output-changes section *)

Lemma render_output_block (md_lines md_lines' : list string)
  (item : string * value) :
  render_output md_lines item = Ok md_lines' ->
  exists block, md_lines' = (md_lines ++ block)%list /\ output_block item block.
Proof.
  unfold render_output, output_block, py_get1, py_get.
  destruct item as [output_name output_change]. cbn [fst snd].
  destruct output_change as [| | | | | | oc]; cbn [bind]; try discriminate.
  fold (actions_of_items oc) (items_get oc "sensitive")
       (items_get oc "before") (items_get oc "after").
  destruct (get_action_emoji (actions_of_items oc)) as [action_emoji |]
    eqn:Eemoji; cbn [bind]; [| discriminate].
  assert (Hnone : is_none (items_get oc "before") = true ->
                  is_none (items_get oc "after") = false ->
                  py_ne (items_get oc "before") (items_get oc "after") = true).
  { unfold py_ne. destruct (items_get oc "before"); try discriminate.
    destruct (items_get oc "after"); try discriminate; reflexivity. }
  destruct (truthy (items_get oc "sensitive")) eqn:Es; cbn [bind].
  { intro H. apply ok_inj in H. subst md_lines'.
    eexists. split; [rewrite <- !app_assoc; reflexivity |].
    exists oc, action_emoji, ["Value: `(sensitive)`"].
    repeat split; intros; try reflexivity; congruence. }
  destruct (is_none (items_get oc "before")
            && negb (is_none (items_get oc "after"))) eqn:En; cbn [bind].
  { intro H. apply ok_inj in H. subst md_lines'.
    apply andb_true_iff in En. destruct En as [Eb Ea].
    apply negb_true_iff in Ea. specialize (Hnone Eb Ea).
    eexists. split; [rewrite <- !app_assoc; reflexivity |].
    exists oc, action_emoji,
      [("Value: " ++ strip (format_value (items_get oc "after") 0))%string].
    rewrite Eb, Ea.
    repeat split; intros; try reflexivity; try congruence; discriminate. }
  assert (Hnot : ~ (is_none (items_get oc "before") = true /\
                    is_none (items_get oc "after") = false)).
  { intros [Eb Ea]. rewrite Eb, Ea in En. discriminate En. }
  destruct (py_ne (items_get oc "before") (items_get oc "after")) eqn:Ene;
    cbn [bind]; intro H; apply ok_inj in H; subst md_lines'.
  - eexists. split; [rewrite <- !app_assoc; reflexivity |].
    exists oc, action_emoji,
      [("Before: " ++ strip (format_value (items_get oc "before") 0))%string;
       ("After: " ++ strip (format_value (items_get oc "after") 0))%string].
    repeat split; intros; try reflexivity; try congruence.
    exfalso. apply Hnot. now split.
  - eexists. split; [rewrite <- !app_assoc; reflexivity |].
    exists oc, action_emoji, [].
    repeat split; intros; try reflexivity; try congruence.
    exfalso. apply Hnot. now split.
Qed.

Lemma render_outputs_blocks (items : list (string * value)) :
  forall md_lines md_lines',
    foldM render_output items md_lines = Ok md_lines' ->
    exists blocks,
      Forall2 output_block items blocks /\
      md_lines' = (md_lines ++ List.concat blocks)%list.
Proof.
  induction items as [| item items IH]; intros md_lines md_lines' H;
    cbn [foldM] in H.
  - apply ok_inj in H. subst md_lines'. exists [].
    split; [constructor | now rewrite app_nil_r].
  - destruct (render_output md_lines item) as [md1 |] eqn:E; cbn [bind] in H;
      [| discriminate].
    destruct (render_output_block _ _ _ E) as (block & -> & Hblock).
    destruct (IH _ _ H) as (blocks & Hblocks & ->).
    exists (block :: blocks). split; [now constructor |].
    cbn [List.concat]. now rewrite <- !app_assoc.
Qed.

(** C9 (as amended).  In a report with resource changes, the lines before the
    footer are those of the output-changes section: none when there are no
    output changes; otherwise the title "## Output Changes", an empty line,
    and one block per output, in the order of the outputs.  Every block
    starts with the heading of its output; below it a sensitive output shows
    only the marker "Value: `(sensitive)`", and a non-sensitive output with
    [before != after] false shows no value line. *)
Theorem output_changes_rendered (plan_data resource_changes : value)
  (items : list (string * value)) (report : string) :
  py_get plan_data "resource_changes" (VList []) = Ok resource_changes ->
  truthy resource_changes = true ->
  py_get plan_data "output_changes" (VDict []) = Ok (VDict items) ->
  convert_plan_to_markdown plan_data = Ok report ->
  exists above blocks,
    Forall2 output_block items blocks /\
    report =
    str_join nl
      (above ++
       match items with
       | [] => []
       | _ :: _ => ["## Output Changes"; ""] ++ List.concat blocks
       end ++ [footer])%list.
Proof.
  intros Hrc Htruthy Hoc. unfold convert_plan_to_markdown.
  destruct (errors_section plan_data _) as [with_errors |]; cbn [bind];
    [| discriminate].
  destruct (version_section plan_data _) as [md1 |]; cbn [bind];
    [| discriminate].
  rewrite Hrc. cbn [bind]. rewrite Htruthy. cbn [negb].
  destruct (py_iter resource_changes) as [rcs |]; cbn [bind];
    [| discriminate].
  destruct (count_actions rcs) as [counts |]; cbn [bind]; [| discriminate].
  destruct (tag_summary_section counts rcs _) as [md2 |]; cbn [bind];
    [| discriminate].
  destruct (detailed_section rcs md2) as [md3 |]; cbn [bind];
    [| discriminate].
  unfold output_changes_section. rewrite Hoc. cbn [bind py_items truthy].
  unfold join_lines.
  destruct items as [| item items].
  - cbn [bind]. destruct (snd with_errors); [discriminate |].
    intro H. apply ok_inj in H. subst report.
    exists md3, []. split; [constructor | reflexivity].
  - destruct (foldM render_output (item :: items) _) as [md4 |] eqn:E;
      cbn [bind]; [| discriminate].
    destruct (snd with_errors); [discriminate |].
    intro H. apply ok_inj in H. subst report.
    destruct (render_outputs_blocks _ _ _ E) as (blocks & Hblocks & ->).
    exists md3, blocks. split; [exact Hblocks |].
    now rewrite <- !app_assoc.
Qed.

(** ** The full-document parser: marking twice, and marking then counting *)

Lemma tags_only_flag_same_change (rc rc' : value) :
  py_get rc' "change" (VDict []) = py_get rc "change" (VDict []) ->
  tags_only_flag rc' = tags_only_flag rc.
Proof. intro H. unfold tags_only_flag. now rewrite H. Qed.

Lemma mark_tags_only_marked (rc rc' : value) :
  mark_tags_only rc = Ok rc' ->
  exists items flag,
    rc = VDict items /\ tags_only_flag rc = Ok flag /\
    rc' = VDict (items_set items "tags_only" (VBool flag)) /\
    py_get rc' "change" (VDict []) = py_get rc "change" (VDict []).
Proof.
  unfold mark_tags_only.
  destruct (tags_only_flag rc) as [flag |] eqn:E; cbn [bind];
    [| discriminate].
  destruct rc as [| | | | | | items]; try discriminate.
  intro H. apply ok_inj in H. subst rc'. exists items, flag.
  repeat split; try reflexivity.
  now apply py_get_items_set_other.
Qed.

Lemma mark_tags_only_again (rc rc' : value) :
  mark_tags_only rc = Ok rc' -> mark_tags_only rc' = Ok rc'.
Proof.
  intro H. destruct (mark_tags_only_marked _ _ H)
    as (items & flag & -> & Hflag & -> & Hch).
  unfold mark_tags_only.
  rewrite (tags_only_flag_same_change _ _ Hch), Hflag. cbn [bind py_setitem].
  now rewrite items_set_twice.
Qed.

Lemma mapM_fixed {A : Type} (f : A -> result A) (l : list A) :
  Forall (fun x => f x = Ok x) l -> mapM f l = Ok l.
Proof.
  induction 1 as [| x l Hx _ IH]; [reflexivity |].
  cbn [mapM]. now rewrite Hx, IH.
Qed.

Lemma mapM_nil_inv {A B : Type} (f : A -> result B) (l : list A)
  (l' : list B) :
  (forall x, In x l -> exists e, f x = Raise e) ->
  mapM f l = Ok l' -> l = [].
Proof.
  destruct l as [| x l]; [reflexivity |]. intros Hraise H. exfalso.
  cbn [mapM] in H. destruct (Hraise x (or_introl eq_refl)) as [e He].
  rewrite He in H. discriminate.
Qed.

(** X20.  Marking is idempotent: running the marking pass of the full-document
    parser on its own result changes nothing. In particular a "tags_only" key
    already in the input does not influence the flag. *)
Theorem mark_document_idempotent (data data' : value) :
  mark_document data = Ok data' -> mark_document data' = Ok data'.
Proof.
  intro H. destruct data as [| | | | | | items]; try discriminate.
  assert (Hsame : data' = VDict items -> mark_document data' = Ok data').
  { intros ->. exact H. }
  revert H. unfold mark_document at 1. cbn [py_get bind].
  destruct (lookup "resource_changes" items) as [rc |] eqn:El.
  2:{ cbn [py_iter mapM bind]. intro H. apply ok_inj in H. auto. }
  destruct rc as [| | | | | | d]; cbn [py_iter bind]; try discriminate.
  - destruct (mapM mark_tags_only _); cbn [bind]; [| discriminate].
    intro H. apply ok_inj in H. auto.
  - destruct (mapM mark_tags_only l) as [rcs' |] eqn:Em; cbn [bind];
      [| discriminate].
    intro H. apply ok_inj in H. subst data'. clear Hsame.
    unfold mark_document. cbn [py_get bind].
    rewrite lookup_items_set_same. cbn [py_iter bind].
    rewrite (mapM_fixed mark_tags_only rcs').
    + cbn [bind]. now rewrite items_set_twice.
    + apply mapM_Forall2 in Em. clear El.
      induction Em as [| x y l l' Hxy _ IH]; constructor; [| exact IH].
      now apply mark_tags_only_again in Hxy.
  - destruct (mapM mark_tags_only _); cbn [bind]; [| discriminate].
    intro H. apply ok_inj in H. auto.
Qed.

(** X21.  A record is counted as "Update (tags only)" exactly when the
    full-document parser flagged it. *)
Theorem marked_record_counted_tags_only (rc rc' : value)
  (counts : action_counts) (b : bucket) :
  mark_tags_only rc = Ok rc' ->
  count_resource counts rc' = Ok (increment b counts) ->
  (b = BUpdateTagsOnly <-> tags_only_flag rc = Ok true).
Proof.
  intros Hm. destruct (mark_tags_only_marked _ _ Hm)
    as (items & flag & -> & Hflag & -> & Hch).
  rewrite Hflag. clear Hm. revert Hflag.
  unfold tags_only_flag, count_resource, rc_actions, and_then.
  rewrite Hch.
  destruct (py_get (VDict items) "change" (VDict [])) as [change |];
    cbn [bind]; [| discriminate].
  destruct (py_get change "actions" (VList [])) as [actions |]; cbn [bind];
    [| discriminate].
  cbn [py_get]. rewrite lookup_items_set_same. cbn [bind truthy].
  destruct (py_in "update" actions) as [[|] |]; cbn [bind negb];
    try discriminate;
  destruct (py_in "create" actions) as [[|] |]; cbn [bind negb];
    try discriminate;
  destruct (py_in "delete" actions) as [[|] |]; cbn [bind negb];
    try discriminate;
  try (intros Hf; apply ok_inj in Hf; subst flag);
  try (destruct (py_in "read" actions) as [[|] |]; cbn [bind negb];
       try discriminate);
  try (intros H; apply ok_inj, increment_inj in H; subst b;
       split; intro H; discriminate H).
  all: intros Hf H; destruct flag; apply ok_inj, increment_inj in H; subst b;
    split; intro H; try reflexivity; discriminate H.
Qed.

(** ** Code points and white space *)

Lemma length_append (s t : string) :
  String.length (s ++ t) = (String.length s + String.length t)%nat.
Proof. induction s as [| c s IH]; simpl; [reflexivity | now rewrite IH]. Qed.

Lemma str_len_append (s t : string) :
  str_len (s ++ t) = (str_len s + str_len t)%nat.
Proof.
  induction s as [| c s IH]; cbn [append str_len]; [reflexivity |].
  rewrite IH. now destruct (is_continuation c).
Qed.

Lemma str_len_take (n : nat) (s : string) :
  str_len (str_take n s) = Nat.min n (str_len s).
Proof.
  revert n. induction s as [| c s IH]; intro n; cbn [str_take str_len].
  - now rewrite Nat.min_0_r.
  - destruct (is_continuation c) eqn:E.
    + cbn [str_len]. rewrite E. apply IH.
    + destruct n as [| n]; [reflexivity |].
      cbn [str_len]. rewrite E, IH. reflexivity.
Qed.

Lemma is_space2_bytes (a b : ascii) :
  is_space2 a b = true ->
  is_visible_ascii a = false /\ is_visible_ascii b = false.
Proof.
  unfold is_space2, is_visible_ascii. intro H.
  apply andb_true_iff in H. destruct H as [Ha Hb].
  apply Nat.eqb_eq in Ha. rewrite Ha.
  apply orb_true_iff in Hb.
  split; [apply andb_false_r |].
  destruct Hb as [Hb | Hb]; apply Nat.eqb_eq in Hb; rewrite Hb;
    apply andb_false_r.
Qed.

Lemma is_space3_bytes (a b c : ascii) :
  is_space3 a b c = true ->
  is_visible_ascii a = false /\ is_visible_ascii b = false /\
  is_visible_ascii c = false.
Proof.
  unfold is_space3, is_visible_ascii. cbv zeta. intro H.
  assert (Hge : (128 <= nat_of_ascii a)%nat /\ (128 <= nat_of_ascii b)%nat /\
                (128 <= nat_of_ascii c)%nat).
  { repeat (apply orb_true_iff in H; destruct H as [H | H]);
      repeat (apply andb_true_iff in H; destruct H as [H ?]);
      repeat match goal with
             | E : (_ =? _)%nat = true |- _ => apply Nat.eqb_eq in E
             | E : (_ <=? _)%nat = true |- _ => apply Nat.leb_le in E
             | E : _ || _ = true |- _ =>
                 apply orb_true_iff in E; destruct E as [E | E]
             | E : _ && _ = true |- _ =>
                 apply andb_true_iff in E; destruct E as [E ?]
             end; lia. }
  destruct Hge as (Ha & Hb & Hc).
  repeat split; apply andb_false_iff; right; apply Nat.ltb_ge; assumption.
Qed.

Lemma lstrip_no_head_space (s : string) :
  head_space s = false -> lstrip s = s.
Proof.
  destruct s as [| c [| c2 [| c3 s3]]]; cbn [head_space lstrip];
    try reflexivity;
    destruct (is_space c); try discriminate;
    try reflexivity;
    destruct (is_space2 c c2); try discriminate;
    try reflexivity;
    destruct (is_space3 c c2 c3); try discriminate; reflexivity.
Qed.

Lemma lstrip_head_space (s : string) : head_space (lstrip s) = false.
Proof.
  remember (String.length s) as n eqn:Hn.
  assert (Hle : (String.length s <= n)%nat) by lia. clear Hn.
  revert s Hle. induction n as [| n IH]; intros s Hle.
  - destruct s; [reflexivity | simpl in Hle; lia].
  - destruct s as [| c s1]; [reflexivity |].
    cbn [String.length] in Hle. cbn [lstrip].
    destruct (is_space c) eqn:E1; [apply IH; lia |].
    destruct s1 as [| c2 s2]; [cbn [head_space]; now rewrite E1 |].
    cbn [String.length] in Hle.
    destruct (is_space2 c c2) eqn:E2; [apply IH; lia |].
    destruct s2 as [| c3 s3]; [cbn [head_space]; now rewrite E1, E2 |].
    cbn [String.length] in Hle.
    destruct (is_space3 c c2 c3) eqn:E3; [apply IH; lia |].
    cbn [head_space]. now rewrite E1, E2, E3.
Qed.

(** A visible ASCII character is not removed, whatever comes before it. *)
Lemma lstrip_keeps_visible (a : string) (c : ascii) (b : string) :
  is_visible_ascii c = true ->
  exists a', lstrip (a ++ String c b) = (a' ++ String c b)%string.
Proof.
  intro Hc.
  remember (String.length a) as n eqn:Hn.
  assert (Hle : (String.length a <= n)%nat) by lia. clear Hn.
  revert a Hle. induction n as [| n IH]; intros a Hle.
  - destruct a; [| simpl in Hle; lia]. exists ""%string. cbn [append].
    apply lstrip_no_head_space. cbn [head_space].
    unfold is_visible_ascii in Hc. apply andb_true_iff in Hc.
    destruct Hc as [Hs Hlt]. apply negb_true_iff in Hs. rewrite Hs.
    cbn [orb].
    destruct b as [| c2 [| c3 b3]]; [reflexivity | |].
    + rewrite orb_false_r. destruct (is_space2 c c2) eqn:E; [| reflexivity].
      apply is_space2_bytes in E. destruct E as [E _].
      unfold is_visible_ascii in E. now rewrite Hs, Hlt in E.
    + destruct (is_space2 c c2) eqn:E.
      { apply is_space2_bytes in E. destruct E as [E _].
        unfold is_visible_ascii in E. now rewrite Hs, Hlt in E. }
      destruct (is_space3 c c2 c3) eqn:E'; [| reflexivity].
      apply is_space3_bytes in E'. destruct E' as [E' _].
      unfold is_visible_ascii in E'. now rewrite Hs, Hlt in E'.
  - destruct a as [| x a1]; [apply (IH ""%string); simpl; lia |].
    cbn [String.length] in Hle. cbn [append lstrip].
    destruct (is_space x) eqn:E1; [apply IH; lia |].
    destruct a1 as [| x2 a2].
    { cbn [append]. destruct (is_space2 x c) eqn:E2.
      - apply is_space2_bytes in E2. destruct E2 as [_ E2].
        rewrite E2 in Hc. discriminate.
      - destruct b as [| c3 b3]; [now exists (String x "") |].
        destruct (is_space3 x c c3) eqn:E3; [| now exists (String x "")].
        apply is_space3_bytes in E3. destruct E3 as (_ & E3 & _).
        rewrite E3 in Hc. discriminate. }
    cbn [String.length] in Hle. cbn [append].
    destruct (is_space2 x x2) eqn:E2; [apply IH; lia |].
    destruct a2 as [| x3 a3].
    { cbn [append]. destruct (is_space3 x x2 c) eqn:E3;
        [| now exists (String x (String x2 ""))].
      apply is_space3_bytes in E3. destruct E3 as (_ & _ & E3).
      rewrite E3 in Hc. discriminate. }
    cbn [String.length] in Hle. cbn [append].
    destruct (is_space3 x x2 x3) eqn:E3; [apply IH; lia |].
    now exists (String x (String x2 (String x3 a3))).
Qed.

Lemma rstrip_empty (s : string) :
  rstrip s = ""%string -> lstrip s = ""%string.
Proof.
  destruct s as [| c s]; [reflexivity |]. cbn [rstrip]. unfold all_space.
  destruct (lstrip (String c s) =? "")%string eqn:E; [| discriminate].
  intros _. now apply String.eqb_eq in E.
Qed.

Lemma strip_visible (a : string) (c : ascii) (b : string) :
  is_visible_ascii c = true -> strip (a ++ String c b) <> ""%string.
Proof.
  intros Hc H. unfold strip in H.
  destruct (lstrip_keeps_visible a c b Hc) as [a' Ha']. rewrite Ha' in H.
  apply rstrip_empty in H.
  destruct (lstrip_keeps_visible a' c b Hc) as [a'' Ha''].
  rewrite Ha'' in H. destruct a''; discriminate H.
Qed.

Lemma strip_cons_visible (c : ascii) (s : string) :
  is_visible_ascii c = true -> strip (String c s) <> ""%string.
Proof. apply (strip_visible ""%string c s). Qed.

Lemma rstrip_prefix (s : string) : exists w, s = (rstrip s ++ w)%string.
Proof.
  induction s as [| c s [w IH]]; [now exists ""%string |].
  cbn [rstrip]. destruct (all_space (String c s)).
  - now exists (String c s).
  - exists w. cbn [append]. now rewrite <- IH.
Qed.

Lemma head_space_prefix (t w : string) :
  head_space t = true -> head_space (t ++ w) = true.
Proof.
  destruct t as [| c [| c2 [| c3 t3]]]; cbn [head_space append];
    try discriminate; intro H.
  - rewrite orb_false_r in H. now rewrite H.
  - rewrite orb_false_r in H. apply orb_true_iff in H.
    destruct H as [H | H]; rewrite H; [reflexivity |].
    destruct w; cbn [orb]; apply orb_true_r.
  - exact H.
Qed.

Lemma strip_strip_empty (s : string) :
  strip (strip s) = ""%string <-> strip s = ""%string.
Proof.
  split; [| now intros ->].
  unfold strip at 2 3. pose proof (lstrip_head_space s) as Hu.
  destruct (lstrip s) as [| c u1] eqn:Eu; [reflexivity |].
  cbn [rstrip]. unfold all_space.
  rewrite (lstrip_no_head_space _ Hu). cbn [String.eqb].
  intro H. exfalso. unfold strip in H.
  destruct (rstrip_prefix u1) as [w Hw].
  assert (Ht : head_space (String c (rstrip u1)) = false).
  { destruct (head_space (String c (rstrip u1))) eqn:E; [| reflexivity].
    apply (head_space_prefix _ w) in E. cbn [append] in E.
    rewrite <- Hw, Hu in E. discriminate. }
  rewrite (lstrip_no_head_space _ Ht) in H.
  apply rstrip_empty in H. rewrite (lstrip_no_head_space _ Ht) in H.
  discriminate.
Qed.

Lemma strip_joined_visible (e rest : string) :
  strip (strip e ++ ", " ++ rest) <> ""%string.
Proof. now apply strip_visible. Qed.

(** ** [format_value]: what is shown for a string, and what is shown as
    nothing *)

(** X10.  A string is shown between back-ticks, in full when it has at most
    100 characters and cut to its first 97 characters and "..." when it has
    more; what is shown never exceeds 102 characters, and has 102 when the
    string was cut. *)
Theorem format_value_string_bounded (s : string) :
  (str_len (format_value (VStr s) 0) <= 102)%nat /\
  ((100 < str_len s)%nat -> str_len (format_value (VStr s) 0) = 102%nat) /\
  format_value (VStr s) 0 =
  (if (s =? "")%string then ""
   else if (str_len s <=? 100)%nat then "`" ++ s ++ "`"
        else "`" ++ str_take 97 s ++ "...`")%string.
Proof.
  cbn [format_value]. change (str_repeat "  " 0) with ""%string.
  destruct (s =? "")%string eqn:Es.
  { apply String.eqb_eq in Es. subst s.
    repeat split; [simpl; lia | simpl; lia]. }
  rewrite Nat.ltb_antisym.
  destruct (str_len s <=? 100)%nat eqn:E; cbn [negb].
  - apply Nat.leb_le in E.
    assert (H : str_len ("" ++ "`" ++ s ++ "`") = (2 + str_len s)%nat).
    { cbn [append]. change (String "`" (s ++ "`")) with ("`" ++ s ++ "`")%string.
      rewrite !str_len_append. change (str_len "`") with 1%nat. lia. }
    rewrite H. repeat split; lia.
  - apply Nat.leb_gt in E.
    assert (H : str_len ("" ++ "`" ++ str_take 97 s ++ "...`") = 102%nat).
    { cbn [append].
      change (String "`" (str_take 97 s ++ "...`"))
        with ("`" ++ str_take 97 s ++ "...`")%string.
      rewrite !str_len_append, str_len_take.
      change (str_len "`") with 1%nat. change (str_len "...`") with 4%nat.
      lia. }
    rewrite H. repeat split; lia.
Qed.

(** X11.  At indentation 0, [format_value] yields nothing visible exactly for
    [None], the empty string, the empty list, the empty dict and a one-item
    list of such a value; these are the attributes the detail sections leave
    out. *)
Theorem format_value_shows_nothing :
  forall v : value,
    strip (format_value v 0) = ""%string <-> shows_nothing v = true.
Proof.
  fix IH 1. intros [| b | z | f | s | l | d].
  - split; reflexivity.
  - cbn [format_value shows_nothing]. change (str_repeat "  " 0) with ""%string.
    split; [| discriminate]. intro H. exfalso. revert H.
    now apply strip_cons_visible.
  - cbn [format_value shows_nothing]. change (str_repeat "  " 0) with ""%string.
    split; [| discriminate]. intro H. exfalso. revert H.
    now apply strip_cons_visible.
  - cbn [format_value shows_nothing]. change (str_repeat "  " 0) with ""%string.
    split; [| discriminate]. intro H. exfalso. revert H.
    now apply strip_cons_visible.
  - cbn [format_value shows_nothing]. change (str_repeat "  " 0) with ""%string.
    destruct (s =? "")%string; [split; reflexivity |].
    split; [| discriminate]. intro H. exfalso. revert H.
    destruct (100 <? str_len s)%nat; now apply strip_cons_visible.
  - destruct l as [| x [| y l]].
    + split; reflexivity.
    + cbn [format_value shows_nothing List.length Nat.ltb Nat.leb map
             str_join].
      change (str_repeat "  " 0) with ""%string. cbn [append].
      rewrite strip_strip_empty. apply IH.
    + cbn [shows_nothing]. split; [| discriminate]. intro H. exfalso.
      revert H. cbn [format_value].
      change (str_repeat "  " 0) with ""%string.
      destruct (5 <? List.length (x :: y :: l))%nat;
        [now apply strip_cons_visible |].
      cbn [append map str_join]. apply strip_joined_visible.
  - destruct d as [| kv d]; [split; reflexivity |].
    cbn [format_value shows_nothing]. change (str_repeat "  " 0) with ""%string.
    split; [| discriminate]. intro H. exfalso. revert H.
    now apply strip_cons_visible.
Qed.

(** ** The tag aggregator: counts when the before tags are present *)

Lemma group_total_items_set (l : list (string * tag_group)) (k : string)
  (g' : tag_group) :
  (group_total (items_set l k g') +
   match lookup k l with Some g => g_count g | None => 0 end
   = group_total l + g_count g')%nat.
Proof.
  unfold group_total.
  induction l as [| [k0 g0] l IH]; simpl.
  - lia.
  - destruct (k =? k0)%string; simpl; lia.
Qed.

Lemma add_pair_total (groups : list (string * tag_group)) (b a : value) :
  group_total (add_pair groups b a) = S (group_total groups).
Proof.
  unfold add_pair.
  destruct (lookup (change_key_of b a) groups) as [g |] eqn:E.
  - pose proof (group_total_items_set groups (change_key_of b a)
                  (mk_group (g_before g) (g_after g) (S (g_count g)))) as H.
    rewrite E in H. cbn [g_count] in H. lia.
  - pose proof (group_total_items_set groups (change_key_of b a)
                  (mk_group b a 1)) as H.
    rewrite E in H. cbn [g_count] in H. lia.
Qed.

Lemma add_pairs_total (pairs : list (value * value)) :
  forall g,
    match add_pairs pairs g with Some x => group_total x | None => 0%nat end =
    (List.length pairs +
     match g with Some x => group_total x | None => 0 end)%nat.
Proof.
  induction pairs as [| p pairs IH]; intro g; [reflexivity |].
  cbn [add_pairs fold_left List.length].
  fold (add_pairs pairs
          (Some (add_pair (match g with Some x => x | None => [] end)
                   (fst p) (snd p)))).
  rewrite IH, add_pair_total. destruct g; unfold group_total; simpl; lia.
Qed.

Lemma rc_key_pairs_at_most_one (k : string) (rc : value) :
  tags_before_present rc -> (List.length (rc_key_pairs k rc) <= 1)%nat.
Proof.
  intros (ch & bf & af & bt & at_ & Hch & Hbf & Haf & Hbt & Hne & Hat).
  unfold rc_key_pairs. rewrite Hch. cbn [py_get].
  fold (items_get_or ch "before" (VDict []))
       (items_get_or ch "after" (VDict [])).
  rewrite Hbf, Haf. cbn [key_pairs py_get].
  fold (items_get_or bf "tags" (VDict []))
       (items_get_or af "tags" (VDict [])).
  rewrite Hbt, Hat.
  destruct bt as [| kv bt']; [contradiction |].
  cbn [truthy String.eqb Ascii.eqb Bool.eqb andb]. rewrite app_nil_r.
  unfold field_pairs. destruct (py_ne _ _); simpl; lia.
Qed.

(** X22.  When every tags-only record has a non-empty before "tags", each
    record files a tag key at most once: the counts reported for a key add up
    to at most the number of tags-only records. *)
Theorem tag_counts_bounded (resource_changes tags_only_resources : list value)
  (summary : list (string * tag_summary)) (tag_key : string)
  (entry : tag_summary) :
  collect_tags_only resource_changes = Ok tags_only_resources ->
  Forall tags_before_present tags_only_resources ->
  extract_all_tag_changes resource_changes = Ok summary ->
  lookup tag_key summary = Some entry ->
  (1 <= summary_total entry <= List.length tags_only_resources)%nat.
Proof using set_order_In set_order_NoDup.
  intros Hcol Hall Hrun Hlook. unfold extract_all_tag_changes in Hrun.
  rewrite Hcol in Hrun. cbn [bind] in Hrun.
  destruct tags_only_resources as [| r0 rs] eqn:Ers.
  { apply ok_inj in Hrun. subst summary. discriminate Hlook. }
  rewrite <- Ers in *. clear Ers.
  destruct (collect_tag_changes tags_only_resources) as [tc |] eqn:Etc;
    cbn [bind] in Hrun; [| discriminate].
  apply ok_inj in Hrun. subst summary. rewrite lookup_map_values in Hlook.
  pose proof (collect_tag_changes_lookup _ _ tag_key Etc) as Hpairs.
  destruct (lookup tag_key tc) as [changes |] eqn:El; [| discriminate].
  cbn [option_map] in Hlook. apply (f_equal (fun o => match o with
                                                      | Some e => e
                                                      | None => entry
                                                      end)) in Hlook.
  subst entry.
  pose proof (add_pairs_total
                (flat_map (rc_key_pairs tag_key) tags_only_resources) None)
    as Htotal.
  rewrite <- Hpairs in Htotal.
  assert (Hlen : (List.length
                    (flat_map (rc_key_pairs tag_key) tags_only_resources)
                  <= List.length tags_only_resources)%nat).
  { clear - Hall. induction Hall as [| rc l Hrc _ IH]; [reflexivity |].
    cbn [flat_map List.length]. rewrite length_app.
    pose proof (rc_key_pairs_at_most_one tag_key rc Hrc). lia. }
  destruct (collect_tag_changes_ok _ _ Etc _ _ (lookup_In _ _ _ El))
    as [Hnonempty [_ Hcounts]].
  assert (Htot : summary_total
                   (flatten_changes (List.length tags_only_resources) changes)
                 = group_total changes).
  { unfold flatten_changes, group_total.
    destruct changes as [| [ck g] [| kg rest]]; cbn [summary_total].
    - reflexivity.
    - destruct (g_count g =? _)%nat eqn:E; simpl; [| lia].
      apply Nat.eqb_eq in E. lia.
    - now rewrite map_map. }
  rewrite Htot. split; [| lia].
  destruct changes as [| [ck g] rest]; [contradiction |].
  destruct (Hcounts ck g (or_introl eq_refl)) as [_ Hone].
  unfold group_total. simpl. lia.
Qed.

(** ** Sensitive attributes in the detail sections *)

Lemma foldM_ext {A S : Type} (f g : S -> A -> result S) (l : list A) :
  (forall acc x, f acc x = g acc x) ->
  forall acc, foldM f l acc = foldM g l acc.
Proof.
  intro H. induction l as [| x l IH]; intro acc; [reflexivity |].
  cbn [foldM]. rewrite H. destruct (g acc x); cbn [bind];
    [apply IH | reflexivity].
Qed.

(** X6.  The "Configuration" block of a created or replaced resource does not
    depend on the value of an attribute flagged in "after_sensitive": the
    value of such an attribute never reaches the report. *)
Theorem configuration_block_hides_sensitive
  (change change' : value) (a : list (string * value))
  (after_sensitive flag : value) (k : string) (v v' : value)
  (md_lines : list string) :
  py_get change "after" (VDict []) = Ok (VDict (items_set a k v)) ->
  py_get change' "after" (VDict []) = Ok (VDict (items_set a k v')) ->
  py_get change "after_sensitive" (VDict []) = Ok after_sensitive ->
  py_get change' "after_sensitive" (VDict []) = Ok after_sensitive ->
  py_get1 after_sensitive k = Ok flag ->
  truthy flag = true ->
  configuration_block change md_lines = configuration_block change' md_lines.
Proof.
  intros Ha Ha' Hs Hs' Hflag Htruthy. unfold configuration_block.
  rewrite Ha, Ha'. cbn [bind].
  pose proof (keys_items_set_same_key a k v v') as Hkeys.
  destruct (items_set a k v) as [| item items] eqn:E;
    [now apply items_set_nonempty in E |].
  destruct (items_set a k v') as [| item' items'] eqn:E';
    [now apply items_set_nonempty in E' |].
  rewrite <- Hkeys.
  rewrite (foldM_ext (config_line change (item :: items))
             (config_line change' (item' :: items'))); [reflexivity |].
  intros acc x. unfold config_line. rewrite Hs, Hs'. cbn [bind].
  destruct (String.eqb_spec k x) as [<- | Hx].
  - rewrite Hflag. cbn [bind]. now rewrite Htruthy.
  - rewrite <- E, <- E'. now rewrite !items_get_set_other by exact Hx.
Qed.

(** X8.  The detail of a deleted resource does not consult "before_sensitive"
    or "after_sensitive": the attributes of the resource are shown whether or
    not they are flagged sensitive. *)
Theorem deletion_block_ignores_sensitivity (rc : value)
  (ch : list (string * value)) (before_sensitive after_sensitive : value)
  (md_lines : list string) :
  deletion_block rc
    (VDict (items_set (items_set ch "before_sensitive" before_sensitive)
              "after_sensitive" after_sensitive)) md_lines =
  deletion_block rc (VDict ch) md_lines.
Proof.
  unfold deletion_block, action_reason_of, py_get1.
  now rewrite !py_get_items_set_other by discriminate.
Qed.

(** ** The detail of a record of the line-oriented parser *)

Lemma set_order_nil : set_order [] = [].
Proof using set_order_In.
  destruct (set_order []) as [| x l] eqn:E; [reflexivity |].
  exfalso. apply (proj1 (set_order_In [] x)). rewrite E. now left.
Qed.

(** X17.  For a record of the line-oriented parser the detail under Create,
    Update or Replace is the address, the type and the closing rule: the
    parser keeps no attribute, so no "Configuration", "Changes" or "Attributes
    forcing replacement" block is shown. *)
Theorem streamed_record_detail (action_type : string) (rc : value)
  (md_lines : list string) :
  streamed_record rc ->
  action_type = "create"%string \/ action_type = "update"%string \/
  action_type = "replace"%string ->
  exists address resource_type,
    py_get1 rc "address" = Ok address /\
    py_get1 rc "type" = Ok resource_type /\
    render_resource action_type md_lines rc =
    Ok (md_lines ++
        [("#### `" ++ py_str address ++ "`")%string; "";
         ("**Type**: `" ++ py_str resource_type ++ "`")%string; "";
         "---"; ""])%list.
Proof using set_order_In.
  intros (addr & module & type & name & actions & reason & ->) Haction.
  exists addr, type. split; [reflexivity |]. split; [reflexivity |].
  unfold render_resource.
  cbn [py_get lookup String.eqb Ascii.eqb Bool.eqb bind].
  destruct Haction as [-> | [-> | ->]];
    cbn [String.eqb Ascii.eqb Bool.eqb].
  - unfold configuration_block.
    cbn [py_get lookup String.eqb Ascii.eqb Bool.eqb bind].
    now rewrite <- app_assoc.
  - unfold process_change.
    cbn [py_get lookup String.eqb Ascii.eqb Bool.eqb bind keys_if_dict map
           app].
    rewrite set_order_nil. cbn [sort_strings fold_right flat_map bind].
    now rewrite <- app_assoc.
  - unfold action_reason_of, py_get1, replacement_block, configuration_block.
    cbn [py_get lookup String.eqb Ascii.eqb Bool.eqb bind truthy py_iter
           foldM].
    destruct (truthy VNone) eqn:E; [discriminate E |].
    cbn [bind]. now rewrite <- app_assoc.
Qed.

(** ** The attributes forcing replacement *)

Lemma existsb_py_eq_str (names : list string) (a : string) :
  existsb (fun y => py_eq y (VStr a)) (map VStr names) = true <-> In a names.
Proof.
  rewrite existsb_exists. split.
  - intros (y & Hin & Heq). apply in_map_iff in Hin.
    destruct Hin as (n & <- & Hn). simpl in Heq.
    apply String.eqb_eq in Heq. now subst.
  - intro H. exists (VStr a). split; [now apply in_map |].
    simpl. apply String.eqb_refl.
Qed.

Lemma add_replace_paths_strings (paths : list value) :
  Forall string_path paths ->
  forall names, NoDup names ->
    exists names',
      foldM add_replace_path paths (map VStr names) = Ok (map VStr names') /\
      NoDup names' /\
      forall a, In a names' <-> In a names \/ In a (flat_map first_attr paths).
Proof.
  induction 1 as [| p paths Hp _ IH]; intros names Hnd.
  - exists names. split; [reflexivity |]. split; [exact Hnd |].
    intro a. simpl. ptauto.
  - cbn [foldM flat_map].
    assert (Hstep : exists names1,
              add_replace_path (map VStr names) p = Ok (map VStr names1) /\
              NoDup names1 /\
              forall a, In a names1 <-> In a names \/ In a (first_attr p)).
    { destruct p as [| | | | | [| x rest] |];
        try (exists names; split; [reflexivity |]; split; [exact Hnd |];
             intro a; simpl; ptauto).
      simpl in Hp. destruct x; try discriminate Hp.
      cbn [add_replace_path set_add hashable first_attr].
      destruct (existsb _ (map VStr names)) eqn:E.
      - apply existsb_py_eq_str in E. exists names.
        split; [reflexivity |]. split; [exact Hnd |].
        intro a. simpl. split; [now left |]. intros [H | [<- | []]]; assumption.
      - exists (names ++ [s])%list. split; [now rewrite map_app |].
        assert (Hs : ~ In s names).
        { intro H. apply existsb_py_eq_str in H. rewrite H in E.
          discriminate. }
        split.
        + apply NoDup_app; [exact Hnd | repeat constructor; intros [] |].
          intros x Hx [<- | []]. contradiction.
        + intro a. rewrite in_app_iff. reflexivity. }
    destruct Hstep as (names1 & -> & Hnd1 & Hin1). cbn [bind].
    destruct (IH names1 Hnd1) as (names' & Hrun & Hnd' & Hin').
    exists names'. split; [exact Hrun |]. split; [exact Hnd' |].
    intro a. rewrite Hin', Hin1, in_app_iff. ptauto.
Qed.

Lemma insert_value_strings (x : string) (l : list string) :
  insert_value (VStr x) (map VStr l) = Ok (map VStr (insert_sorted x l)).
Proof.
  induction l as [| y l IH]; [reflexivity |].
  cbn [map insert_value insert_sorted py_leb bind].
  destruct (String.leb x y); [reflexivity |]. now rewrite IH.
Qed.

Lemma py_sorted_strings (l : list string) :
  py_sorted (map VStr l) = Ok (map VStr (sort_strings l)).
Proof.
  induction l as [| x l IH]; [reflexivity |].
  cbn [map py_sorted]. rewrite IH. cbn [bind]. apply insert_value_strings.
Qed.

(** X9.  When the first element of every replace path is a string, the
    "Attributes forcing replacement" block does not raise and lists each such
    attribute once, in ascending order. *)
Theorem replacement_block_sorted_attrs (change : value) (paths : list value)
  (md_lines : list string) :
  py_get change "replace_paths" (VList []) = Ok (VList paths) ->
  Forall string_path paths ->
  exists attrs,
    replacement_block change md_lines =
    Ok (md_lines ++
        match attrs with
        | [] => []
        | _ => ["**Attributes forcing replacement**:"; ""] ++
               map (fun a => ("  - `" ++ a ++ "`")%string) attrs ++ [""]
        end)%list /\
    NoDup attrs /\
    Sorted (fun a b => String.leb a b = true) attrs /\
    forall a, In a attrs <-> In a (flat_map first_attr paths).
Proof.
  intros Hpaths Hall. unfold replacement_block. rewrite Hpaths.
  cbn [bind py_iter].
  destruct (add_replace_paths_strings paths Hall [] (NoDup_nil _))
    as (names & Hrun & Hnd & Hin).
  change (@nil value) with (map VStr []) at 1. rewrite Hrun. cbn [bind].
  exists (sort_strings names).
  split; [| split; [now apply NoDup_sort_strings |
                    split; [apply Sorted_sort_strings |]]].
  - destruct names as [| n names]; [now rewrite app_nil_r |].
    cbn [map]. rewrite <- (map_cons VStr n names), py_sorted_strings.
    cbn [bind]. rewrite map_map. cbn [py_str].
    destruct (sort_strings (n :: names)) eqn:E; [| reflexivity].
    exfalso. assert (Hn : In n (sort_strings (n :: names)))
      by (apply In_sort_strings; now left).
    rewrite E in Hn. exact Hn.
  - intro a. rewrite In_sort_strings, Hin. simpl. ptauto.
Qed.

End Converter.

(** * Properties of the template processor *)

Lemma after_prefix_app (p s r : string) :
  after_prefix p s = Some r -> s = (p ++ r)%string.
Proof.
  revert s. induction p as [| a p IH]; intros s H; simpl in H.
  - now injection H as <-.
  - destruct s as [| b s]; [discriminate |].
    destruct (Ascii.eqb a b) eqn:E; [| discriminate].
    apply Ascii.eqb_eq in E. subst b. simpl. f_equal. now apply IH.
Qed.

Lemma append_assoc (a b c : string) :
  ((a ++ b) ++ c = a ++ b ++ c)%string.
Proof. induction a as [| x a IH]; simpl; [reflexivity | now rewrite IH]. Qed.

Lemma prefix_app (n b : string) : String.prefix n (n ++ b) = true.
Proof.
  induction n as [| c n IH]; simpl; [now destruct b |].
  destruct (ascii_dec c c) as [_ | Hne]; [exact IH | now elim Hne].
Qed.

Lemma str_contains_app (n a b : string) :
  str_contains n (a ++ n ++ b) = true.
Proof.
  induction a as [| c a IH].
  - cbn [append]. pose proof (prefix_app n b) as H.
    destruct (n ++ b)%string; cbn [str_contains]; now rewrite H.
  - cbn [append str_contains]. rewrite IH. apply orb_true_r.
Qed.

Lemma match_alternative_marker (t s : string) (m : string * string) :
  match_alternative t s = Some m -> str_contains "::" s = true.
Proof.
  unfold match_alternative.
  destruct (after_prefix (t ++ "::") s) as [rest |] eqn:E; [| discriminate].
  intros _. apply after_prefix_app in E. subst s.
  rewrite append_assoc. apply str_contains_app.
Qed.

Lemma match_here_marker (s : string) (m : string * string) :
  match_here s = Some m -> str_contains "::" s = true.
Proof.
  unfold match_here.
  destruct (match_alternative "AWS-PARAMETER" s) eqn:E1;
    [intros _; exact (match_alternative_marker _ _ _ E1) |].
  destruct (match_alternative "AWS-SECRET" s) eqn:E2;
    [intros _; exact (match_alternative_marker _ _ _ E2) |].
  apply match_alternative_marker.
Qed.

(** X25.  A text without "::" holds no placeholder: it is returned as it is,
    whatever the services answer. *)
Theorem process_placeholders_without_marker (sv : services)
  (content : string) (region : option string) :
  str_contains "::" content = false ->
  process_placeholders sv content region = Returned content.
Proof.
  unfold process_placeholders.
  induction content as [| c rest IH]; intro H; [reflexivity |].
  cbn [re_sub].
  destruct (match_here (String c rest)) as [m |] eqn:E.
  { apply match_here_marker in E. rewrite E in H. discriminate. }
  cbn [str_contains] in H. apply orb_false_iff in H. destruct H as [_ H].
  now rewrite (IH H).
Qed.

Lemma re_sub_skip (repl : string -> string -> string -> outcome string)
  (a b : string) :
  re_sub repl (a ++ b) (String.length a) = re_sub repl b 0.
Proof. induction a as [| c a IH]; [reflexivity | exact IH]. Qed.

Lemma name_prefix_app (name post : string) :
  name_prefix name = name -> name_prefix post = ""%string ->
  name_prefix (name ++ post) = name.
Proof.
  intros Hname Hpost. induction name as [| c name IH]; [exact Hpost |].
  cbn [append name_prefix] in *. destruct (is_name_char c); [| discriminate].
  injection Hname as Hname. now rewrite IH.
Qed.

Lemma re_sub_match (repl : string -> string -> string -> outcome string)
  (placeholder_type name post : string) :
  placeholder_type <> ""%string ->
  match_here (placeholder_type ++ "::" ++ name ++ post)
  = Some (placeholder_type, name) ->
  re_sub repl (placeholder_type ++ "::" ++ name ++ post) 0 =
  and_next (repl placeholder_type name (placeholder_type ++ "::" ++ name))
    (fun value =>
       and_next (re_sub repl post 0)
         (fun tail => Returned (value ++ tail))).
Proof.
  intros Hne Hm. destruct placeholder_type as [| c t]; [contradiction |].
  cbn [append] in Hm. cbn [append re_sub]. rewrite Hm.
  cbn [append String.length Nat.sub]. rewrite Nat.sub_0_r.
  replace (t ++ String ":" (String ":" (name ++ post)))%string
    with ((t ++ "::" ++ name) ++ post)%string
    by (rewrite !append_assoc; reflexivity).
  now rewrite re_sub_skip.
Qed.

Lemma prefix_colon (c : ascii) (s : string) :
  String.prefix ":" (String c s) = Ascii.eqb c ":".
Proof.
  cbn [String.prefix]. destruct (ascii_dec ":" c) as [<- | Hne].
  - now destruct s.
  - symmetry. apply Ascii.eqb_neq. congruence.
Qed.

Lemma no_colon_cons (c : ascii) (s : string) :
  str_contains ":" (String c s) = false ->
  c <> ":"%char /\ str_contains ":" s = false.
Proof.
  cbn [str_contains]. rewrite prefix_colon. intro H.
  apply orb_false_iff in H. destruct H as [Hc Hs].
  split; [now apply Ascii.eqb_neq | exact Hs].
Qed.

Lemma no_colon_app (a b : string) :
  str_contains ":" a = false -> str_contains ":" b = false ->
  str_contains ":" (a ++ b) = false.
Proof.
  intros Ha Hb. induction a as [| c a IH]; [exact Hb |].
  apply no_colon_cons in Ha. destruct Ha as [Hc Ha].
  cbn [append str_contains]. rewrite prefix_colon, (IH Ha).
  apply Ascii.eqb_neq in Hc. now rewrite Hc.
Qed.

(** Two ways of cutting a text at a colon with no colon before it agree. *)
Lemma cut_at_first_colon (a a' b b' : string) :
  str_contains ":" a = false -> str_contains ":" a' = false ->
  (a ++ String ":" b = a' ++ String ":" b')%string -> a = a'.
Proof.
  revert a'. induction a as [| c a IH]; intros [| c' a'] Ha Ha' H;
    cbn [append] in H.
  - reflexivity.
  - injection H as Hc _. apply no_colon_cons in Ha'. destruct Ha' as [Hne _].
    now elim Hne.
  - injection H as Hc _. apply no_colon_cons in Ha. destruct Ha as [Hne _].
    now elim Hne.
  - injection H as -> H. apply no_colon_cons in Ha, Ha'.
    f_equal. apply (IH a'); tauto.
Qed.

(** No placeholder type ends with another one. *)
Lemma placeholder_type_not_suffix (c : ascii) (pre t p : string) :
  In t ["AWS-PARAMETER"; "AWS-SECRET"; "ENV"]%string ->
  In p ["AWS-PARAMETER"; "AWS-SECRET"; "ENV"]%string ->
  (String c pre ++ t)%string <> p.
Proof.
  intros Ht Hp H.
  destruct Ht as [<- | [<- | [<- | []]]];
    destruct Hp as [<- | [<- | [<- | []]]];
    cbn [append] in H; injection H as _ H;
    repeat (destruct pre as [| ? pre]; cbn [append] in H;
            [discriminate H | injection H as _ H]);
    destruct pre; discriminate H.
Qed.

Lemma no_match_before (c : ascii) (pre t rest : string) :
  str_contains ":" (String c pre) = false ->
  In t ["AWS-PARAMETER"; "AWS-SECRET"; "ENV"]%string ->
  match_here (String c pre ++ t ++ "::" ++ rest) = None.
Proof.
  intros Hpre Ht.
  assert (Ht0 : str_contains ":" t = false)
    by (destruct Ht as [<- | [<- | [<- | []]]]; reflexivity).
  assert (G : forall p, In p ["AWS-PARAMETER"; "AWS-SECRET"; "ENV"]%string ->
                match_alternative p (String c pre ++ t ++ "::" ++ rest)
                = None).
  { intros p Hp. unfold match_alternative.
    destruct (after_prefix (p ++ "::") _) as [r |] eqn:E; [| reflexivity].
    exfalso. apply after_prefix_app in E.
    rewrite append_assoc in E. rewrite <- (append_assoc (String c pre)) in E.
    apply cut_at_first_colon in E.
    - now apply (placeholder_type_not_suffix c pre t p).
    - now apply no_colon_app.
    - destruct Hp as [<- | [<- | [<- | []]]]; reflexivity. }
  unfold match_here. rewrite !G by (simpl; tauto). reflexivity.
Qed.

Lemma prefix_marker (s : string) :
  String.prefix "::" s = true -> exists r, s = String ":" (String ":" r).
Proof.
  destruct s as [| c [| c' r]]; cbn [String.prefix]; try discriminate.
  - destruct (ascii_dec ":" c); discriminate.
  - destruct (ascii_dec ":" c) as [<- |]; [| discriminate].
    destruct (ascii_dec ":" c') as [<- |]; [| discriminate].
    intros _. now exists r.
Qed.

Lemma prefix_marker_here (r : string) :
  String.prefix "::" (String ":" (String ":" r)) = true.
Proof.
  cbn [String.prefix].
  destruct (ascii_dec ":" ":") as [_ | H]; [| now elim H].
  destruct (ascii_dec ":" ":") as [_ | H]; [| now elim H].
  now destruct r.
Qed.

Lemma no_marker_cons (c : ascii) (s : string) :
  str_contains "::" (String c s) = false ->
  String.prefix "::" (String c s) = false /\ str_contains "::" s = false.
Proof. cbn [str_contains]. intro H. now apply orb_false_iff in H. Qed.

(** Two ways of cutting a text at its first "::" agree. *)
Lemma cut_at_first_marker (a a' b b' : string) :
  str_contains "::" (a ++ ":") = false ->
  str_contains "::" (a' ++ ":") = false ->
  a ++ "::" ++ b = a' ++ "::" ++ b' -> a = a'.
Proof.
  revert a'. induction a as [| c a IH]; intros [| c' a'] Ha Ha' H;
    cbn [append] in H.
  - reflexivity.
  - exfalso. injection H as <- H. cbn [append] in Ha'.
    apply no_marker_cons in Ha'. destruct Ha' as [Ha' _].
    destruct a' as [| c'' a']; cbn [append] in H, Ha'.
    + now rewrite prefix_marker_here in Ha'.
    + injection H as <- _. now rewrite prefix_marker_here in Ha'.
  - exfalso. injection H as -> H. cbn [append] in Ha.
    apply no_marker_cons in Ha. destruct Ha as [Ha _].
    destruct a as [| c'' a]; cbn [append] in H, Ha.
    + now rewrite prefix_marker_here in Ha.
    + injection H as -> _. now rewrite prefix_marker_here in Ha.
  - injection H as -> H. cbn [append] in Ha, Ha'.
    apply no_marker_cons in Ha, Ha'. f_equal. apply (IH a'); tauto.
Qed.

(** A text without "::" still has none when a text without "::" that does
    not begin with a colon is put after it. *)
Lemma no_marker_app (a b : string) :
  str_contains "::" a = false -> str_contains "::" b = false ->
  String.prefix ":" b = false ->
  str_contains "::" (a ++ b) = false.
Proof.
  intros Ha Hb Hb0. induction a as [| c a IH]; [exact Hb |].
  apply no_marker_cons in Ha. destruct Ha as [Hc Ha].
  cbn [append str_contains]. rewrite (IH Ha), orb_false_r.
  destruct (String.prefix "::" (String c (a ++ b))) eqn:E; [| reflexivity].
  exfalso. apply prefix_marker in E. destruct E as [r E].
  injection E as -> E.
  destruct a as [| c' a]; cbn [append] in E.
  - subst b. rewrite prefix_colon in Hb0. discriminate.
  - injection E as -> _. now rewrite prefix_marker_here in Hc.
Qed.

Lemma no_match_before_marker (c : ascii) (pre t rest : string) :
  str_contains "::" (String c pre) = false ->
  In t ["AWS-PARAMETER"; "AWS-SECRET"; "ENV"]%string ->
  match_here (String c pre ++ t ++ "::" ++ rest) = None.
Proof.
  intros Hpre Ht.
  assert (G : forall p, In p ["AWS-PARAMETER"; "AWS-SECRET"; "ENV"]%string ->
                match_alternative p (String c pre ++ t ++ "::" ++ rest)
                = None).
  { intros p Hp. unfold match_alternative.
    destruct (after_prefix (p ++ "::") _) as [r |] eqn:E; [| reflexivity].
    exfalso. apply after_prefix_app in E.
    rewrite append_assoc in E. rewrite <- (append_assoc (String c pre)) in E.
    apply cut_at_first_marker in E.
    - now apply (placeholder_type_not_suffix c pre t p).
    - rewrite append_assoc. apply no_marker_app; [exact Hpre | |];
        destruct Ht as [<- | [<- | [<- | []]]]; reflexivity.
    - destruct Hp as [<- | [<- | [<- | []]]]; reflexivity. }
  unfold match_here. rewrite !G by (simpl; tauto). reflexivity.
Qed.

(** X26.  Up to and including the first placeholder: the text before it (here:
    a text without colon) is copied; the name of the placeholder is the
    longest run of name characters; the placeholder is replaced by what the
    lookup for its type returns, that value is not scanned again, and
    processing goes on after the name. If the lookup raises, processing stops
    with that exception. *)
Theorem process_placeholders_first (sv : services) (region : option string)
  (before placeholder_type name post : string) :
  str_contains ":" before = false ->
  In placeholder_type ["AWS-PARAMETER"; "AWS-SECRET"; "ENV"]%string ->
  name <> ""%string ->
  name_prefix name = name ->
  name_prefix post = ""%string ->
  process_placeholders sv
    (before ++ placeholder_type ++ "::" ++ name ++ post) region =
  and_next
    (replace_placeholder sv region placeholder_type name
       (placeholder_type ++ "::" ++ name))
    (fun value =>
       and_next (process_placeholders sv post region)
         (fun tail => Returned (before ++ value ++ tail))).
Proof.
  intros Hbefore Htype Hne Hname Hpost. unfold process_placeholders.
  induction before as [| c before IH].
  - pose proof (name_prefix_app name post Hname Hpost) as Hrun.
    assert (Hempty : (name =? "")%string = false)
      by now apply String.eqb_neq.
    apply re_sub_match.
    + destruct Htype as [<- | [<- | [<- | []]]]; discriminate.
    + unfold match_here, match_alternative.
      destruct Htype as [<- | [<- | [<- | []]]];
        cbn [append after_prefix Ascii.eqb Bool.eqb];
        now rewrite Hrun, Hempty.
  - pose proof (no_match_before c before placeholder_type (name ++ post)
                  Hbefore Htype) as Hnone.
    apply no_colon_cons in Hbefore. destruct Hbefore as [_ Hbefore].
    specialize (IH Hbefore). cbn [append] in Hnone, IH.
    cbn [append re_sub]. rewrite Hnone, IH.
    destruct (replace_placeholder _ _ _ _ _); cbn [and_next];
      [| reflexivity].
    destruct (re_sub _ post 0); reflexivity.
Qed.

(** X27.  When the text before it holds no "::", and so no placeholder, a
    placeholder for an environment variable that is not set stops the
    processing with [ValueError] naming the variable; nothing is returned for
    the text around it. *)
Theorem process_placeholders_missing_env (sv : services)
  (region : option string) (before name post : string) :
  str_contains "::" before = false ->
  name <> ""%string ->
  name_prefix name = name ->
  name_prefix post = ""%string ->
  environ_get sv name = None ->
  process_placeholders sv (before ++ "ENV::" ++ name ++ post) region =
  Raised ValueError ("Environment variable '" ++ name ++ "' not found").
Proof.
  intros Hbefore Hne Hname Hpost Henv.
  unfold process_placeholders.
  induction before as [| c before IH].
  - pose proof (name_prefix_app name post Hname Hpost) as Hrun.
    assert (Hempty : (name =? "")%string = false)
      by now apply String.eqb_neq.
    change ("" ++ "ENV::" ++ name ++ post)%string
      with ("ENV" ++ "::" ++ name ++ post)%string.
    rewrite re_sub_match.
    + unfold replace_placeholder, get_env_var. cbn [String.eqb Ascii.eqb
                                                       Bool.eqb].
      now rewrite Henv.
    + discriminate.
    + unfold match_here, match_alternative.
      cbn [append after_prefix Ascii.eqb Bool.eqb].
      now rewrite Hrun, Hempty.
  - pose proof (no_match_before_marker c before "ENV" (name ++ post) Hbefore
                  ltac:(simpl; tauto)) as Hnone.
    apply no_marker_cons in Hbefore. destruct Hbefore as [_ Hbefore].
    specialize (IH Hbefore). cbn [append] in Hnone, IH.
    cbn [append re_sub]. rewrite Hnone, IH. reflexivity.
Qed.

(** * The model on sample inputs *)

Lemma dedup_In (l : list string) (k : string) : In k (dedup l) <-> In k l.
Proof.
  induction l as [| x l IH]; simpl; [tauto |].
  destruct (existsb (String.eqb x) l) eqn:E.
  - rewrite IH. split; [now right |]. intros [<- | H]; [| exact H].
    apply existsb_exists in E. destruct E as [y [Hy Heq]].
    apply String.eqb_eq in Heq. now subst.
  - simpl. rewrite IH. tauto.
Qed.

Lemma dedup_NoDup (l : list string) : NoDup (dedup l).
Proof.
  induction l as [| x l IH]; simpl; [constructor |].
  destruct (existsb (String.eqb x) l) eqn:E; [exact IH |].
  constructor; [| exact IH]. rewrite dedup_In. intro Hin.
  assert (existsb (String.eqb x) l = true); [| congruence].
  apply existsb_exists. exists x. split; [exact Hin | apply String.eqb_refl].
Qed.

Lemma sample_set_order_In (l : list string) (k : string) :
  In k (sample_set_order l) <-> In k l.
Proof. apply dedup_In. Qed.

Lemma sample_set_order_NoDup (l : list string) : NoDup (sample_set_order l).
Proof. apply dedup_NoDup. Qed.

(** ** [get_action_emoji] *)

(** C10, as stated, fails: the list ["replace"] is labelled REPLACE. *)
Lemma get_action_emoji_replace_literal :
  get_action_emoji (VList [VStr "replace"]) = Ok label_replace.
Proof. reflexivity. Qed.

Lemma get_action_emoji_create_delete_sample :
  get_action_emoji (VList [VStr "create"; VStr "delete"]) = Ok label_create
  /\ get_action_emoji (VList [VStr "create"; VStr "delete"])
     <> Ok label_replace.
Proof.
  pose proof (get_action_emoji_create_shadows_replace
                [VStr "create"; VStr "delete"]) as (Hcreate & Hnot & _).
  split.
  - apply Hcreate. simpl. left. reflexivity.
  - apply Hnot; simpl; [left | right; left]; reflexivity.
Defined.

(** ** [format_value] *)

(** C8, as stated, fails: six elements give "List with 6 items". *)
Lemma format_value_six_items :
  format_value sample_float_repr sample_container_repr six_items 0
  = "List with 6 items" /\
  format_value sample_float_repr sample_container_repr six_items 0
  <> "Sequence with 6 items".
Proof. split; [reflexivity | discriminate]. Qed.

Lemma format_value_list_sample :
  format_value sample_float_repr sample_container_repr six_items 0
  = "List with 6 items" /\
  format_value sample_float_repr sample_container_repr
    (VList [VList [VStr "a"; VNone]; VStr "b"]) 1
  = "  `a`,, `b`".
Proof.
  split.
  - apply (proj1 (proj2 (format_value_list sample_float_repr
                           sample_container_repr
                           [VInt 1; VInt 2; VInt 3; VInt 4; VInt 5; VInt 6]
                           0))).
    simpl. lia.
  - apply (proj2 (proj2 (format_value_list sample_float_repr
                           sample_container_repr
                           [VList [VStr "a"; VNone]; VStr "b"] 1))).
    + discriminate.
    + simpl. lia.
Defined.

(** ** [format_change] *)

Lemma format_change_sample :
  format_change sample_float_repr sample_container_repr
    (VStr "x") VNone "name" 1 = [] /\
  format_change sample_float_repr sample_container_repr
    (VStr "x") (VList [VNone]) "name" 1 = [].
Proof.
  split.
  - apply (proj1 (format_change_silent_without_after sample_float_repr
                    sample_container_repr (VStr "x") VNone "name" 1)).
    left. reflexivity.
  - apply (proj1 (proj2 (format_change_silent_without_after
                           sample_float_repr sample_container_repr
                           (VStr "x") (VList [VNone]) "name" 1))).
    reflexivity.
Defined.

(** ** Counting *)

Lemma count_resource_sample :
  count_resource zero_counts rc_update_tags
  = Ok (increment BUpdateTagsOnly zero_counts).
Proof.
  destruct (count_resource_precedence zero_counts rc_update_tags
              (VList [VStr "update"]) (VBool true) false false true false
              eq_refl eq_refl eq_refl eq_refl eq_refl eq_refl)
    as (b & Hrun & _ & _ & _ & _ & Htags & _).
  rewrite <- (Htags eq_refl eq_refl eq_refl eq_refl). exact Hrun.
Defined.

(** ** Output changes *)

(** C9, as stated, fails: the unchanged output [bucket_arn] keeps its heading
    in the report. *)
Lemma output_section_keeps_unchanged_output :
  convert_plan_to_markdown sample_float_repr sample_container_repr
    sample_str_title sample_set_order plan_two_outputs
  = Ok (str_join nl
          ["# Terraform Summary"; "";
           "## Summary"; "";
           "- ➕ **Create**: 1 resource(s)";
           "- 🔄 **Update**: 0 resource(s)";
           "- 🔁 **Replace**: 0 resource(s)";
           "- 🗑️ **Delete**: 0 resource(s)"; "";
           "## Detailed Changes"; "";
           "### ➕ Resources to Create"; "";
           "#### `aws_s3_bucket.b`"; "";
           "**Type**: `aws_s3_bucket`"; "";
           "---"; "";
           "## Output Changes"; "";
           "### ⚪ **NO-OP** `bucket_arn`"; ""; "";
           "### 🔄 **UPDATE** `db_password`"; "";
           "Value: `(sensitive)`"; "";
           "*Generated from Terraform plan JSON output*"]) /\
  py_get plan_two_outputs "output_changes" (VDict []) = Ok (VDict two_outputs)
  /\
  py_ne (VStr "arn:x") (VStr "arn:x") = false /\
  forall report,
    convert_plan_to_markdown sample_float_repr sample_container_repr
      sample_str_title sample_set_order plan_two_outputs = Ok report ->
    str_contains "### ⚪ **NO-OP** `bucket_arn`" report = true.
Proof.
  split; [vm_compute; reflexivity |]. split; [reflexivity |].
  split; [reflexivity |].
  intros report H. vm_compute in H. injection H as <-.
  vm_compute. reflexivity.
Qed.

Lemma output_changes_rendered_sample :
  exists above blocks,
    Forall2 (output_block sample_float_repr sample_container_repr)
      two_outputs blocks /\
    str_join nl
      ["# Terraform Summary"; "";
       "## Summary"; "";
       "- ➕ **Create**: 1 resource(s)";
       "- 🔄 **Update**: 0 resource(s)";
       "- 🔁 **Replace**: 0 resource(s)";
       "- 🗑️ **Delete**: 0 resource(s)"; "";
       "## Detailed Changes"; "";
       "### ➕ Resources to Create"; "";
       "#### `aws_s3_bucket.b`"; "";
       "**Type**: `aws_s3_bucket`"; "";
       "---"; "";
       "## Output Changes"; "";
       "### ⚪ **NO-OP** `bucket_arn`"; ""; "";
       "### 🔄 **UPDATE** `db_password`"; "";
       "Value: `(sensitive)`"; "";
       "*Generated from Terraform plan JSON output*"] =
    str_join nl
      (above ++ (["## Output Changes"; ""] ++ List.concat blocks)
             ++ [footer])%list.
Proof.
  exact (output_changes_rendered sample_float_repr sample_container_repr
           sample_str_title sample_set_order plan_two_outputs
           (VList [VDict [("address", VStr "aws_s3_bucket.b");
                          ("type", VStr "aws_s3_bucket");
                          ("change",
                           VDict [("actions", VList [VStr "create"])])]])
           two_outputs _ eq_refl eq_refl eq_refl eq_refl).
Defined.

(** ** Format detection *)

(** C6, as stated, fails: after a blank first line the detector answers
    "unknown", while the first non-blank line is a full document. *)
Lemma detect_json_format_blank_first_line :
  detect_json_format sample_json_loads doc_blank_then_show = Ok "unknown" /\
  first_non_blank_line doc_blank_then_show = text_show_document /\
  detect_on_first_non_blank_line sample_json_loads doc_blank_then_show
  = Ok "show".
Proof. repeat split; reflexivity. Qed.

(** A blank first line; a full document on the first line, bare and between
    no-break spaces; a first line on which the parser raises [ValueError]. *)
Lemma detect_json_format_sample :
  detect_json_format sample_json_loads doc_blank_then_show = Ok "unknown" /\
  detect_json_format sample_json_loads text_show_document = Ok "show" /\
  detect_json_format sample_json_loads doc_nbsp_show = Ok "show" /\
  load_plan sample_json_loads sample_set_order doc_blank_then_show
  = parse_terraform_json_lines sample_json_loads doc_blank_then_show /\
  detect_json_format stream_json_loads (text_long_integer ++ nl)
  = Raise ValueError /\
  load_plan stream_json_loads sample_set_order (text_long_integer ++ nl)
  = Raise ValueError.
Proof.
  pose proof (detect_json_format_first_line sample_json_loads
                sample_set_order doc_blank_then_show) as (Hnone & _ & Hcall & _).
  pose proof (detect_json_format_first_line sample_json_loads
                sample_set_order text_show_document) as (_ & Hobj & _).
  pose proof (detect_json_format_first_line sample_json_loads
                sample_set_order doc_nbsp_show) as (_ & Hnbsp & _).
  pose proof (detect_json_format_first_line stream_json_loads
                sample_set_order (text_long_integer ++ nl))
    as (_ & _ & _ & Hother).
  split; [| split; [| split; [| split]]].
  - apply Hnone. reflexivity.
  - destruct (Hobj [("terraform_version", VStr "1.5.0")] eq_refl)
      as (_ & Hshow & _).
    apply Hshow.
    + simpl. intros [H | []]. discriminate H.
    + simpl. intros [H | []]. discriminate H.
    + left. simpl. left. reflexivity.
  - destruct (Hnbsp [("terraform_version", VStr "1.5.0")] eq_refl)
      as (_ & Hshow & _).
    apply Hshow.
    + simpl. intros [H | []]. discriminate H.
    + simpl. intros [H | []]. discriminate H.
    + left. simpl. left. reflexivity.
  - apply Hcall. left. apply Hnone. reflexivity.
  - apply (Hother ValueError); [vm_compute; reflexivity | discriminate].
Defined.

(** ** Tags-only detection *)



(** ** The tag aggregator *)

(** The record [rc_tag_added], the only tags-only record, gets count 2 for
    the key it gains. *)
Lemma extract_all_tag_changes_counts_both_fields :
  extract_all_tag_changes sample_float_repr sample_container_repr
    sample_set_order [rc_tag_added]
  = Ok [("Owner", SingleChange VNone (VStr "x") 2 false)] /\
  rc_key_pairs "Owner" rc_tag_added
  = [(VNone, VStr "x"); (VNone, VStr "x")] /\
  lookup "Owner" [("Owner", SingleChange VNone (VStr "x") 2 false)]
  = Some (SingleChange VNone (VStr "x") 2 false).
Proof.
  split; [reflexivity |].
  exact (mirrored_added_tag_counted_twice sample_float_repr
           sample_container_repr sample_set_order
           sample_set_order_In sample_set_order_NoDup
           rc_tag_added
           [("actions", VList [VStr "update"]);
            ("before", VDict [("tags", VDict []); ("tags_all", VDict [])]);
            ("after", VDict [("tags", VDict [("Owner", VStr "x")]);
                             ("tags_all", VDict [("Owner", VStr "x")])])]
           [("tags", VDict []); ("tags_all", VDict [])]
           [("tags", VDict [("Owner", VStr "x")]);
            ("tags_all", VDict [("Owner", VStr "x")])]
           [("Owner", VStr "x")] [("Owner", VStr "x")]
           "Owner" (VStr "x")
           [("Owner", SingleChange VNone (VStr "x") 2 false)]
           eq_refl eq_refl eq_refl eq_refl eq_refl eq_refl eq_refl eq_refl
           eq_refl eq_refl eq_refl eq_refl).
Defined.

(** The records [rc_env_added] and [rc_env_from_none_text] are the two
    tags-only records; their pairs for "Env" differ and are reported as one
    common change. *)
Lemma same_text_pairs_sample :
  rc_key_pairs "Env" rc_env_added = [(VNone, VStr "x")] /\
  rc_key_pairs "Env" rc_env_from_none_text = [(VStr "None", VStr "x")] /\
  extract_all_tag_changes sample_float_repr sample_container_repr
    sample_set_order [rc_env_added; rc_streamed_create; rc_env_from_none_text]
  = Ok [("Env", SingleChange VNone (VStr "x") 2 true)] /\
  lookup "Env" [("Env", SingleChange VNone (VStr "x") 2 true)]
  = Some (SingleChange VNone (VStr "x") 2 true).
Proof.
  split; [reflexivity |]. split; [reflexivity |]. split; [reflexivity |].
  apply (same_text_pairs_reported_common sample_float_repr
           sample_container_repr sample_set_order
           sample_set_order_In sample_set_order_NoDup
           [rc_env_added; rc_streamed_create; rc_env_from_none_text]
           rc_env_added rc_env_from_none_text "Env"
           VNone (VStr "x") (VStr "None") (VStr "x")).
  - repeat constructor; eexists; reflexivity.
  - reflexivity.
  - reflexivity.
  - reflexivity.
  - discriminate.
  - reflexivity.
  - reflexivity.
Defined.

Lemma extract_all_tag_changes_sample :
  exists summary,
    extract_all_tag_changes sample_float_repr sample_container_repr
      sample_set_order [rc_update_tags] = Ok summary /\
    lookup "Name" summary = Some (SingleChange (VStr "a") (VStr "b") 1 true).
Proof.
  destruct (extract_all_tag_changes_classifies sample_float_repr
              sample_container_repr sample_set_order
              sample_set_order_In sample_set_order_NoDup
              [rc_update_tags] [rc_update_tags]
              [("Name", [("a→b", mk_group (VStr "a") (VStr "b") 1)])]
              "Name" [("a→b", mk_group (VStr "a") (VStr "b") 1)]
              eq_refl ltac:(discriminate) eq_refl eq_refl)
    as (summary & entry & Hrun & Hlook & _ & _ & _ & Hcommon & _).
  exists summary. split; [exact Hrun |].
  rewrite Hlook. f_equal.
  exact (Hcommon "a→b" (mk_group (VStr "a") (VStr "b") 1) eq_refl eq_refl).
Defined.

(** ** The line-oriented parser *)

Lemma parse_json_lines_sample :
  exists plan_data rcs r,
    parse_terraform_json_lines sample_json_loads doc_create_then_update
    = Ok plan_data /\
    py_get plan_data "resource_changes" (VList []) = Ok (VList rcs) /\
    filter (fun rc => py_eq (rc_address rc) (VStr "aws_s3_bucket.b")) rcs
    = [r] /\
    rc_actions r = Ok (VList [VStr "update"]).
Proof.
  destruct (parse_terraform_json_lines sample_json_loads
              doc_create_then_update) as [plan_data |] eqn:Hrun;
    [| discriminate Hrun].
  destruct (parse_json_lines_last_write_wins sample_json_loads
              doc_create_then_update plan_data Hrun)
    as (_ & rcs & Hget & _ & _ & _ & Hlast).
  destruct (effective_change (value_planned_change "update"))
    as [[a r] |] eqn:He; [| discriminate He].
  assert (Ha : a = VStr "aws_s3_bucket.b")
    by (vm_compute in He; now injection He as <- _).
  subst a.
  destruct (Hlast [value_planned_change "create"]
              [("type", VStr "planned_change");
               ("change", VDict [("resource",
                                  VDict [("addr", VStr "aws_s3_bucket.b")]);
                                 ("action", VStr "update")])]
              [("resource", VDict [("addr", VStr "aws_s3_bucket.b")]);
               ("action", VStr "update")]
              [] (VStr "aws_s3_bucket.b") r eq_refl eq_refl He
              ltac:(intros e' a' r' [])) as (Hfilter & Hactions).
  exists plan_data, rcs, r. repeat split; assumption.
Defined.

(** ** Counting and the detailed groups *)

Lemma count_actions_total_sample :
  count_actions [rc_update_tags; rc_update_read_tags; rc_streamed_create]
  = Ok (mk_counts 1 0 1 1 0 0 0) /\
  total_count (mk_counts 1 0 1 1 0 0 0) = 3%nat.
Proof.
  split; [reflexivity |].
  exact (count_actions_total
           [rc_update_tags; rc_update_read_tags; rc_streamed_create]
           (mk_counts 1 0 1 1 0 0 0) eq_refl).
Defined.

(** The tags-only record [rc_update_tags] is listed under no group; the
    streamed create is listed under Create only; the record with actions
    "create" and "update" is counted as create and listed under Create and
    under Update. *)
Lemma detail_group_sample :
  (in_action_group "create" rc_update_tags = Ok false /\
   in_action_group "replace" rc_update_tags = Ok false /\
   in_action_group "delete" rc_update_tags = Ok false /\
   in_action_group "update" rc_update_tags = Ok false) /\
  (in_action_group "create" rc_streamed_create = Ok true /\
   in_action_group "replace" rc_streamed_create = Ok false /\
   in_action_group "delete" rc_streamed_create = Ok false /\
   in_action_group "update" rc_streamed_create = Ok false) /\
  (count_resource zero_counts rc_create_update
   = Ok (increment BCreate zero_counts) /\
   in_action_group "create" rc_create_update = Ok true /\
   in_action_group "update" rc_create_update = Ok true).
Proof.
  split; [| split].
  - destruct (detail_group_agrees_with_bucket zero_counts rc_update_tags
                BUpdateTagsOnly eq_refl)
      as (actions & t & u & _ & _ & _ & H).
    exact H.
  - destruct (detail_group_agrees_with_bucket zero_counts rc_streamed_create
                BCreate eq_refl)
      as (actions & t & u & Ha & Ht & Hu & Hc & Hr & Hd & Hup).
    cbv in Ha. injection Ha as <-. cbv in Ht. injection Ht as <-.
    cbv in Hu. injection Hu as <-.
    split; [exact Hc | split; [exact Hr | split; [exact Hd | exact Hup]]].
  - destruct (detail_group_agrees_with_bucket zero_counts rc_create_update
                BCreate eq_refl)
      as (actions & t & u & Ha & Ht & Hu & Hc & _ & _ & Hup).
    cbv in Ha. injection Ha as <-. cbv in Ht. injection Ht as <-.
    cbv in Hu. injection Hu as <-.
    split; [reflexivity | split; [exact Hc | exact Hup]].
Defined.

(** ** The detail sections *)

Lemma deletion_block_sample :
  deletion_block sample_float_repr sample_container_repr sample_str_title rc_delete_db
    change_delete_db []
  = Ok ["**Reason**: Delete Because No Resource Config"; "";
        "**Resource being deleted**:"; ""; "  - **name**: `db`";
        "  - **password**: `hunter2`"; ""] /\
  exists reason_lines attr_lines,
    ["**Reason**: Delete Because No Resource Config"; "";
     "**Resource being deleted**:"; ""; "  - **name**: `db`";
     "  - **password**: `hunter2`"; ""] =
    ([] ++ reason_lines ++
     match attr_lines with
     | [] => []
     | _ => ["**Resource being deleted**:"; ""] ++ attr_lines ++ [""]
     end)%list /\
    (reason_lines = [] \/
     exists text, reason_lines = [("**Reason**: " ++ text)%string; ""]) /\
    (List.length attr_lines <= 10)%nat.
Proof.
  split; [reflexivity |].
  exact (deletion_block_bounded sample_float_repr sample_container_repr sample_str_title
           rc_delete_db change_delete_db [] _ eq_refl).
Defined.

(** The deleted database shows its password although it is flagged. *)
Lemma deletion_block_shows_flagged_sample :
  deletion_block sample_float_repr sample_container_repr sample_str_title rc_delete_db
    change_delete_db []
  = deletion_block sample_float_repr sample_container_repr sample_str_title rc_delete_db
      (VDict [("actions", VList [VStr "delete"]);
              ("before",
               VDict [("name", VStr "db"); ("password", VStr "hunter2")]);
              ("action_reason", VStr "delete_because_no_resource_config")])
      [].
Proof.
  exact (deletion_block_ignores_sensitivity sample_float_repr
           sample_container_repr sample_str_title rc_delete_db
           [("actions", VList [VStr "delete"]);
            ("before",
             VDict [("name", VStr "db"); ("password", VStr "hunter2")]);
            ("action_reason", VStr "delete_because_no_resource_config")]
           (VDict [("password", VBool true)]) (VBool false) []).
Defined.

Lemma process_change_sample :
  process_change sample_float_repr sample_container_repr sample_set_order
    (change_password "old" "new")
  = process_change sample_float_repr sample_container_repr sample_set_order
      (change_password "hunter2" "hunter3") /\
  exists lines,
    process_change sample_float_repr sample_container_repr sample_set_order
      (change_password "old" "new") = Ok lines /\
    In "  - **password**: `(sensitive value)`" lines.
Proof.
  exact (process_change_hides_sensitive sample_float_repr
           sample_container_repr sample_set_order sample_set_order_In
           (change_password "old" "new") (change_password "hunter2" "hunter3")
           [("name", VStr "db")] [("name", VStr "db")]
           (VDict []) (VDict [("password", VBool true)]) "password"
           (VStr "old") (VStr "new") (VStr "hunter2") (VStr "hunter3")
           eq_refl eq_refl eq_refl eq_refl eq_refl eq_refl eq_refl eq_refl
           eq_refl eq_refl eq_refl).
Defined.

Lemma configuration_block_sample :
  configuration_block sample_float_repr sample_container_repr
    (change_password "old" "new") []
  = configuration_block sample_float_repr sample_container_repr
      (change_password "old" "hunter3") [].
Proof.
  exact (configuration_block_hides_sensitive sample_float_repr
           sample_container_repr
           (change_password "old" "new") (change_password "old" "hunter3")
           [("name", VStr "db")] (VDict [("password", VBool true)])
           (VBool true) "password" (VStr "new") (VStr "hunter3") []
           eq_refl eq_refl eq_refl eq_refl eq_refl eq_refl).
Defined.

Lemma replacement_block_sample :
  exists attrs,
    replacement_block sample_float_repr sample_container_repr
      change_replace_paths []
    = Ok ([] ++
          match attrs with
          | [] => []
          | _ => ["**Attributes forcing replacement**:"; ""] ++
                 map (fun a => ("  - `" ++ a ++ "`")%string) attrs ++ [""]
          end)%list /\
    NoDup attrs /\
    Sorted (fun a b => String.leb a b = true) attrs /\
    forall a, In a attrs <->
              In a (flat_map first_attr
                      [VList [VStr "name_prefix"]; VList [VStr "ami"];
                       VList [VStr "name_prefix"; VStr "x"]; VList []]).
Proof.
  apply (replacement_block_sorted_attrs sample_float_repr
           sample_container_repr change_replace_paths
           [VList [VStr "name_prefix"]; VList [VStr "ami"];
            VList [VStr "name_prefix"; VStr "x"]; VList []] []).
  - reflexivity.
  - repeat constructor.
Defined.

(** ** The report *)

Lemma no_resource_changes_sample :
  convert_plan_to_markdown sample_float_repr sample_container_repr sample_str_title
    sample_set_order
    (VDict [("resource_changes", VList []);
            ("output_changes",
             VDict [("db_password",
                     VDict [("actions", VList [VStr "update"]);
                            ("before", VStr "old");
                            ("after", VStr "new")])])])
  = convert_plan_to_markdown sample_float_repr sample_container_repr sample_str_title
      sample_set_order (VDict [("resource_changes", VList [])]).
Proof.
  exact (no_resource_changes_hides_outputs sample_float_repr
           sample_container_repr sample_str_title sample_set_order
           [("resource_changes", VList [])]
           (VDict [("db_password",
                    VDict [("actions", VList [VStr "update"]);
                           ("before", VStr "old");
                           ("after", VStr "new")])])
           eq_refl).
Defined.

Lemma report_frame_sample :
  exists report resource_changes body,
    convert_plan_to_markdown sample_float_repr sample_container_repr sample_str_title
      sample_set_order plan_one_create = Ok report /\
    py_get plan_one_create "resource_changes" (VList [])
    = Ok resource_changes /\
    report =
    str_join nl
      (["# Terraform Summary"; ""] ++ body ++
       [if truthy resource_changes then footer
        else "No resource changes detected."])%list.
Proof.
  destruct (convert_plan_to_markdown sample_float_repr sample_container_repr sample_str_title
              sample_set_order plan_one_create) as [report |] eqn:Hrun;
    [| discriminate Hrun].
  destruct (report_frame sample_float_repr sample_container_repr sample_str_title
              sample_set_order plan_one_create report Hrun)
    as (resource_changes & body & Hget & Hframe).
  exists report, resource_changes, body. repeat split; assumption.
Defined.

(** ** The line-oriented parser *)

Lemma parse_json_lines_errors_sample :
  exists plan_data,
    parse_terraform_json_lines stream_json_loads doc_stream = Ok plan_data /\
    py_get plan_data "errors" (VList []) = Ok (VList [value_error_event]).
Proof.
  destruct (parse_terraform_json_lines stream_json_loads doc_stream)
    as [plan_data |] eqn:Hrun; [| discriminate Hrun].
  exists plan_data. split; [reflexivity |].
  exact (parse_json_lines_errors stream_json_loads doc_stream plan_data Hrun).
Defined.

Lemma parse_json_lines_version_sample :
  exists plan_data,
    parse_terraform_json_lines stream_json_loads doc_stream = Ok plan_data /\
    py_get1 plan_data "terraform_version" = Ok (VStr "1.9.0") /\
    version_section sample_float_repr sample_container_repr plan_data []
    = Ok ["**Terraform Version**: `1.9.0`"; ""].
Proof.
  destruct (parse_terraform_json_lines stream_json_loads doc_stream)
    as [plan_data |] eqn:Hrun; [| discriminate Hrun].
  exists plan_data. split; [reflexivity |].
  exact (parse_json_lines_version sample_float_repr sample_container_repr
           stream_json_loads doc_stream plan_data [] Hrun).
Defined.

Lemma parse_json_lines_never_tags_only_sample :
  exists plan_data rcs,
    parse_terraform_json_lines stream_json_loads doc_stream = Ok plan_data /\
    py_get plan_data "resource_changes" (VList []) = Ok (VList rcs) /\
    Forall streamed_record rcs /\
    forall counts md_lines,
      count_actions rcs = Ok counts ->
      n_update_tags_only counts = 0%nat /\
      tag_summary_section sample_float_repr sample_container_repr
        sample_set_order counts rcs md_lines = Ok md_lines.
Proof.
  destruct (parse_terraform_json_lines stream_json_loads doc_stream)
    as [plan_data |] eqn:Hrun; [| discriminate Hrun].
  destruct (parse_json_lines_never_tags_only sample_float_repr
              sample_container_repr stream_json_loads sample_set_order
              doc_stream plan_data Hrun) as (rcs & Hget & Hall & Hcount).
  exists plan_data, rcs. repeat split; try assumption; apply Hcount;
    assumption.
Defined.

Lemma parse_json_lines_non_object_line_sample :
  events_of_lines stream_json_loads (file_lines doc_number_line)
  = [value_version_event; VInt 5; value_planned_change "create"] /\
  parse_terraform_json_lines stream_json_loads doc_number_line
  = Raise AttributeError.
Proof.
  split; [reflexivity |].
  apply (parse_json_lines_non_object_line stream_json_loads doc_number_line
           [value_version_event] [value_planned_change "create"] (VInt 5)).
  - reflexivity.
  - constructor; [| constructor].
    exists [("type", VStr "version"); ("terraform", VStr "1.9.0")], [], [].
    repeat split; reflexivity.
  - reflexivity.
Defined.

(** The stream parses; with the long integer on its second line, the
    [ValueError] of the parser ends the run. *)
Lemma parse_terraform_json_lines_total_sample :
  (exists plan_data,
     parse_terraform_json_lines stream_json_loads doc_stream = Ok plan_data) /\
  parse_terraform_json_lines stream_json_loads doc_long_integer
  = Raise ValueError.
Proof.
  split.
  - apply (parse_terraform_json_lines_total stream_json_loads doc_stream);
      [| reflexivity].
    repeat constructor.
    + exists [("type", VStr "version"); ("terraform", VStr "1.9.0")], [], [].
      repeat split; reflexivity.
    + exists [("@level", VStr "error"); ("type", VStr "diagnostic");
              ("diagnostic", VDict [("summary", VStr "Invalid reference")])],
        [], [].
      repeat split; reflexivity.
    + exists [("type", VStr "planned_change");
              ("change",
               VDict [("resource", VDict [("addr", VStr "aws_s3_bucket.b")]);
                      ("action", VStr "create")])],
        [("resource", VDict [("addr", VStr "aws_s3_bucket.b")]);
         ("action", VStr "create")],
        [("addr", VStr "aws_s3_bucket.b")].
      repeat split; reflexivity.
  - apply (parse_terraform_json_lines_total stream_json_loads
             doc_long_integer); [| vm_compute; reflexivity].
    replace (events_of_lines stream_json_loads (file_lines doc_long_integer))
      with [value_version_event] by (vm_compute; reflexivity).
    repeat constructor.
    exists [("type", VStr "version"); ("terraform", VStr "1.9.0")], [], [].
    repeat split; reflexivity.
Defined.

Lemma render_file_nothing_parsed_sample :
  render_file sample_float_repr sample_container_repr sample_str_title stream_json_loads
    sample_set_order doc_pretty_printed
  = Ok (str_join nl ["# Terraform Summary"; "";
                     "**Terraform Version**: `None`"; "";
                     "No resource changes detected."]).
Proof.
  exact (render_file_nothing_parsed sample_float_repr sample_container_repr sample_str_title
           stream_json_loads sample_set_order doc_pretty_printed
           eq_refl eq_refl eq_refl).
Defined.

Lemma streamed_record_detail_sample :
  exists address resource_type,
    py_get1 rc_streamed_create "address" = Ok address /\
    py_get1 rc_streamed_create "type" = Ok resource_type /\
    render_resource sample_float_repr sample_container_repr sample_str_title sample_set_order
      "create" [] rc_streamed_create
    = Ok ([] ++
          [("#### `" ++ py_str sample_float_repr sample_container_repr address
              ++ "`")%string; "";
           ("**Type**: `"
              ++ py_str sample_float_repr sample_container_repr resource_type
              ++ "`")%string; "";
           "---"; ""])%list.
Proof.
  apply (streamed_record_detail sample_float_repr sample_container_repr sample_str_title
           sample_set_order sample_set_order_In "create" rc_streamed_create
           []).
  - now exists (VStr "aws_s3_bucket.b"), (VStr ""), (VStr ""), (VStr ""),
      (VList [VStr "create"]), VNone.
  - left. reflexivity.
Defined.

(** ** The full-document parser *)

Lemma mark_document_marks_sample :
  exists rcs',
    VDict [("resource_changes", VList [rc_update_tags])]
    = VDict (items_set [("resource_changes", VList [rc_update_tags_unmarked])]
               "resource_changes" (VList rcs')) /\
    Forall2 (fun rc rc' =>
               exists flag, tags_only_flag sample_set_order rc = Ok flag /\
                            py_setitem rc "tags_only" (VBool flag) = Ok rc')
            [rc_update_tags_unmarked] rcs'.
Proof.
  exact (mark_document_marks sample_set_order
           [("resource_changes", VList [rc_update_tags_unmarked])]
           [rc_update_tags_unmarked]
           (VDict [("resource_changes", VList [rc_update_tags])])
           eq_refl eq_refl).
Defined.

Lemma mark_document_idempotent_sample :
  mark_document sample_set_order
    (VDict [("resource_changes", VList [rc_update_tags])])
  = Ok (VDict [("resource_changes", VList [rc_update_tags])]).
Proof.
  exact (mark_document_idempotent sample_set_order
           (VDict [("resource_changes", VList [rc_update_tags_unmarked])])
           (VDict [("resource_changes", VList [rc_update_tags])]) eq_refl).
Defined.

Lemma marked_record_counted_sample :
  BUpdateTagsOnly = BUpdateTagsOnly <->
  tags_only_flag sample_set_order rc_update_tags_unmarked = Ok true.
Proof.
  exact (marked_record_counted_tags_only sample_set_order
           rc_update_tags_unmarked rc_update_tags zero_counts BUpdateTagsOnly
           eq_refl eq_refl).
Defined.

(** ** The tag aggregator *)

Lemma tag_counts_bounded_sample :
  (1 <= summary_total
          (MultipleChanges [mk_group (VStr "a") (VStr "b") 2;
                            mk_group (VStr "a") (VStr "c") 1])
     <= List.length [rc_update_tags; rc_update_tags_other; rc_update_tags])
  %nat.
Proof.
  apply (tag_counts_bounded sample_float_repr sample_container_repr
           sample_set_order sample_set_order_In sample_set_order_NoDup
           [rc_update_tags; rc_update_tags_other; rc_update_tags;
            rc_streamed_create]
           [rc_update_tags; rc_update_tags_other; rc_update_tags]
           [("Name",
             MultipleChanges [mk_group (VStr "a") (VStr "b") 2;
                              mk_group (VStr "a") (VStr "c") 1])]
           "Name").
  - reflexivity.
  - repeat constructor.
    + exists [("actions", VList [VStr "update"]);
              ("before", VDict [("tags", VDict [("Name", VStr "a")])]);
              ("after", VDict [("tags", VDict [("Name", VStr "b")])])],
        [("tags", VDict [("Name", VStr "a")])],
        [("tags", VDict [("Name", VStr "b")])],
        [("Name", VStr "a")], [("Name", VStr "b")].
      repeat split; try reflexivity. discriminate.
    + exists [("actions", VList [VStr "update"]);
              ("before", VDict [("tags", VDict [("Name", VStr "a")])]);
              ("after", VDict [("tags", VDict [("Name", VStr "c")])])],
        [("tags", VDict [("Name", VStr "a")])],
        [("tags", VDict [("Name", VStr "c")])],
        [("Name", VStr "a")], [("Name", VStr "c")].
      repeat split; try reflexivity. discriminate.
    + exists [("actions", VList [VStr "update"]);
              ("before", VDict [("tags", VDict [("Name", VStr "a")])]);
              ("after", VDict [("tags", VDict [("Name", VStr "b")])])],
        [("tags", VDict [("Name", VStr "a")])],
        [("tags", VDict [("Name", VStr "b")])],
        [("Name", VStr "a")], [("Name", VStr "b")].
      repeat split; try reflexivity. discriminate.
  - reflexivity.
  - reflexivity.
Defined.

Lemma common_tag_change_sample :
  lookup "Name" [("Name", SingleChange (VStr "a") (VStr "b") 2 true)]
  = Some (SingleChange (VStr "a") (VStr "b")
            (List.length [rc_update_tags; rc_update_tags]) true).
Proof.
  apply (common_tag_change sample_float_repr sample_container_repr
           sample_set_order sample_set_order_In sample_set_order_NoDup
           [rc_update_tags; rc_update_tags] "Name" "a" "b").
  - discriminate.
  - repeat constructor; exists (VBool true); split; reflexivity.
  - repeat constructor.
  - reflexivity.
Defined.

(** The odd record last but one, and the odd record first. *)
Lemma varied_tag_change_sample :
  lookup "Name"
    [("Name",
      MultipleChanges [mk_group (VStr "a") (VStr "b") 2;
                       mk_group (VStr "a") (VStr "c") 1])]
  = Some (MultipleChanges
            [mk_group (VStr "a") (VStr "b")
               (List.length ([rc_update_tags] ++ [rc_update_tags]));
             mk_group (VStr "a") (VStr "c") 1]) /\
  lookup "Name"
    [("Name",
      MultipleChanges [mk_group (VStr "a") (VStr "c") 1;
                       mk_group (VStr "a") (VStr "b") 2])]
  = Some (MultipleChanges
            [mk_group (VStr "a") (VStr "c") 1;
             mk_group (VStr "a") (VStr "b")
               (List.length [rc_update_tags; rc_update_tags])]).
Proof.
  split.
  - apply (varied_tag_change sample_float_repr sample_container_repr
             sample_set_order sample_set_order_In sample_set_order_NoDup
             [rc_update_tags] [rc_update_tags] rc_update_tags_other
             "Name" "a" "b" "c").
    + discriminate.
    + discriminate.
    + repeat constructor; exists (VBool true); split; reflexivity.
    + repeat constructor.
    + reflexivity.
    + reflexivity.
  - apply (varied_tag_change sample_float_repr sample_container_repr
             sample_set_order sample_set_order_In sample_set_order_NoDup
             [] [rc_update_tags; rc_update_tags] rc_update_tags_other
             "Name" "a" "b" "c").
    + discriminate.
    + discriminate.
    + repeat constructor; exists (VBool true); split; reflexivity.
    + repeat constructor.
    + reflexivity.
    + reflexivity.
Defined.

(** ** The template processor *)

Lemma process_placeholders_without_marker_sample :
  process_placeholders sample_services "port: AWS-PARAMETER:5432" None
  = Returned "port: AWS-PARAMETER:5432".
Proof.
  exact (process_placeholders_without_marker sample_services
           "port: AWS-PARAMETER:5432" None eq_refl).
Defined.

(** The placeholder is found inside a word; the value it gets, itself of the
    form of a placeholder, is left as it is. *)
Lemma process_placeholders_first_sample :
  process_placeholders sample_services "home=MYENV::HOME.d; AWS-SECRET:: x"
    None
  = Returned "home=MYENV::USER.d; AWS-SECRET:: x".
Proof.
  exact (process_placeholders_first sample_services None
           "home=MY" "ENV" "HOME" ".d; AWS-SECRET:: x"
           eq_refl (or_intror (or_intror (or_introl eq_refl)))
           ltac:(discriminate) eq_refl eq_refl).
Defined.

Lemma process_placeholders_missing_env_sample :
  process_placeholders sample_services "a: ENV::NOPE b AWS-SECRET::s" None
  = Raised ValueError "Environment variable 'NOPE' not found".
Proof.
  exact (process_placeholders_missing_env sample_services None
           "a: " "NOPE" " b AWS-SECRET::s"
           eq_refl ltac:(discriminate) eq_refl eq_refl eq_refl).
Defined.
